(** * crime-visualisation: a shallow embedding of [geolocation.py]

    The script loads a table of crime records, drops two rows by position
    and renders three scatter plots, a heat map and an interactive map.
    This file embeds the script function by function and proves the
    properties stated about it.

    Modelling conventions.
    - A pandas [DataFrame] is the list of its rows in order, each with its
      index label; the columns are the fields of [Crime].
    - A floating point number is the rational it stands for ([Q]): no
      NaN, no infinity.  An arithmetic operation on doubles is the exact
      operation followed by rounding; of the rounding only the interface
      [Float64] is used.
    - Python exceptions are values of [exn]; an effectful function is a
      function from the [World] (the file system and the pyplot figures)
      to a new world and a [result].  The world is kept when an exception
      propagates: what was drawn or written before the failure stays.
    - What the third-party map library does is not in the script: which
      corners its constructor refuses, and what it does with
      coordinates, is an interface, [BasemapLib]. *)

From Stdlib Require Import Ascii QArith Lqa.
From stdpp Require Import base list strings gmap.
From Equations Require Import Equations.

(** ** Python values, exceptions and effects *)

(** [IOError] stands for the operating system's errors ([OSError] and
    its subclasses: a missing file, a directory in the way). *)
Inductive exn := IndexError | KeyError | ValueError | IOError | ZeroDivisionError.

Inductive result (A : Type) :=
| Ok (a : A)
| Raise (e : exn).
Arguments Ok {A} a.
Arguments Raise {A} e.

Definition result_bind {A B} (r : result A) (k : A → result B) : result B :=
  match r with Ok a => k a | Raise e => Raise e end.

(** One row of the data file. *)
Record Crime := {
  long : Q;
  lat : Q;
  OFFENSE : string;
  METHOD : string;
  START_DATE : string
}.

(** A cell of a column selected by a run-time name: text or a number. *)
Inductive value := Str (s : string) | Num (q : Q).

(** A row with its index label. *)
Abbreviation DataFrame := (list (nat * Crime)).

(** [df[name]] for a column named in the script. *)
Definition column {A} (f : Crime → A) (df : DataFrame) : list A :=
  (λ row, f row.2) <$> df.

(** ** What the script draws and writes *)

(** One call of [m.scatter]: a marker on the current axes. *)
Record Marker := {
  m_lon : Q;
  m_lat : Q;
  m_color : string;
  m_alpha : Q
}.

(** The background map object: its corners are the bounds of the data. *)
Record Basemap := {
  llcrnrlon : Q;
  llcrnrlat : Q;
  urcrnrlon : Q;
  urcrnrlat : Q
}.

(** The pseudocolour layer of the heat map. *)
Record Mesh := {
  mesh_xs : list (list Q);
  mesh_ys : list (list Q);
  mesh_c : list (list nat)
}.

Record Figure := {
  background : option Basemap;
  markers : list Marker;
  mesh : option Mesh;
  title : string;
  legend : list (string * string)
}.

Definition new_figure : Figure :=
  {| background := None; markers := []; mesh := None; title := ""; legend := [] |}.

(** The columns of the interactive map's [ColumnDataSource]. *)
Module source.
Record data := {
  color : list string;
  lat : list Q;
  lon : list Q;
  offense : list string;
  weapon : list string;
  start_date : list string
}.
End source.

(** The interactive document: the marker columns, the selector's labels
    and the option that is active when the page opens. *)
Record Document := {
  doc_title : string;
  doc_plot_title : string;
  doc_source : source.data;
  doc_tooltips : list (string * string);
  doc_labels : list string;
  doc_active : Z
}.

Inductive artifact :=
| Csv (rows : list Crime)
| Png (f : Figure)
| Html (d : Document).

Inductive node := Dir | File (a : artifact).

Record World := {
  fs : gmap string node;
  figures : list Figure
}.

(** The figure pyplot draws on: the one created last. *)
Definition gcf (w : World) : Figure := hd new_figure (figures w).

(** ** The effect monad *)

Definition M (A : Type) : Type := World → World * result A.

#[global] Instance M_ret : MRet M := λ A a w, (w, Ok a).
#[global] Instance M_bind : MBind M := λ A B k m w,
  match m w with
  | (w', Ok a) => k a w'
  | (w', Raise e) => (w', Raise e)
  end.

Definition lift {A} (r : result A) : M A := λ w, (w, r).
Definition raise {A} (e : exn) : M A := lift (Raise e).

(** Python's [map]: a list at once in Python 2, an iterator whose items
    are computed when they are pulled in Python 3.  An iterable is the
    list of its items, each one a value or the exception pulling it
    raises. *)
Inductive python := Py2 | Py3.

Definition iterable (A : Type) := list (result A).

Fixpoint all_ok {A} (it : iterable A) : result (list A) :=
  match it with
  | [] => Ok []
  | r :: it' => result_bind r (λ a, result_bind (all_ok it') (λ l, Ok (a :: l)))
  end.

Definition py_map {A B} (py : python) (f : A → result B) (xs : list A) : result (iterable B) :=
  match py with
  | Py3 => Ok (f <$> xs)
  | Py2 => result_bind (all_ok (f <$> xs)) (λ l, Ok (Ok <$> l))
  end.

(** [for a, b, c in zip(xs, ys, it): body]: [zip] pulls from its
    arguments from left to right and stops at the first that is
    exhausted. *)
Fixpoint for_zip3 {A B C} (xs : list A) (ys : list B) (it : iterable C)
    (body : A → B → C → M unit) : M unit :=
  match xs, ys, it with
  | x :: xs', y :: ys', r :: it' =>
      c ← lift r; body x y c;; for_zip3 xs' ys' it' body
  | _, _, _ => mret tt
  end.

(** ** The file system *)

Definition path_exists (p : string) : M bool := λ w, (w, Ok (bool_decide (is_Some (fs w !! p)))).

Definition makedirs (p : string) : M unit := λ w,
  match fs w !! p with
  | Some _ => (w, Raise IOError)
  | None => ({| fs := <[p := Dir]> (fs w); figures := figures w |}, Ok tt)
  end.

(** The directory part of a path: up to and including its last slash. *)
Fixpoint dirname (p : string) : string :=
  match p with
  | EmptyString => ""
  | String c p' =>
      if bool_decide (c = "/"%char) then String c (dirname p')
      else match dirname p' with
           | EmptyString => ""
           | d => String c d
           end
  end.

(** Opening a file for writing fails unless its directory exists, and
    fails on a path that is a directory. *)
Definition write_file (p : string) (a : artifact) : M unit := λ w,
  match fs w !! dirname p, fs w !! p with
  | Some Dir, Some Dir => (w, Raise IOError)
  | Some Dir, _ => ({| fs := <[p := File a]> (fs w); figures := figures w |}, Ok tt)
  | _, _ => (w, Raise IOError)
  end.

(** ** pyplot: the figure state *)

Definition plt_figure : M unit := λ w,
  ({| fs := fs w; figures := new_figure :: figures w |}, Ok tt).

(** Drawing goes to the current figure; pyplot makes one when there is none. *)
Definition on_gcf (f : Figure → Figure) : M unit := λ w,
  ({| fs := fs w; figures := f (gcf w) :: tail (figures w) |}, Ok tt).

Definition plt_legend (handles : list (string * string)) : M unit :=
  on_gcf (λ g, {| background := background g; markers := markers g; mesh := mesh g;
                  title := title g; legend := handles |}).

Definition plt_title (t : string) : M unit :=
  on_gcf (λ g, {| background := background g; markers := markers g; mesh := mesh g;
                  title := t; legend := legend g |}).

Definition savefig (p : string) : M unit := λ w, write_file p (Png (gcf w)) w.

(** ** Double precision

    Coordinates and bin edges are doubles.  A sum, difference, product
    or quotient of doubles is the exact one, rounded: [fl].  Of the
    rounding this much is used: it keeps the order, it leaves a double
    as it is, and zero is a double. *)
Class Float64 := {
  fl : Q → Q;
  fl_le : ∀ x y, (x <= y)%Q → (fl x <= fl y)%Q;
  fl_fl : ∀ x, (fl (fl x) == fl x)%Q;
  fl_0 : (fl 0 == 0)%Q
}.

(** Arithmetic without rounding: every rational counts as a double. *)
#[local] Instance exact_arithmetic : Float64.
Proof.
  refine {| fl := λ x, x |}.
  - intros x y Hxy. exact Hxy.
  - intros x. apply Qeq_refl.
  - apply Qeq_refl.
Defined.

(** ** numpy *)

Definition Qlt_bool (a b : Q) : bool := negb (Qle_bool b a).

(** [np.max], [np.min] and the builtins [max], [min]: an empty argument
    raises [ValueError]. *)
Definition np_max (xs : list Q) : result Q :=
  match xs with
  | [] => Raise ValueError
  | x :: xs' => Ok (foldl (λ a b, if Qlt_bool a b then b else a) x xs')
  end.

Definition np_min (xs : list Q) : result Q :=
  match xs with
  | [] => Raise ValueError
  | x :: xs' => Ok (foldl (λ a b, if Qlt_bool b a then b else a) x xs')
  end.

(** [np.linspace(start, stop, num)] on doubles: with [div = num - 1],
    [delta = stop - start] and [step = delta / div], the samples are
    [arange(num) * step + start], or [arange(num) / div * delta + start]
    when the step has rounded to zero, and the last one is set to
    [stop].  Every operation rounds. *)
Definition linspace `{Float64} (start stop : Q) (num : nat) : list Q :=
  let div := inject_Z (Z.of_nat (num - 1)) in
  let delta := fl (stop - start) in
  let step := fl (delta / div) in
  let y := (λ i : nat,
              let k := inject_Z (Z.of_nat i) in
              fl ((if Qeq_bool step 0 then fl (fl (k / div) * delta) else fl (k * step))
                  + start)) <$> seq 0 num in
  if decide (1 < num)%nat then <[(num - 1)%nat := stop]> y else y.

(** [np.searchsorted(edges, x, side='right')] on sorted edges: the index
    of the first edge above [x]. *)
Fixpoint searchsorted_right (edges : list Q) (x : Q) : nat :=
  match edges with
  | [] => 0
  | e :: es => if Qle_bool e x then S (searchsorted_right es x) else 0
  end.

(** The bin of [x] among the [length edges + 1] bins of one axis: bin 0
    is below the first edge, the last bin beyond the last edge, and a
    sample on the last edge is moved into the bin on its left. *)
Definition bin_index (edges : list Q) (x : Q) : nat :=
  let n := searchsorted_right edges x in
  match last edges with
  | Some e => if Qeq_bool x e then (n - 1)%nat else n
  | None => n
  end.

Fixpoint increasing (edges : list Q) : bool :=
  match edges with
  | e1 :: es => match es with
                | e2 :: _ => Qle_bool e1 e2 && increasing es
                | [] => true
                end
  | [] => true
  end.

(** [h[1:-1]] *)
Definition inner {A} (l : list A) : list A := take (length l - 2) (drop 1 l).

(** [np.histogramdd] for two axes: count every sample in the cell of its
    two bin numbers, then cut the outlier bins off each axis. *)
Definition bump (i j : nat) (h : list (list nat)) : list (list nat) :=
  alter (alter S j) i h.

Definition histogramdd (sample : list (Q * Q)) (ex ey : list Q) : result (list (list nat)) :=
  if increasing ex && increasing ey then
    let nx := (length ex + 1)%nat in
    let ny := (length ey + 1)%nat in
    let hist := foldl (λ h s, bump (bin_index ex s.1) (bin_index ey s.2) h)
                      (replicate nx (replicate ny 0%nat)) sample in
    Ok (inner <$> inner hist)
  else Raise ValueError.

Definition histogram2d (x y : list Q) (xedges yedges : list Q)
    : result (list (list nat) * list Q * list Q) :=
  if decide (length x = length y) then
    result_bind (histogramdd (zip x y) xedges yedges) (λ h, Ok (h, xedges, yedges))
  else Raise ValueError.

(** [np.meshgrid(xs, ys)]: one row per [y], one column per [x]. *)
Definition meshgrid (xs ys : list Q) : list (list Q) * list (list Q) :=
  ((λ _, xs) <$> ys, (λ y, (λ _, y) <$> xs) <$> ys).

(** ** pandas *)

(** [pd.read_csv]: the rows of the file, labelled 0, 1, 2, ...  A file
    that does not hold a table makes the parser raise (its errors are
    [ValueError]s); a missing file or a directory cannot be opened. *)
Definition read_csv (p : string) : M DataFrame := λ w,
  match fs w !! p with
  | Some (File (Csv rows)) => (w, Ok (imap pair rows))
  | Some (File _) => (w, Raise ValueError)
  | Some Dir | None => (w, Raise IOError)
  end.

(** [df.index[positions]]: the labels at the positions; a position past
    the end raises [IndexError]. *)
Fixpoint index_getitem (df : DataFrame) (positions : list nat) : result (list nat) :=
  match positions with
  | [] => Ok []
  | p :: ps =>
      match df !! p with
      | Some row => result_bind (index_getitem df ps) (λ ls, Ok (row.1 :: ls))
      | None => Raise IndexError
      end
  end.

(** [df.drop(labels)]: the rows whose label is not listed; a label that
    no row has raises [KeyError]. *)
Definition drop_labels (labels : list nat) (df : DataFrame) : result DataFrame :=
  if decide (Forall (λ l, l ∈ df.*1) labels)
  then Ok (filter (λ row, row.1 ∉ labels) df)
  else Raise KeyError.

(** [df[col]] for a column named at run time. *)
Definition getitem (df : DataFrame) (col : string) : result (list value) :=
  if decide (col = "long") then Ok (Num <$> column long df)
  else if decide (col = "lat") then Ok (Num <$> column lat df)
  else if decide (col = "OFFENSE") then Ok (Str <$> column OFFENSE df)
  else if decide (col = "METHOD") then Ok (Str <$> column METHOD df)
  else if decide (col = "START_DATE") then Ok (Str <$> column START_DATE df)
  else Raise KeyError.

(** ** The script *)

Definition DATA_FILE : string := "data/crime_homicide_subset.csv".
Definition OUT_DIR : string := "output/".

Definition loadData : M DataFrame :=
  df ← read_csv DATA_FILE;
  labels ← lift (index_getitem df [222; 758]%nat);
  lift (drop_labels labels df).

(** What the map library does.  Its constructor checks the corners it is
    given and may refuse them: [basemap_error] is the exception it then
    raises.  [shiftdata] returns arrays of the shapes it was given, and
    calling the map object projects a point. *)
Class BasemapLib := {
  basemap_error : Q → Q → Q → Q → option exn;
  shiftdata : Basemap → list Q → list Q → list Q * list Q;
  shiftdata_shape : ∀ m lons lats,
    length (shiftdata m lons lats).1 = length lons ∧
    length (shiftdata m lons lats).2 = length lats;
  to_map : Basemap → Q → Q → Q * Q
}.

(** The checks of the constructor on the corners of a bounding box, in
    its order: a longitude outside [-360, 720] or a latitude outside
    [-90, 90] is a [ValueError]; the aspect ratio of the map is the
    height over the width, so a box of no width is a
    [ZeroDivisionError]. *)
Definition corners_error (llcrnrlon llcrnrlat urcrnrlon urcrnrlat : Q) : option exn :=
  if negb (Qle_bool (-360) llcrnrlon && Qle_bool llcrnrlon 720
           && Qle_bool (-360) urcrnrlon && Qle_bool urcrnrlon 720
           && Qle_bool (-90) llcrnrlat && Qle_bool llcrnrlat 90
           && Qle_bool (-90) urcrnrlat && Qle_bool urcrnrlat 90)
  then Some ValueError
  else if Qeq_bool llcrnrlon urcrnrlon then Some ZeroDivisionError
  else None.

(** A library with these checks that leaves every coordinate where it
    is. *)
#[local] Instance identity_lib : BasemapLib.
Proof.
  by refine {| basemap_error := corners_error;
               shiftdata := λ _ lons lats, (lons, lats);
               to_map := λ _ x y, (x, y) |}.
Defined.

(** [Basemap(llcrnrlon=..., llcrnrlat=..., urcrnrlon=..., urcrnrlat=...)] *)
Definition new_Basemap `{BasemapLib} (llcrnrlon llcrnrlat urcrnrlon urcrnrlat : Q)
    : result Basemap :=
  match basemap_error llcrnrlon llcrnrlat urcrnrlon urcrnrlat with
  | Some e => Raise e
  | None => Ok {| llcrnrlon := llcrnrlon; llcrnrlat := llcrnrlat;
                  urcrnrlon := urcrnrlon; urcrnrlat := urcrnrlat |}
  end.

Definition arcgisimage (m : Basemap) : M unit :=
  on_gcf (λ g, {| background := Some m; markers := markers g; mesh := mesh g;
                  title := title g; legend := legend g |}).

Definition backgroundLayer `{BasemapLib} (lons lats : list Q) : M Basemap :=
  maxLon ← lift (np_max lons);
  maxLat ← lift (np_max lats);
  minLon ← lift (np_min lons);
  minLat ← lift (np_min lats);
  m ← lift (new_Basemap minLon minLat maxLon maxLat);
  arcgisimage m;;
  mret m.

Definition featToCol : gmap string string :=
  <["SEX ABUSE" := "r"]> (<["HOMICIDE" := "b"]> (<["GUN" := "r"]>
    (<["KNIFE" := "b"]> (<["OTHERS" := "g"]> ∅)))).

(** [featToCol[feat]] *)
Definition featToCol_getitem (feat : value) : result string :=
  match feat with
  | Str s => match featToCol !! s with
             | Some c => Ok c
             | None => Raise KeyError
             end
  | Num _ => Raise KeyError
  end.

Definition scatter (lon lat : Q) (c : string) (alpha : Q) : M unit :=
  on_gcf (λ g, {| background := background g;
                  markers := markers g ++ [{| m_lon := lon; m_lat := lat; m_color := c; m_alpha := alpha |}];
                  mesh := mesh g; title := title g; legend := legend g |}).

(** [str.lower] *)
Definition lower_char (c : ascii) : ascii :=
  let n := nat_of_ascii c in
  if decide (65 ≤ n ≤ 90)%nat then ascii_of_nat (n + 32) else c.

Fixpoint lower (s : string) : string :=
  match s with
  | EmptyString => EmptyString
  | String c s' => String (lower_char c) (lower s')
  end.

(** Both renderers of PNG files end the same way. *)
Definition ensure_out_dir : M unit :=
  there ← path_exists OUT_DIR;
  if there : bool then mret tt else makedirs OUT_DIR.

(** [colors = map(lambda feat: featToCol[feat], df[feature])
             if feature is not None else ['r'] * len(df)] *)
Definition colors (py : python) (df : DataFrame) (feature : option string)
    : result (iterable string) :=
  match feature with
  | Some f => result_bind (getitem df f) (py_map py featToCol_getitem)
  | None => Ok (Ok <$> replicate (length df) "r")
  end.

Section Renderers.
Context `{Float64} `{BasemapLib}.

Definition scatterPlot (py : python) (df : DataFrame) (feature : option string) : M unit :=
  let lons := column long df in
  let lats := column lat df in
  colors ← lift (colors py df feature);
  plt_figure;;
  m ← backgroundLayer lons lats;
  let shifted := shiftdata m lons lats in
  for_zip3 shifted.1 shifted.2 colors (λ lon lat c, scatter lon lat c (4 # 10));;
  let title := "Scatter plot of crimes in DC" in
  title ← (if decide (feature = Some "OFFENSE") then
             plt_legend [("red", "sex abuse"); ("blue", "homicide")];;
             mret (title +:+ " according to the type of offence")
           else mret title);
  title ← (if decide (feature = Some "METHOD") then
             plt_legend [("red", "gun"); ("blue", "knife"); ("green", "other")];;
             mret (title +:+ " according to the weapon")
           else mret title);
  plt_title title;;
  ensure_out_dir;;
  savefig (OUT_DIR +:+ "scatter" +:+
           match feature with Some f => "_" +:+ lower f | None => "" end +:+ ".png").

Definition pcolormesh (xs ys : list (list Q)) (c : list (list nat)) : M unit :=
  on_gcf (λ g, {| background := background g; markers := markers g;
                  mesh := Some {| mesh_xs := xs; mesh_ys := ys; mesh_c := c |};
                  title := title g; legend := legend g |}).

Definition heatmap (df : DataFrame) : M unit :=
  let lons := column long df in
  let lats := column lat df in
  plt_figure;;
  map ← backgroundLayer lons lats;
  let db := 1%Q in
  lo ← lift (np_min lons);
  hi ← lift (np_max lons);
  let lon_bins := linspace (fl (lo - db)) (fl (hi + db)) 500 in
  lo ← lift (np_min lats);
  hi ← lift (np_max lats);
  let lat_bins := linspace (fl (lo - db)) (fl (hi + db)) 500 in
  h ← lift (histogram2d lats lons lat_bins lon_bins);
  let density := h.1.1 in
  let grids := meshgrid lon_bins lat_bins in
  let projected := zip_with (zip_with (to_map map)) grids.1 grids.2 in
  pcolormesh (List.map (List.map fst) projected) (List.map (List.map snd) projected) density;;
  plt_title "Heatmap of crimes in DC";;
  ensure_out_dir;;
  savefig (OUT_DIR +:+ "heatmap.png").
End Renderers.

(** The interactive map.  Nothing here creates the output directory. *)
Definition bokeh_source (df : DataFrame) : source.data :=
  {| source.color := replicate (length df) "rgb(255, 0, 0)";
     source.lat := column lat df;
     source.lon := column long df;
     source.offense := column OFFENSE df;
     source.weapon := column METHOD df;
     source.start_date := column START_DATE df |}.

Definition bokeh_scatter (df : DataFrame) : M unit :=
  let doc := {| doc_title := "Crimes in Washington DC";
                doc_plot_title := "Scatter plot of crimes in DC";
                doc_source := bokeh_source df;
                doc_tooltips := [("Weapon", "@weapon"); ("Offense", "@offense"); ("Date", "@start_date")];
                doc_labels := ["All"; "Offense (sex abuse [red], homicide [blue])";
                               "Weapon (gun [red], knife [blue], other [green])"];
                doc_active := 0 |} in
  write_file (OUT_DIR +:+ "bokeh_scatter.html") (Html doc).

(** ** The selector's callback (JavaScript) *)

(** [data['color'][i] = c] for an [i] below the length of the array,
    which is where the loops below keep it: one element is replaced and
    the array does not grow. *)
Definition set_color (i : nat) (c : string) (d : source.data) : source.data :=
  {| source.color := <[i := c]> (source.color d);
     source.lat := source.lat d;
     source.lon := source.lon d;
     source.offense := source.offense d;
     source.weapon := source.weapon d;
     source.start_date := source.start_date d |}.

(** [for (; i < data['color'].length; i++) { data['color'][i] = pick(data, i) }] *)
Equations? recolor (pick : source.data → nat → string) (i : nat) (d : source.data)
    : source.data by wf (length (source.color d) - i)%nat lt :=
  recolor pick i d with decide (i < length (source.color d))%nat := {
    | left _ => recolor pick (S i) (set_color i (pick d i) d)
    | right _ => d }.
Proof. rewrite length_insert. lia. Qed.

(** Reading past the end of a JavaScript array gives [undefined], which
    is [===] to no string: [l !! i = Some s] is [l[i] === s]. *)
Definition by_offense (d : source.data) (i : nat) : string :=
  if decide (source.offense d !! i = Some "SEX ABUSE") then "rgb(255,0,0)"
  else "rgb(0,0,255)".

Definition by_weapon (d : source.data) (i : nat) : string :=
  if decide (source.weapon d !! i = Some "GUN") then "rgb(255,0,0)"
  else if decide (source.weapon d !! i = Some "KNIFE") then "rgb(0,0,255)"
  else "rgb(0,255,0)".

(** The body of the callback; [option] is [cb_obj.active].  The [switch]
    has no default branch, and the closing [source.trigger('change')]
    redraws the markers without touching the data. *)
Definition callback (option : Z) (data : source.data) : source.data :=
  match option with
  | 0%Z => recolor (λ _ _, "rgb(255,0,0)") 0 data
  | 1%Z => recolor by_offense 0 data
  | 2%Z => recolor by_weapon 0 data
  | _ => data
  end.

(** ** The whole run *)

Definition main `{Float64} `{BasemapLib} (py : python) : M unit :=
  df ← loadData;
  scatterPlot py df None;;
  scatterPlot py df (Some "OFFENSE");;
  scatterPlot py df (Some "METHOD");;
  heatmap df;;
  bokeh_scatter df.

(** ** Colours

    A colour is its red, green and blue components, from 0 to 255.  The
    red, blue and green of the selector are the CSS colours
    [rgb(255,0,0)], [rgb(0,0,255)] and [rgb(0,255,0)]; spaces in a
    triple do not count.  matplotlib's one-letter codes 'r' and 'b' are
    the same red and blue, but 'g' is the half green (0, 0.5, 0),
    [#008000]. *)

Inductive colour := RGB (r g b : Z).

Definition Red : colour := RGB 255 0 0.
Definition Blue : colour := RGB 0 0 255.
Definition Green : colour := RGB 0 255 0.
Definition HalfGreen : colour := RGB 0 128 0.

Definition mpl_colour (c : string) : option colour :=
  if decide (c = "r") then Some Red
  else if decide (c = "b") then Some Blue
  else if decide (c = "g") then Some HalfGreen
  else None.

Fixpoint strip_spaces (s : string) : string :=
  match s with
  | EmptyString => EmptyString
  | String c s' =>
      if decide (c = " "%char) then strip_spaces s' else String c (strip_spaces s')
  end.

Definition css_colour (c : string) : option colour :=
  let c := strip_spaces c in
  if decide (c = "rgb(255,0,0)") then Some Red
  else if decide (c = "rgb(0,0,255)") then Some Blue
  else if decide (c = "rgb(0,255,0)") then Some Green
  else None.

(** * Vocabulary of the properties *)

(** ** Worlds and tables to run the script on *)

Definition sample_crime : Crime :=
  {| long := -77 # 1; lat := 389 # 10; OFFENSE := "HOMICIDE"; METHOD := "GUN";
     START_DATE := "1/1/2008" |}.

Definition world_with (rows : list Crime) : World :=
  {| fs := {[ DATA_FILE := File (Csv rows) ]}; figures := [] |}.

Definition crime (offense method : string) : Crime :=
  {| long := -77 # 1; lat := 389 # 10; OFFENSE := offense; METHOD := method;
     START_DATE := "1/1/2008" |}.

Definition crime_at (x y : Q) (offense method : string) : Crime :=
  {| long := x; lat := y; OFFENSE := offense; METHOD := method;
     START_DATE := "1/1/2008" |}.

Definition two_crimes : DataFrame :=
  [(0%nat, crime_at (-7703 # 100) (3889 # 100) "SEX ABUSE" "KNIFE");
   (1%nat, crime_at (-7695 # 100) (3892 # 100) "HOMICIDE" "GUN")].

(** The rows of a data file whose records lie at [n] different places. *)
Definition spread_rows (offense method : string) (n : nat) : list Crime :=
  (λ i : nat, crime_at ((-770000 + Z.of_nat i) # 10000) ((388000 + Z.of_nat i) # 10000)
                       offense method) <$> seq 0 n.

Definition empty_world : World := {| fs := ∅; figures := [] |}.

(** ** Markers, files and colours *)

Definition add_markers (ms : list Marker) (g : Figure) : Figure :=
  {| background := background g; markers := markers g ++ ms; mesh := mesh g;
     title := title g; legend := legend g |}.

(** The markers the loop draws before it stops, and how it stops. *)
Fixpoint plotted (alpha : Q) (xs ys : list Q) (it : iterable string) : list Marker :=
  match xs, ys, it with
  | x :: xs', y :: ys', Ok c :: it' =>
      {| m_lon := x; m_lat := y; m_color := c; m_alpha := alpha |} :: plotted alpha xs' ys' it'
  | _, _, _ => []
  end.

Fixpoint loop_result (xs ys : list Q) (it : iterable string) : result unit :=
  match xs, ys, it with
  | _ :: xs', _ :: ys', r :: it' =>
      match r with Ok _ => loop_result xs' ys' it' | Raise e => Raise e end
  | _, _, _ => Ok tt
  end.

Definition out_dir_free (w : World) : Prop := ∀ a, fs w !! OUT_DIR ≠ Some (File a).

(** Nothing is in the way of writing the file [p] into the output
    directory: the directory's path is not taken by a file, and [p] is
    not a directory. *)
Definition can_save (w : World) (p : string) : Prop :=
  out_dir_free w ∧ fs w !! p ≠ Some Dir.

Definition written (w : World) (p : string) : Prop := ∃ a, fs w !! p = Some (File a).

Definition scatter_png (feature : option string) : string :=
  OUT_DIR +:+ "scatter" +:+
  match feature with Some f => "_" +:+ lower f | None => "" end +:+ ".png".

Definition offense_rule (c : Crime) : colour :=
  if decide (OFFENSE c = "SEX ABUSE") then Red else Blue.

Definition method_rule (c : Crime) : colour :=
  if decide (METHOD c = "GUN") then Red
  else if decide (METHOD c = "KNIFE") then Blue
  else Green.

(** The categorical value a feature selects in a record. *)
Definition category (feature : string) (c : Crime) : string :=
  if decide (feature = "OFFENSE") then OFFENSE c else METHOD c.

(** One of the three colours of the script. *)
Definition fixed_colour (c : string) : Prop :=
  css_colour c = Some Red ∨ css_colour c = Some Blue ∨ css_colour c = Some Green.

(** The selector is activated with the options of [options], in order. *)
Definition activations (options : list Z) (d : source.data) : source.data :=
  foldl (λ d option, callback option d) d options.

(** ** Edges, cells and counts *)

(** Edges that grow strictly, read by position. *)
Definition ascending (edges : list Q) : Prop :=
  ∀ i j x y, (i < j)%nat → edges !! i = Some x → edges !! j = Some y → (x < y)%Q.

(** Cell [k] of an axis: from edge [k] up to, not including, edge [k + 1];
    the last cell includes its upper edge. *)
Definition in_bin (edges : list Q) (k : nat) (x : Q) : bool :=
  match edges !! k, edges !! S k with
  | Some lo, Some hi =>
      Qle_bool lo x
      && (Qlt_bool x hi || (bool_decide (S (S k) = length edges) && Qeq_bool x hi))
  | _, _ => false
  end.

Definition rect (nx ny : nat) (h : list (list nat)) : Prop :=
  length h = nx ∧ Forall (λ row, length row = ny) h.

Definition total (h : list (list nat)) : nat := sum_list (sum_list <$> h).

Definition cell_at (h : list (list nat)) (i j : nat) : option nat :=
  row ← h !! i; row !! j.

(** Edges that never decrease, read by position. *)
Definition monotone (edges : list Q) : Prop :=
  ∀ i j x y, (i ≤ j)%nat → edges !! i = Some x → edges !! j = Some y → (x <= y)%Q.

(** [np.linspace(min(xs) - db, max(xs) + db, 500)] with [db = 1] *)
Definition padded_bins `{Float64} (xs : list Q) : result (list Q) :=
  result_bind (np_min xs) (λ lo,
    result_bind (np_max xs) (λ hi, Ok (linspace (fl (lo - 1)) (fl (hi + 1)) 500))).

(** The coordinates of a table are doubles. *)
Definition doubles `{Float64} (df : DataFrame) : Prop :=
  Forall (λ row, (fl (long row.2) == long row.2)%Q ∧ (fl (lat row.2) == lat row.2)%Q) df.

(** The edges of the two axes of the heat map pass numpy's check: they
    never decrease. *)
Definition edges_pass `{Float64} (df : DataFrame) : Prop :=
  ∀ bins, padded_bins (column long df) = Ok bins ∨ padded_bins (column lat df) = Ok bins →
          increasing bins = true.

(** The density drawn on the current figure, when there is one. *)
Definition drawn_density (w : World) : option (list (list nat)) :=
  mesh_c <$> mesh (gcf w).

(** [np.linspace]'s step without rounding, and the pair of bin numbers
    of a record. *)
Definition linspace_step (a b : Q) (n : nat) : Q :=
  ((b - a) / inject_Z (Z.of_nat (n - 1)))%Q.

Definition bins_of (ex ey : list Q) (fx fy : Crime → Q) (row : nat * Crime) : nat * nat :=
  (bin_index ex (fx row.2), bin_index ey (fy row.2)).

(** ** What a call may write *)

(** A computation that leaves every path outside [ps] as it found it,
    whatever its outcome. *)
Definition touches_only {A} (ps : list string) (m : M A) : Prop :=
  ∀ w p, p ∉ ps → fs (m w).1 !! p = fs w !! p.

(** The six columns of a data source have one length. *)
Definition columns_of_length (n : nat) (d : source.data) : Prop :=
  length (source.color d) = n ∧ length (source.lat d) = n ∧ length (source.lon d) = n
  ∧ length (source.offense d) = n ∧ length (source.weapon d) = n
  ∧ length (source.start_date d) = n.

Section Vocabulary.
Context `{Float64} `{BasemapLib}.

(** What the background layer returns on the coordinates of a table, in
    any world; the map can be built when it is a map. *)
Definition map_of (df : DataFrame) : result Basemap :=
  (backgroundLayer (column long df) (column lat df) empty_world).2.

Definition builds_map (df : DataFrame) : Prop := ∃ m, map_of df = Ok m.

(** The colours of the markers the static renderer has drawn. *)
Definition static_colours (py : python) (df : DataFrame) (feature : option string)
    (w : World) : list (option colour) :=
  mpl_colour <$> (m_color <$> markers (gcf (scatterPlot py df feature w).1)).

(** The renderers in the order of the script, on a loaded table. *)
Definition render_all (py : python) (df : DataFrame) : M unit :=
  scatterPlot py df None;;
  scatterPlot py df (Some "OFFENSE");;
  scatterPlot py df (Some "METHOD");;
  heatmap df;;
  bokeh_scatter df.

End Vocabulary.

(** * Properties *)

(** ** Lists with labels *)

Section Labelled.
Context {A : Type}.
Implicit Types l : list A.

Lemma filter_all (P : nat * A → Prop) `{∀ x, Decision (P x)} (rows : list (nat * A)) :
  Forall P rows → filter P rows = rows.
Proof.
  induction 1 as [|x rows Hx _ IH]; [done|].
  by rewrite filter_cons_True, IH.
Qed.

Lemma labels_imap (f : nat → nat) l :
  (imap (λ i x, (f i, x)) l).*2 = l.
Proof.
  revert f. induction l as [|x l IH]; intros f; [done|].
  cbn. f_equal. apply (IH (f ∘ S)).
Qed.

Lemma Forall_imap_label (P : nat → Prop) (f : nat → nat) l :
  (∀ i, (i < length l)%nat → P (f i)) →
  Forall (λ row : nat * A, P row.1) (imap (λ i x, (f i, x)) l).
Proof.
  intros HP. apply Forall_lookup. intros i [k x] Hi.
  rewrite list_lookup_imap in Hi.
  destruct (l !! i) as [y|] eqn:Hy; simplify_eq/=.
  apply HP. by eapply lookup_lt_Some.
Qed.

(** Dropping the labels [p] and [q] of a freshly read table leaves the
    three stretches around them, labels unchanged. *)
Lemma drop_two (p q : nat) l :
  (p < q < length l)%nat →
  filter (λ row : nat * A, row.1 ∉ [p; q]) (imap pair l)
  = imap pair (take p l)
    ++ imap (λ i x, (S p + i, x)%nat) (take (q - S p) (drop (S p) l))
    ++ imap (λ i x, (S q + i, x)%nat) (drop (S q) l).
Proof.
  intros [Hpq Hq].
  destruct (lookup_lt_is_Some_2 l p) as [a Ha]; [lia|].
  destruct (lookup_lt_is_Some_2 l q) as [b Hb]; [lia|].
  assert (drop (S p) l !! (q - S p)%nat = Some b) as Hb'.
  { rewrite lookup_drop. by replace (S p + (q - S p))%nat with q by lia. }
  assert (l = take p l ++ a :: take (q - S p) (drop (S p) l) ++ b :: drop (S q) l) as Hl.
  { rewrite <-(take_drop_middle l p a) at 1 by done. do 2 f_equal.
    rewrite <-(take_drop_middle _ _ b Hb') at 1. do 2 f_equal.
    rewrite drop_drop. f_equal. lia. }
  assert (length (take p l) = p) as Hlp by (rewrite length_take; lia).
  assert (length (take (q - S p) (drop (S p) l)) = (q - S p)%nat) as Hlq
    by (rewrite length_take, length_drop; lia).
  rewrite Hl at 1.
  rewrite imap_app, filter_app, imap_cons, filter_cons_False; last first.
  { cbn. rewrite Hlp, Nat.add_0_r. set_solver. }
  rewrite imap_app, filter_app, imap_cons, filter_cons_False; last first.
  { cbn. rewrite Hlp, Hlq. replace (p + S (q - S p + 0))%nat with q by lia. set_solver. }
  f_equal; [|f_equal].
  - apply filter_all, (Forall_imap_label (λ k, k ∉ [p; q]) id).
    intros i Hi. rewrite Hlp in Hi. unfold id.
    rewrite !elem_of_cons, elem_of_nil. lia.
  - erewrite imap_ext; [|intros i x _; rewrite Hlp; reflexivity].
    cbn.
    rewrite filter_all.
    + apply imap_ext. intros i x _. cbn. f_equal. lia.
    + apply (Forall_imap_label (λ k, k ∉ [p; q]) (λ i, p + S i)%nat).
      intros i Hi. rewrite Hlq in Hi.
      rewrite !elem_of_cons, elem_of_nil. lia.
  - erewrite imap_ext; [|intros i x _; rewrite Hlp, Hlq; reflexivity].
    cbn.
    rewrite filter_all.
    + apply imap_ext. intros i x _. cbn. f_equal. lia.
    + apply (Forall_imap_label (λ k, k ∉ [p; q]) (λ i, p + S (q - S p + S i))%nat).
      intros i _.
      rewrite !elem_of_cons, elem_of_nil. lia.
Qed.
End Labelled.

(** ** The data loader *)

Ltac run := unfold mbind, M_bind, mret, M_ret, lift, raise; cbn beta iota.

Lemma index_getitem_in_range (rows : list Crime) (positions : list nat) :
  Forall (λ p, p < length rows)%nat positions →
  index_getitem (imap pair rows) positions = Ok positions.
Proof.
  induction 1 as [|p ps Hp _ IH]; [done|].
  cbn [index_getitem]. rewrite list_lookup_imap.
  destruct (lookup_lt_is_Some_2 rows p Hp) as [a ->].
  cbn. by rewrite IH.
Qed.

Lemma index_getitem_out_of_range (rows : list Crime) (positions : list nat) :
  Exists (λ p, length rows ≤ p)%nat positions →
  index_getitem (imap pair rows) positions = Raise IndexError.
Proof.
  induction 1 as [p ps Hp|p ps _ IH]; cbn [index_getitem]; rewrite list_lookup_imap.
  - by rewrite (lookup_ge_None_2 rows p Hp).
  - destruct (rows !! p); [|done]. cbn. by rewrite IH.
Qed.

Lemma label_in_index {A} (rows : list A) (p : nat) :
  (p < length rows)%nat → p ∈ (imap pair rows).*1.
Proof.
  intros Hp. destruct (lookup_lt_is_Some_2 rows p Hp) as [a Ha].
  apply list_elem_of_fmap. exists (p, a). split; [done|].
  by apply (elem_of_lookup_imap_2 pair).
Qed.

(** What the loader returns on a file long enough. *)
Lemma loadData_long_file (w : World) (rows : list Crime) :
  fs w !! DATA_FILE = Some (File (Csv rows)) →
  (759 ≤ length rows)%nat →
  loadData w = (w, Ok (filter (λ row : nat * Crime, row.1 ∉ [222; 758]%nat) (imap pair rows))).
Proof.
  intros Hfile Hlen. unfold loadData, read_csv. run. rewrite Hfile.
  rewrite index_getitem_in_range by (repeat constructor; lia).
  unfold drop_labels. rewrite decide_True; [done|].
  repeat constructor; apply label_in_index; lia.
Qed.

(** On a shorter file the positions do not all exist: nothing is returned. *)
Lemma loadData_short_file (w : World) (rows : list Crime) :
  fs w !! DATA_FILE = Some (File (Csv rows)) →
  (length rows < 759)%nat →
  loadData w = (w, Raise IndexError).
Proof.
  intros Hfile Hlen. unfold loadData, read_csv. run. rewrite Hfile.
  rewrite index_getitem_out_of_range; [done|].
  apply Exists_cons_tl, Exists_cons_hd. lia.
Qed.

(** C1, as amended.  From a data file of n rows, n at least 759, the
    loader returns a table of exactly n - 2 rows: the rows of the file in
    their order and under their positions, without the two that were at
    the zero-based positions 222 and 758. *)
Theorem loadData_drops_rows_222_and_758 (w : World) (rows : list Crime) :
  fs w !! DATA_FILE = Some (File (Csv rows)) →
  (759 ≤ length rows)%nat →
  ∃ df : DataFrame,
    loadData w = (w, Ok df)
    ∧ length df = (length rows - 2)%nat
    ∧ df.*2 = take 222 rows ++ take 535 (drop 223 rows) ++ drop 759 rows
    ∧ ∀ i r, (i, r) ∈ df ↔ rows !! i = Some r ∧ i ≠ 222%nat ∧ i ≠ 758%nat.
Proof.
  intros Hfile Hlen. eexists. split; [by apply loadData_long_file|].
  split; [|split].
  - rewrite drop_two by lia.
    rewrite !length_app, !length_imap, !length_take, !length_drop. lia.
  - rewrite drop_two by lia.
    rewrite !fmap_app.
    rewrite (labels_imap id), (labels_imap (λ i, S 222 + i)%nat), (labels_imap (λ i, S 758 + i)%nat).
    reflexivity.
  - intros i r. rewrite list_elem_of_filter, elem_of_lookup_imap.
    rewrite !elem_of_cons, elem_of_nil. cbn [fst]. split.
    + intros [Hi (j & y & [= -> ->] & Hj)]. split; [done|lia].
    + intros [Hi Hne]. split; [lia|]. by exists i, r.
Qed.

Lemma loadData_drops_rows_222_and_758_witness :
  ∃ df : DataFrame,
    loadData (world_with (replicate 759 sample_crime))
      = (world_with (replicate 759 sample_crime), Ok df)
    ∧ length df = (length (replicate 759 sample_crime) - 2)%nat
    ∧ df.*2 = take 222 (replicate 759 sample_crime)
              ++ take 535 (drop 223 (replicate 759 sample_crime))
              ++ drop 759 (replicate 759 sample_crime)
    ∧ ∀ i r, (i, r) ∈ df ↔
        replicate 759 sample_crime !! i = Some r ∧ i ≠ 222%nat ∧ i ≠ 758%nat.
Proof.
  apply (loadData_drops_rows_222_and_758 (world_with (replicate 759 sample_crime))
           (replicate 759 sample_crime)).
  - apply lookup_singleton_eq.
  - rewrite length_replicate. lia.
Defined.

(** C1 as stated fails on a short file: with 758 rows there is no row at
    position 758, the loader raises [IndexError] and returns no table, let
    alone one of 756 rows. *)
Lemma loadData_758_rows_raises :
  length (replicate 758 sample_crime) = 758%nat
  ∧ loadData (world_with (replicate 758 sample_crime))
    = (world_with (replicate 758 sample_crime), Raise IndexError).
Proof.
  split; [apply length_replicate|].
  apply (loadData_short_file _ (replicate 758 sample_crime)); [apply lookup_singleton_eq|].
  rewrite length_replicate. lia.
Qed.

(** ** The background layer *)

Lemma np_max_is_Some (xs : list Q) : xs ≠ [] → ∃ q, np_max xs = Ok q.
Proof. destruct xs; [done|]. intros _. by eexists. Qed.

Lemma np_min_is_Some (xs : list Q) : xs ≠ [] → ∃ q, np_min xs = Ok q.
Proof. destruct xs; [done|]. intros _. by eexists. Qed.

Section Background.
Context `{BasemapLib}.

(** With no longitude or no latitude the bounds cannot be computed: the
    call raises before it reaches the map library or the figure. *)
Lemma backgroundLayer_no_data (lons lats : list Q) (w : World) :
  lons = [] ∨ lats = [] → backgroundLayer lons lats w = (w, Raise ValueError).
Proof.
  intros [-> | ->]; unfold backgroundLayer; run; [done|].
  by destruct lons.
Qed.

(** What the call returns does not depend on the world.  When the
    constructor refuses the corners nothing is drawn; otherwise the map
    image goes on the current figure. *)
Lemma backgroundLayer_run (lons lats : list Q) (w : World) :
  backgroundLayer lons lats w
  = match (backgroundLayer lons lats empty_world).2 with
    | Ok m =>
        ({| fs := fs w;
            figures := {| background := Some m; markers := markers (gcf w);
                          mesh := mesh (gcf w); title := title (gcf w);
                          legend := legend (gcf w) |} :: tail (figures w) |}, Ok m)
    | Raise e => (w, Raise e)
    end.
Proof.
  unfold backgroundLayer. run.
  destruct (np_max lons) as [maxLon|]; [|done].
  destruct (np_max lats) as [maxLat|]; [|done].
  destruct (np_min lons) as [minLon|]; [|done].
  destruct (np_min lats) as [minLat|]; [|done].
  by destruct (new_Basemap minLon minLat maxLon maxLat) as [m|e].
Qed.

(** A map that is returned has the extreme coordinates as its corners,
    and the constructor had nothing against them. *)
Lemma backgroundLayer_corners (lons lats : list Q) (m : Basemap) :
  (backgroundLayer lons lats empty_world).2 = Ok m →
  np_min lons = Ok (llcrnrlon m) ∧ np_min lats = Ok (llcrnrlat m)
  ∧ np_max lons = Ok (urcrnrlon m) ∧ np_max lats = Ok (urcrnrlat m)
  ∧ basemap_error (llcrnrlon m) (llcrnrlat m) (urcrnrlon m) (urcrnrlat m) = None.
Proof.
  unfold backgroundLayer. run.
  destruct (np_max lons) as [maxLon|]; [|done].
  destruct (np_max lats) as [maxLat|]; [|done].
  destruct (np_min lons) as [minLon|]; [|done].
  destruct (np_min lats) as [minLat|]; [|done].
  unfold new_Basemap.
  destruct (basemap_error minLon minLat maxLon maxLat) eqn:Herr; [done|].
  cbn. intros [= <-]. by cbn.
Qed.

Lemma backgroundLayer_data (lons lats : list Q) (m : Basemap) (w : World) :
  (backgroundLayer lons lats empty_world).2 = Ok m →
  backgroundLayer lons lats w
  = ({| fs := fs w;
        figures := {| background := Some m; markers := markers (gcf w);
                      mesh := mesh (gcf w); title := title (gcf w);
                      legend := legend (gcf w) |} :: tail (figures w) |}, Ok m).
Proof. intros Hm. by rewrite backgroundLayer_run, Hm. Qed.

Lemma backgroundLayer_refused (lons lats : list Q) (e : exn) (w : World) :
  (backgroundLayer lons lats empty_world).2 = Raise e →
  backgroundLayer lons lats w = (w, Raise e).
Proof. intros Hm. by rewrite backgroundLayer_run, Hm. Qed.

(** C6.  Given empty longitude and latitude arrays the background-layer
    constructor raises [ValueError] while it computes the bounds: no map
    object is returned and nothing is drawn. *)
Theorem backgroundLayer_empty_raises (w : World) :
  backgroundLayer [] [] w = (w, Raise ValueError).
Proof. apply backgroundLayer_no_data. by left. Qed.
End Background.

(** ** The scatter loop *)

Lemma add_markers_nil (g : Figure) : add_markers [] g = g.
Proof. destruct g. unfold add_markers. cbn. by rewrite app_nil_r. Qed.

Lemma add_markers_app (ms1 ms2 : list Marker) (g : Figure) :
  add_markers ms2 (add_markers ms1 g) = add_markers (ms1 ++ ms2) g.
Proof. unfold add_markers. cbn. by rewrite app_assoc. Qed.

Lemma for_zip3_scatter (alpha : Q) (xs ys : list Q) (it : iterable string)
    (F : gmap string node) (g : Figure) (gs : list Figure) :
  for_zip3 xs ys it (λ lon lat c, scatter lon lat c alpha) {| fs := F; figures := g :: gs |}
  = ({| fs := F; figures := add_markers (plotted alpha xs ys it) g :: gs |},
     loop_result xs ys it).
Proof.
  revert ys it g. induction xs as [|x xs IH]; intros ys it g.
  { cbn. by rewrite add_markers_nil. }
  destruct ys as [|y ys]; [cbn; by rewrite add_markers_nil|].
  destruct it as [|[c|e] it]; cbn [for_zip3 plotted loop_result].
  - cbn. by rewrite add_markers_nil.
  - run. unfold scatter at 1, on_gcf. cbn [gcf hd figures fs tail].
    rewrite IH. unfold add_markers. cbn. by rewrite <-app_assoc.
  - run. by rewrite add_markers_nil.
Qed.

Lemma plotted_all_ok (alpha : Q) (xs ys : list Q) (cs : list string) :
  length xs = length cs → length ys = length cs →
  m_color <$> plotted alpha xs ys (Ok <$> cs) = cs
  ∧ loop_result xs ys (Ok <$> cs) = Ok tt.
Proof.
  revert xs ys. induction cs as [|c cs IH]; intros [|x xs] [|y ys] ??; simplify_eq/=; [done|].
  destruct (IH xs ys) as [-> ->]; done.
Qed.

(** A lazy [map] and the list of its values draw the same markers when
    no item raises. *)
Lemma all_ok_fmap {A} (it : iterable A) (l : list A) :
  all_ok it = Ok l → it = Ok <$> l.
Proof.
  revert l. induction it as [|[a|e] it IH]; intros l Hl; simplify_eq/=; [done|].
  destruct (all_ok it) as [l'|]; simplify_eq/=. by rewrite (IH l').
Qed.

Lemma all_ok_length {A} (it : iterable A) (l : list A) :
  all_ok it = Ok l → length l = length it.
Proof. intros ->%all_ok_fmap. by rewrite length_fmap. Qed.


(** ** The end of a renderer: the output directory and the file *)

Lemma ensure_out_dir_figures (w : World) : figures (ensure_out_dir w).1 = figures w.
Proof.
  unfold ensure_out_dir, path_exists, makedirs. run.
  destruct (fs w !! OUT_DIR) as [n|] eqn:Hdir.
  - rewrite bool_decide_true by done. done.
  - rewrite bool_decide_false by (by intros [? ?]). by rewrite Hdir.
Qed.

Lemma save_figures (p : string) (w : World) :
  figures ((ensure_out_dir;; savefig p) w).1 = figures w.
Proof.
  run. pose proof (ensure_out_dir_figures w) as Hfig.
  destruct (ensure_out_dir w) as [w' [[]|e]]; cbn in *; [|done].
  unfold savefig, write_file.
  by destruct (fs w' !! dirname p) as [[|a]|], (fs w' !! p) as [[|a']|].
Qed.

(** With the output path free or already a directory, and no directory
    where the file goes, the directory is there when the file is opened,
    and the write succeeds. *)
Lemma save_ok (p : string) (w : World) :
  dirname p = OUT_DIR → p ≠ OUT_DIR → can_save w p →
  (ensure_out_dir;; savefig p) w
  = ({| fs := <[p := File (Png (gcf w))]> (<[OUT_DIR := Dir]> (fs w));
        figures := figures w |}, Ok tt).
Proof.
  intros Hp Hne [Hfree Hfile].
  unfold ensure_out_dir, path_exists, makedirs, savefig, write_file. run.
  destruct (fs w !! OUT_DIR) as [[|a]|] eqn:Hdir.
  - rewrite bool_decide_true by done. rewrite Hp, Hdir.
    rewrite (insert_id (fs w) OUT_DIR Dir) by done.
    by destruct (fs w !! p) as [[|a]|].
  - by destruct (Hfree a).
  - rewrite bool_decide_false by (by intros [? ?]). rewrite Hdir. cbn.
    rewrite Hp, lookup_insert_eq, lookup_insert_ne by done.
    by destruct (fs w !! p) as [[|a]|].
Qed.

Lemma scatter_png_not_dir (feature : option string) : scatter_png feature ≠ OUT_DIR.
Proof. unfold scatter_png, OUT_DIR. cbn. discriminate. Qed.

(** ** The scatter renderer, step by step *)

Section Scatter.
Context `{BasemapLib}.

Lemma column_nil_inv {A} (f : Crime → A) (df : DataFrame) : df ≠ [] → column f df ≠ [].
Proof. by destruct df. Qed.

Lemma column_length {A} (f : Crime → A) (df : DataFrame) : length (column f df) = length df.
Proof. apply length_fmap. Qed.

(** A colour that cannot be looked up at once (Python 2) or a column
    that does not exist ends the call before anything happens. *)
Lemma scatterPlot_colors_raise py df feature e w :
  colors py df feature = Raise e →
  scatterPlot py df feature w = (w, Raise e).
Proof. intros Hc. unfold scatterPlot. run. by rewrite Hc. Qed.

(** On the empty table a figure is opened and the background layer
    raises. *)
Lemma scatterPlot_empty py feature it w :
  colors py [] feature = Ok it →
  scatterPlot py [] feature w
  = ({| fs := fs w; figures := new_figure :: figures w |}, Raise ValueError).
Proof. intros Hc. unfold scatterPlot. run. by rewrite Hc. Qed.

(** When the map library refuses the bounding box of the table, the
    figure that was opened stays empty. *)
Lemma scatterPlot_refused py df feature it e w :
  map_of df = Raise e → colors py df feature = Ok it →
  scatterPlot py df feature w
  = ({| fs := fs w; figures := new_figure :: figures w |}, Raise e).
Proof.
  intros Hm Hc. unfold scatterPlot. run. rewrite Hc. unfold plt_figure at 1.
  by rewrite (backgroundLayer_refused _ _ e _ Hm).
Qed.

(** When the map can be built the markers are drawn on a new figure with
    the map image; the loop may end in an exception, otherwise the
    figure gets its title and legend and is saved. *)
Lemma scatterPlot_rows py df feature it m w :
  map_of df = Ok m → colors py df feature = Ok it →
  ∃ t lg,
    let shifted := shiftdata m (column long df) (column lat df) in
    let g := {| background := Some m;
                markers := plotted (4 # 10) shifted.1 shifted.2 it;
                mesh := None; title := ""; legend := [] |} in
    scatterPlot py df feature w
    = match loop_result shifted.1 shifted.2 it with
      | Raise e => ({| fs := fs w; figures := g :: figures w |}, Raise e)
      | Ok _ =>
          (ensure_out_dir;; savefig (scatter_png feature))
            {| fs := fs w;
               figures := {| background := Some m; markers := markers g; mesh := None;
                             title := t; legend := lg |} :: figures w |}
      end.
Proof.
  intros Hm Hc.
  unfold scatterPlot. run. rewrite Hc. unfold plt_figure at 1.
  rewrite (backgroundLayer_data _ _ m _ Hm).
  cbn [gcf hd figures tail new_figure markers mesh title legend fs].
  rewrite for_zip3_scatter. unfold add_markers; cbn [markers background mesh title legend app].
  destruct (loop_result _ _ it) as [[]|e]; [|by exists "", []].
  change (OUT_DIR +:+ "scatter" +:+ _) with (scatter_png feature).
  destruct (decide (feature = Some "OFFENSE")) as [->|Hoff].
  - destruct (decide (Some "OFFENSE" = Some "METHOD")) as [?|_]; [done|].
    eexists _, _. reflexivity.
  - destruct (decide (feature = Some "METHOD")) as [->|Hmet].
    + eexists _, _. reflexivity.
    + eexists _, _. reflexivity.
Qed.

Lemma py_map_length {A B} py (f : A → result B) (xs : list A) it :
  py_map py f xs = Ok it → length it = length xs.
Proof.
  destruct py; cbn [py_map].
  - destruct (all_ok (f <$> xs)) as [l|] eqn:Hl; [|done]. intros [= <-].
    apply all_ok_length in Hl. by rewrite !length_fmap in *.
  - intros [= <-]. by rewrite length_fmap.
Qed.

Lemma colors_length py df feature it :
  colors py df feature = Ok it → length it = length df.
Proof.
  unfold colors, getitem, column. destruct feature as [f|].
  - repeat case_decide; cbn [result_bind]; try done;
      intros ->%py_map_length; by rewrite !length_fmap.
  - intros [= <-]. by rewrite length_fmap, length_replicate.
Qed.

(** Every file name the renderer can reach lies in the output directory. *)
Lemma colors_dirname py df feature it :
  colors py df feature = Ok it → dirname (scatter_png feature) = OUT_DIR.
Proof.
  unfold colors, getitem. destruct feature as [f|]; [|done].
  repeat case_decide; subst; done.
Qed.

(** When every colour can be looked up and the map can be built, the
    markers on the figure after the call carry these colours, whatever
    the outcome of the call; with nothing in the way of the file the
    call completes and saves that figure. *)
Lemma scatterPlot_markers py df feature cs w :
  colors py df feature = Ok (Ok <$> cs) →
  builds_map df →
  m_color <$> markers (gcf (scatterPlot py df feature w).1) = cs
  ∧ (can_save w (scatter_png feature) →
     ∃ g, scatterPlot py df feature w
          = ({| fs := <[scatter_png feature := File (Png g)]> (<[OUT_DIR := Dir]> (fs w));
                figures := g :: figures w |}, Ok tt)
          ∧ m_color <$> markers g = cs).
Proof.
  intros Hc [m Hm]. pose proof (colors_length _ _ _ _ Hc) as Hlen.
  rewrite length_fmap in Hlen.
  destruct (scatterPlot_rows py df feature _ m w Hm Hc) as (t & lg & Hrun).
  cbv zeta in Hrun.
  destruct (shiftdata_shape m (column long df) (column lat df)) as [Hx Hy].
  rewrite column_length in Hx, Hy.
  destruct (plotted_all_ok (4 # 10) (shiftdata m (column long df) (column lat df)).1
              (shiftdata m (column long df) (column lat df)).2 cs) as [Hcol Hres];
    [congruence..|].
  rewrite Hres in Hrun. rewrite Hrun. split.
  - unfold gcf. rewrite save_figures. done.
  - intros Hsave.
    rewrite save_ok; [|by eapply colors_dirname|apply scatter_png_not_dir|done].
    eexists. split; [reflexivity|exact Hcol].
Qed.

(** A table with no row has no bounding box. *)
Lemma builds_map_rows (df : DataFrame) : builds_map df → df ≠ [].
Proof. intros [m Hm] ->. done. Qed.
End Scatter.

(** ** The colour table *)

Lemma featToCol_lookup (s : string) :
  featToCol !! s =
    if decide (s = "SEX ABUSE") then Some "r"
    else if decide (s = "HOMICIDE") then Some "b"
    else if decide (s = "GUN") then Some "r"
    else if decide (s = "KNIFE") then Some "b"
    else if decide (s = "OTHERS") then Some "g"
    else None.
Proof.
  unfold featToCol. rewrite !lookup_insert, lookup_empty.
  repeat case_decide; congruence.
Qed.



Lemma all_ok_values {A} (l : list A) : all_ok (Ok <$> l) = Ok l.
Proof. induction l as [|a l IH]; [done|]. cbn. by rewrite IH. Qed.

(** The colours of a text column whose every value is in the table. *)
Lemma colors_found py (df : DataFrame) (f : string) (field : Crime → string) (cs : list string) :
  getitem df f = Ok (Str <$> column field df) →
  Forall2 (λ row c, featToCol !! field row.2 = Some c) df cs →
  colors py df (Some f) = Ok (Ok <$> cs).
Proof.
  intros Hcol Hcs. unfold colors. rewrite Hcol. cbn [result_bind].
  assert (featToCol_getitem <$> (Str <$> column field df) = Ok <$> cs) as Hit.
  { clear Hcol. unfold column. induction Hcs as [|row c df cs Hc _ IH]; [done|].
    cbn. rewrite Hc. by f_equal. }
  destruct py; cbn [py_map]; rewrite Hit; [|done]. by rewrite all_ok_values.
Qed.


(** ** The scatter renderer: the properties *)

Section ScatterProperties.
Context `{BasemapLib}.

(** C8, as amended.  Scatter rendering with no feature gives every
    marker it plots the default colour, red ('r'), and when the
    background map can be built for the table it plots exactly one
    marker per record; with nothing in the way of the file the call then
    completes and the PNG it writes is that figure. *)
Theorem scatterPlot_no_feature_all_red (py : python) (df : DataFrame) (w : World) :
  let after := scatterPlot py df None w in
  Forall (λ mk, m_color mk = "r" ∧ mpl_colour (m_color mk) = Some Red)
         (markers (gcf after.1))
  ∧ (builds_map df →
     length (markers (gcf after.1)) = length df
     ∧ (can_save w "output/scatter.png" →
        after.2 = Ok tt
        ∧ fs after.1 !! "output/scatter.png" = Some (File (Png (gcf after.1))))).
Proof.
  cbv zeta.
  assert (builds_map df →
          m_color <$> markers (gcf (scatterPlot py df None w).1)
          = replicate (length df) "r") as Hred.
  { intros Hmap.
    by destruct (scatterPlot_markers py df None (replicate (length df) "r") w) as [-> _]. }
  split.
  - destruct (map_of df) as [m|e] eqn:Hm.
    + apply (Forall_fmap m_color (λ c, c = "r" ∧ mpl_colour c = Some Red)).
      rewrite Hred by (by exists m). by apply Forall_replicate.
    + by rewrite (scatterPlot_refused py df None _ e w Hm eq_refl).
  - intros Hmap. split.
    + rewrite <-(length_fmap m_color), Hred by done. apply length_replicate.
    + intros Hsave.
      destruct (scatterPlot_markers py df None (replicate (length df) "r") w)
        as (_ & Hrun); [done..|].
      destruct (Hrun Hsave) as (g & -> & _). cbn.
      split; [done|]. apply lookup_insert_eq.
Qed.

(** C3, as amended.  When every offense value is in the colour table
    and is neither of its keys 'GUN' and 'OTHERS' (so whenever every
    offense is 'SEX ABUSE' or 'HOMICIDE'), and the background map can be
    built for the table, scatter rendering with feature 'OFFENSE' draws
    one marker per record, red exactly when the record's offense is
    'SEX ABUSE' and blue otherwise. *)
Theorem scatterPlot_offense_red_or_blue (py : python) (df : DataFrame) (w : World) :
  Forall (λ row, is_Some (featToCol !! OFFENSE row.2)
                 ∧ OFFENSE row.2 ≠ "GUN" ∧ OFFENSE row.2 ≠ "OTHERS") df →
  builds_map df →
  let after := scatterPlot py df (Some "OFFENSE") w in
  Forall2 (λ row mk, mpl_colour (m_color mk) = Some (offense_rule row.2))
          df (markers (gcf after.1))
  ∧ (can_save w "output/scatter_offense.png" →
     after.2 = Ok tt
     ∧ fs after.1 !! "output/scatter_offense.png" = Some (File (Png (gcf after.1)))).
Proof.
  intros Hdom Hmap. cbv zeta.
  set (cs := (λ row : nat * Crime,
                if decide (OFFENSE row.2 = "SEX ABUSE") then "r" else "b") <$> df).
  destruct (scatterPlot_markers py df (Some "OFFENSE") cs w) as (Hcol & Hrun); [|done|].
  { apply (colors_found _ _ _ OFFENSE); [done|].
    subst cs. apply Forall2_fmap_r, Forall_Forall2_diag.
    eapply Forall_impl; [exact Hdom|]. intros row (Hin & Hgun & Hothers). cbn.
    rewrite featToCol_lookup in Hin |- *.
    repeat case_decide; try done; by destruct Hin. }
  split.
  - apply Forall2_fmap_r with (f := m_color)
                              (P := λ row c, mpl_colour c = Some (offense_rule row.2)).
    rewrite Hcol. subst cs. apply Forall2_fmap_r, Forall_Forall2_diag, Forall_true.
    intros row. cbn. unfold offense_rule. by case_decide.
  - intros Hsave. destruct (Hrun Hsave) as (g & -> & _). cbn.
    split; [done|]. apply lookup_insert_eq.
Qed.

End ScatterProperties.

(** ** The scatter renderer on small tables *)

Lemma empty_world_free : out_dir_free empty_world.
Proof. intros a. unfold empty_world. cbn [fs]. by rewrite lookup_empty. Qed.

Lemma empty_world_can_save (p : string) : can_save empty_world p.
Proof. split; [apply empty_world_free|]. unfold empty_world. cbn [fs]. by rewrite lookup_empty. Qed.

Lemma two_crimes_map : @builds_map identity_lib two_crimes.
Proof. eexists. vm_compute. reflexivity. Qed.

Lemma scatterPlot_no_feature_all_red_witness :
  Forall (λ mk, m_color mk = "r" ∧ mpl_colour (m_color mk) = Some Red)
         (markers (gcf (scatterPlot Py3 two_crimes None empty_world).1))
  ∧ length (markers (gcf (scatterPlot Py3 two_crimes None empty_world).1)) = length two_crimes
  ∧ (scatterPlot Py3 two_crimes None empty_world).2 = Ok tt
  ∧ fs (scatterPlot Py3 two_crimes None empty_world).1 !! "output/scatter.png"
    = Some (File (Png (gcf (scatterPlot Py3 two_crimes None empty_world).1))).
Proof.
  destruct (scatterPlot_no_feature_all_red Py3 two_crimes empty_world) as [Hred Hcount].
  destruct (Hcount two_crimes_map) as [Hlen Hsave].
  destruct (Hsave (empty_world_can_save _)) as [Hok Hfile].
  exact (conj Hred (conj Hlen (conj Hok Hfile))).
Defined.

(** C8 as stated fails on a table whose longitudes are all equal, so on
    every table of one record: the map library refuses a bounding box of
    no width, the call raises [ZeroDivisionError] and the figure has no
    marker for the record. *)
Lemma scatterPlot_one_record_no_marker :
  length [(0%nat, sample_crime)] = 1%nat
  ∧ scatterPlot Py3 [(0%nat, sample_crime)] None empty_world
    = ({| fs := ∅; figures := [new_figure] |}, Raise ZeroDivisionError)
  ∧ markers (gcf (scatterPlot Py3 [(0%nat, sample_crime)] None empty_world).1) = [].
Proof. by vm_compute. Qed.

Lemma scatterPlot_offense_red_or_blue_witness :
  Forall2 (λ row mk, mpl_colour (m_color mk) = Some (offense_rule row.2)) two_crimes
    (markers (gcf (scatterPlot Py3 two_crimes (Some "OFFENSE") empty_world).1))
  ∧ (can_save empty_world "output/scatter_offense.png" →
     (scatterPlot Py3 two_crimes (Some "OFFENSE") empty_world).2 = Ok tt
     ∧ fs (scatterPlot Py3 two_crimes (Some "OFFENSE") empty_world).1
         !! "output/scatter_offense.png"
       = Some (File (Png (gcf (scatterPlot Py3 two_crimes (Some "OFFENSE") empty_world).1)))).
Proof.
  apply (scatterPlot_offense_red_or_blue Py3 two_crimes empty_world).
  - repeat constructor; cbn; rewrite ?featToCol_lookup; by cbn.
  - eexists. vm_compute. reflexivity.
Defined.

(** C3 as stated fails: 'OTHERS' and 'GUN' are keys of the colour table,
    and as offense values they are drawn green ('g') and red, not blue.
    The two records lie at different places, so the map is built and
    both markers are drawn. *)
Lemma scatterPlot_offense_others_is_green :
  Forall (λ row : nat * Crime, is_Some (featToCol !! OFFENSE row.2))
         [(0%nat, crime_at (-7703 # 100) (3889 # 100) "OTHERS" "GUN");
          (1%nat, crime_at (-7695 # 100) (3892 # 100) "GUN" "GUN")]
  ∧ m_color <$> markers (gcf (scatterPlot Py3
                                [(0%nat, crime_at (-7703 # 100) (3889 # 100) "OTHERS" "GUN");
                                 (1%nat, crime_at (-7695 # 100) (3892 # 100) "GUN" "GUN")]
                                (Some "OFFENSE") empty_world).1) = ["g"; "r"]
  ∧ (scatterPlot Py3 [(0%nat, crime_at (-7703 # 100) (3889 # 100) "OTHERS" "GUN");
                      (1%nat, crime_at (-7695 # 100) (3892 # 100) "GUN" "GUN")]
                 (Some "OFFENSE") empty_world).2 = Ok tt
  ∧ mpl_colour "g" = Some HalfGreen
  ∧ mpl_colour "r" = Some Red
  ∧ offense_rule (crime_at (-7703 # 100) (3889 # 100) "OTHERS" "GUN") = Blue
  ∧ offense_rule (crime_at (-7695 # 100) (3892 # 100) "GUN" "GUN") = Blue
  ∧ HalfGreen ≠ Blue ∧ Red ≠ Blue.
Proof.
  split; [repeat constructor; cbn; rewrite featToCol_lookup; by cbn|].
  by vm_compute.
Qed.



(** ** The selector's callback *)

Example callback_ex :
  source.color (callback 1 (bokeh_source [(0, {| long := 1; lat := 2; OFFENSE := "SEX ABUSE"; METHOD := "GUN"; START_DATE := "" |});
       (1, {| long := 1; lat := 2; OFFENSE := "HOMICIDE"; METHOD := "GUN"; START_DATE := "" |})]%nat))
  = ["rgb(255,0,0)"; "rgb(0,0,255)"].
Proof. vm_compute. reflexivity. Qed.

(** The loop writes the colour array only, and in place. *)
Lemma recolor_frame (pick : source.data → nat → string) (i : nat) (d : source.data) :
  source.lat (recolor pick i d) = source.lat d
  ∧ source.lon (recolor pick i d) = source.lon d
  ∧ source.offense (recolor pick i d) = source.offense d
  ∧ source.weapon (recolor pick i d) = source.weapon d
  ∧ source.start_date (recolor pick i d) = source.start_date d
  ∧ length (source.color (recolor pick i d)) = length (source.color d).
Proof.
  funelim (recolor pick i d); [|done].
  destruct H as (-> & -> & -> & -> & -> & ->). cbn.
  by rewrite length_insert.
Qed.

(** When the colour picked for a marker does not depend on the colours,
    the loop started at [i] keeps the first [i] colours and gives every
    later marker the colour picked for it. *)
Lemma recolor_colors (pick : source.data → nat → string) (i : nat) (d : source.data) :
  (∀ j c d' k, pick (set_color j c d') k = pick d' k) →
  source.color (recolor pick i d)
  = take i (source.color d) ++ (pick d <$> seq i (length (source.color d) - i)).
Proof.
  intros Hpick. funelim (recolor pick i d).
  - rewrite H by done. cbn. rewrite length_insert.
    destruct (lookup_lt_is_Some_2 (source.color d) i l) as [c0 Hc0].
    replace (length (source.color d) - i)%nat
      with (S (length (source.color d) - S i)) by lia.
    cbn [seq fmap list_fmap].
    rewrite (take_S_r _ _ (pick d i)) by (by apply list_lookup_insert_eq).
    rewrite take_insert_ge by lia. rewrite <-app_assoc. cbn. do 2 f_equal.
    apply list_fmap_ext. intros _ k _. apply Hpick.
  - replace (length (source.color d) - i)%nat with 0%nat by lia.
    cbn. rewrite app_nil_r. rewrite take_ge; [done|lia].
Qed.

(** C9.  For every option value and every state of the marker data, the
    callback leaves the lat, lon, offense, weapon and start_date arrays
    as they are and keeps the length of the colour array, hence of every
    array. *)
Theorem callback_writes_colours_only (option : Z) (d : source.data) :
  source.lat (callback option d) = source.lat d
  ∧ source.lon (callback option d) = source.lon d
  ∧ source.offense (callback option d) = source.offense d
  ∧ source.weapon (callback option d) = source.weapon d
  ∧ source.start_date (callback option d) = source.start_date d
  ∧ length (source.color (callback option d)) = length (source.color d).
Proof.
  unfold callback. destruct option as [|[[]| []|]|]; try done; apply recolor_frame.
Qed.

Lemma recolor_invariant (P : string → Prop) (pick : source.data → nat → string)
    (i : nat) (d : source.data) :
  (∀ d' k, P (pick d' k)) →
  Forall P (source.color d) → Forall P (source.color (recolor pick i d)).
Proof.
  intros Hpick. funelim (recolor pick i d); [|done].
  intros Hd. apply H; [done|]. cbn. by apply Forall_insert.
Qed.

Lemma callback_invariant (option : Z) (d : source.data) :
  Forall fixed_colour (source.color d) →
  Forall fixed_colour (source.color (callback option d)).
Proof.
  unfold callback. destruct option as [|[[]| []|]|]; try done;
    apply recolor_invariant; intros d' k; unfold by_offense, by_weapon;
    repeat case_decide; unfold fixed_colour; auto.
Qed.

(** C10.  In the interactive map every marker's colour is red, blue or
    green, when the page opens and after any finite sequence of selector
    activations with arbitrary integer options; an option outside
    {0, 1, 2} leaves the marker data, so every colour, as it was. *)
Theorem callback_keeps_fixed_colours (df : DataFrame) (options : list Z) :
  Forall fixed_colour (source.color (bokeh_source df))
  ∧ Forall fixed_colour (source.color (activations options (bokeh_source df)))
  ∧ ∀ (option : Z) (d : source.data), (option < 0 ∨ 2 < option)%Z → callback option d = d.
Proof.
  assert (Forall fixed_colour (source.color (bokeh_source df))) as Hinit.
  { cbn. apply Forall_replicate. by left. }
  split; [done|]. split.
  - unfold activations. revert Hinit. generalize (bokeh_source df).
    induction options as [|option options IH]; intros d Hd; [done|].
    cbn. by apply IH, callback_invariant.
  - intros option d Hout. unfold callback.
    destruct option as [|[[]| []|]|]; try done; lia.
Qed.

(** Reading a list at 0, 1, ... gives back its elements. *)
Lemma tabulate_lookup {A B} (g : option A → B) (l : list A) :
  (λ i, g (l !! i)) <$> seq 0 (length l) = (λ x, g (Some x)) <$> l.
Proof.
  induction l as [|x l IH]; [done|].
  cbn. f_equal. rewrite <-fmap_S_seq, <-list_fmap_compose. exact IH.
Qed.

Lemma set_color_offense (j : nat) (c : string) (d : source.data) (k : nat) :
  by_offense (set_color j c d) k = by_offense d k.
Proof. done. Qed.

Lemma set_color_weapon (j : nat) (c : string) (d : source.data) (k : nat) :
  by_weapon (set_color j c d) k = by_weapon d k.
Proof. done. Qed.

Lemma fmap_constant {A B} (b : B) (l : list A) : (λ _, b) <$> l = replicate (length l) b.
Proof. induction l as [|a l IH]; [done|]. cbn. by rewrite IH. Qed.

(** The colours the three options give the markers of a table. *)
Lemma callback_0_colours (df : DataFrame) :
  css_colour <$> source.color (callback 0 (bokeh_source df))
  = replicate (length df) (Some Red).
Proof.
  unfold callback. rewrite recolor_colors by done.
  cbn [bokeh_source source.color]. rewrite take_0, length_replicate, Nat.sub_0_r.
  cbn [app].
  by rewrite fmap_constant, fmap_replicate, length_seq.
Qed.

Lemma callback_1_colours (df : DataFrame) :
  css_colour <$> source.color (callback 1 (bokeh_source df))
  = (λ row, Some (offense_rule row.2)) <$> df.
Proof.
  unfold callback. rewrite recolor_colors by apply set_color_offense.
  cbn [bokeh_source source.color]. rewrite take_0, length_replicate, Nat.sub_0_r.
  cbn [app].
  unfold by_offense. cbn [bokeh_source source.offense].
  rewrite <-(column_length OFFENSE df).
  pose proof (tabulate_lookup
    (λ o, if decide (o = Some "SEX ABUSE") then "rgb(255,0,0)" else "rgb(0,0,255)")
    (column OFFENSE df)) as Hread.
  cbn beta in Hread. rewrite Hread.
  unfold column. rewrite <-!list_fmap_compose.
  apply list_fmap_ext. intros _ row _. cbn. unfold offense_rule.
  repeat case_decide; first [done|congruence].
Qed.

Lemma callback_2_colours (df : DataFrame) :
  css_colour <$> source.color (callback 2 (bokeh_source df))
  = (λ row, Some (method_rule row.2)) <$> df.
Proof.
  unfold callback. rewrite recolor_colors by apply set_color_weapon.
  cbn [bokeh_source source.color]. rewrite take_0, length_replicate, Nat.sub_0_r.
  cbn [app].
  unfold by_weapon. cbn [bokeh_source source.weapon].
  rewrite <-(column_length METHOD df).
  pose proof (tabulate_lookup
    (λ o, if decide (o = Some "GUN") then "rgb(255,0,0)"
          else if decide (o = Some "KNIFE") then "rgb(0,0,255)"
          else "rgb(0,255,0)")
    (column METHOD df)) as Hread.
  cbn beta in Hread. rewrite Hread.
  unfold column. rewrite <-!list_fmap_compose.
  apply list_fmap_ext. intros _ row _. cbn. unfold method_rule.
  repeat case_decide; first [done|congruence].
Qed.

(** ** The selector against the static renderer *)

Section Selector.
Context `{BasemapLib}.

Lemma static_offense_colours py df w :
  Forall (λ row, is_Some (featToCol !! OFFENSE row.2)
                 ∧ OFFENSE row.2 ≠ "GUN" ∧ OFFENSE row.2 ≠ "OTHERS") df →
  builds_map df →
  static_colours py df (Some "OFFENSE") w = (λ row, Some (offense_rule row.2)) <$> df.
Proof.
  intros Hdom Hmap. unfold static_colours.
  destruct (scatterPlot_markers py df (Some "OFFENSE")
              ((λ row, if decide (OFFENSE row.2 = "SEX ABUSE") then "r" else "b") <$> df) w)
    as (-> & _); [|done|].
  { apply (colors_found _ _ _ OFFENSE); [done|].
    apply Forall2_fmap_r, Forall_Forall2_diag.
    eapply Forall_impl; [exact Hdom|]. intros row (Hin & Hgun & Hothers). cbn.
    rewrite featToCol_lookup in Hin |- *.
    repeat case_decide; try done; by destruct Hin. }
  rewrite <-list_fmap_compose. apply list_fmap_ext. intros _ row _. cbn.
  unfold offense_rule. by case_decide.
Qed.

Lemma static_method_colours py df w :
  Forall (λ row, is_Some (featToCol !! METHOD row.2)
                 ∧ METHOD row.2 ≠ "SEX ABUSE" ∧ METHOD row.2 ≠ "HOMICIDE"
                 ∧ METHOD row.2 ≠ "OTHERS") df →
  builds_map df →
  static_colours py df (Some "METHOD") w = (λ row, Some (method_rule row.2)) <$> df.
Proof.
  intros Hdom Hmap. unfold static_colours.
  destruct (scatterPlot_markers py df (Some "METHOD")
              ((λ row, if decide (METHOD row.2 = "GUN") then "r" else "b") <$> df) w)
    as (-> & _); [|done|].
  { apply (colors_found _ _ _ METHOD); [done|].
    apply Forall2_fmap_r, Forall_Forall2_diag.
    eapply Forall_impl; [exact Hdom|]. intros row (Hin & Hsex & Hhom & Hothers). cbn.
    rewrite featToCol_lookup in Hin |- *.
    repeat case_decide; try done; by destruct Hin. }
  rewrite <-list_fmap_compose. apply list_fmap_ext. intros i row Hrow. cbn.
  rewrite Forall_lookup in Hdom. destruct (Hdom i row Hrow) as (Hin & Hsex & Hhom & Hothers).
  rewrite featToCol_lookup in Hin.
  unfold method_rule. repeat case_decide; try done; by destruct Hin.
Qed.

Lemma static_default_colours py df w :
  builds_map df →
  static_colours py df None w = replicate (length df) (Some Red).
Proof.
  intros Hmap. unfold static_colours.
  destruct (scatterPlot_markers py df None (replicate (length df) "r") w) as (-> & _);
    [done..|].
  by rewrite fmap_replicate.
Qed.

(** C2, as amended.  With option 0 the callback gives every marker the
    default colour, red, on every table.  When the background map can
    be built for the table, so that the static renderer draws its
    markers, that is the colour of the static renderer without a
    feature; with option 1 the callback gives every marker the colour
    of the static OFFENSE rule when every offense is a key of the
    colour table other than 'GUN' and 'OTHERS' (so whenever the
    offenses are 'SEX ABUSE' or 'HOMICIDE'); and with option 2 the
    colour of the static METHOD rule when every method is 'GUN' or
    'KNIFE' (a key other than 'SEX ABUSE', 'HOMICIDE' and 'OTHERS'). *)
Theorem callback_agrees_with_scatterPlot (py : python) (df : DataFrame) (w : World) :
  css_colour <$> source.color (callback 0 (bokeh_source df))
    = replicate (length df) (Some Red)
  ∧ (builds_map df →
     css_colour <$> source.color (callback 0 (bokeh_source df))
       = static_colours py df None w
     ∧ (Forall (λ row, is_Some (featToCol !! OFFENSE row.2)
                       ∧ OFFENSE row.2 ≠ "GUN" ∧ OFFENSE row.2 ≠ "OTHERS") df →
        css_colour <$> source.color (callback 1 (bokeh_source df))
          = static_colours py df (Some "OFFENSE") w)
     ∧ (Forall (λ row, is_Some (featToCol !! METHOD row.2)
                       ∧ METHOD row.2 ≠ "SEX ABUSE" ∧ METHOD row.2 ≠ "HOMICIDE"
                       ∧ METHOD row.2 ≠ "OTHERS") df →
        css_colour <$> source.color (callback 2 (bokeh_source df))
          = static_colours py df (Some "METHOD") w)).
Proof.
  split; [apply callback_0_colours|]. intros Hmap. split; [|split].
  - by rewrite static_default_colours, callback_0_colours.
  - intros Hdom. by rewrite static_offense_colours, callback_1_colours.
  - intros Hdom. by rewrite static_method_colours, callback_2_colours.
Qed.
End Selector.

Lemma callback_agrees_with_scatterPlot_witness :
  css_colour <$> source.color (callback 0 (bokeh_source two_crimes))
    = replicate (length two_crimes) (Some Red)
  ∧ css_colour <$> source.color (callback 0 (bokeh_source two_crimes))
    = static_colours Py3 two_crimes None empty_world
  ∧ css_colour <$> source.color (callback 1 (bokeh_source two_crimes))
    = static_colours Py3 two_crimes (Some "OFFENSE") empty_world
  ∧ css_colour <$> source.color (callback 2 (bokeh_source two_crimes))
    = static_colours Py3 two_crimes (Some "METHOD") empty_world.
Proof.
  destruct (callback_agrees_with_scatterPlot Py3 two_crimes empty_world) as [Hall Hmap].
  destruct (Hmap two_crimes_map) as (Hnone & Hoffense & Hmethod).
  split; [exact Hall|]. split; [exact Hnone|]. split.
  - apply Hoffense. repeat constructor; cbn; rewrite ?featToCol_lookup; by cbn.
  - apply Hmethod. repeat constructor; cbn; rewrite ?featToCol_lookup; by cbn.
Defined.

(** C2 as stated fails on a table whose categories all lie in the colour
    table and whose map is built.  'GUN' as an offense and 'HOMICIDE' as
    a method are keys of the table: the static renderer draws them red
    and blue, the callback blue and green.  And for 'OTHERS' the two
    greens are not one colour: matplotlib's 'g' is (0, 128, 0), the
    callback's is (0, 255, 0). *)
Lemma callback_differs_on_shared_table :
  Forall (λ row : nat * Crime, is_Some (featToCol !! OFFENSE row.2)
                               ∧ is_Some (featToCol !! METHOD row.2))
         [(0%nat, crime_at (-7703 # 100) (3889 # 100) "GUN" "HOMICIDE");
          (1%nat, crime_at (-7695 # 100) (3892 # 100) "HOMICIDE" "OTHERS")]
  ∧ static_colours Py3 [(0%nat, crime_at (-7703 # 100) (3889 # 100) "GUN" "HOMICIDE");
                        (1%nat, crime_at (-7695 # 100) (3892 # 100) "HOMICIDE" "OTHERS")]
      (Some "OFFENSE") empty_world
    = [Some Red; Some Blue]
  ∧ css_colour <$> source.color (callback 1 (bokeh_source
      [(0%nat, crime_at (-7703 # 100) (3889 # 100) "GUN" "HOMICIDE");
       (1%nat, crime_at (-7695 # 100) (3892 # 100) "HOMICIDE" "OTHERS")]))
    = [Some Blue; Some Blue]
  ∧ static_colours Py3 [(0%nat, crime_at (-7703 # 100) (3889 # 100) "GUN" "HOMICIDE");
                        (1%nat, crime_at (-7695 # 100) (3892 # 100) "HOMICIDE" "OTHERS")]
      (Some "METHOD") empty_world
    = [Some Blue; Some HalfGreen]
  ∧ css_colour <$> source.color (callback 2 (bokeh_source
      [(0%nat, crime_at (-7703 # 100) (3889 # 100) "GUN" "HOMICIDE");
       (1%nat, crime_at (-7695 # 100) (3892 # 100) "HOMICIDE" "OTHERS")]))
    = [Some Green; Some Green]
  ∧ Red ≠ Blue ∧ Blue ≠ Green ∧ HalfGreen ≠ Green.
Proof.
  split; [repeat constructor; cbn; rewrite featToCol_lookup; by cbn|].
  by vm_compute.
Qed.

(** ** Bounds of the data *)

Lemma Qlt_bool_iff (a b : Q) : Qlt_bool a b = true ↔ (a < b)%Q.
Proof.
  unfold Qlt_bool. rewrite negb_true_iff, <-not_true_iff_false, Qle_bool_iff.
  split; [apply Qnot_le_lt|apply Qlt_not_le].
Qed.

Lemma foldl_max_bounds (a : Q) (l : list Q) :
  (a <= foldl (λ a b, if Qlt_bool a b then b else a) a l)%Q
  ∧ Forall (λ x, x <= foldl (λ a b, if Qlt_bool a b then b else a) a l)%Q l.
Proof.
  revert a. induction l as [|b l IH]; intros a; cbn [foldl].
  { split; [apply Qle_refl|constructor]. }
  destruct (IH (if Qlt_bool a b then b else a)) as [Hacc Hall].
  destruct (Qlt_bool a b) eqn:Hab.
  - apply Qlt_bool_iff in Hab. split; [lra|]. by constructor.
  - apply not_true_iff_false in Hab. rewrite Qlt_bool_iff in Hab.
    apply Qnot_lt_le in Hab. split; [done|]. constructor; [lra|done].
Qed.

Lemma foldl_min_bounds (a : Q) (l : list Q) :
  (foldl (λ a b, if Qlt_bool b a then b else a) a l <= a)%Q
  ∧ Forall (λ x, foldl (λ a b, if Qlt_bool b a then b else a) a l <= x)%Q l.
Proof.
  revert a. induction l as [|b l IH]; intros a; cbn [foldl].
  { split; [apply Qle_refl|constructor]. }
  destruct (IH (if Qlt_bool b a then b else a)) as [Hacc Hall].
  destruct (Qlt_bool b a) eqn:Hab.
  - apply Qlt_bool_iff in Hab. split; [lra|]. by constructor.
  - apply not_true_iff_false in Hab. rewrite Qlt_bool_iff in Hab.
    apply Qnot_lt_le in Hab. split; [done|]. constructor; [lra|done].
Qed.

Lemma np_max_ge (xs : list Q) (hi : Q) :
  np_max xs = Ok hi → Forall (λ x, x <= hi)%Q xs.
Proof.
  destruct xs as [|x xs]; [done|]. intros [= <-].
  destruct (foldl_max_bounds x xs). by constructor.
Qed.

Lemma np_min_le (xs : list Q) (lo : Q) :
  np_min xs = Ok lo → Forall (λ x, lo <= x)%Q xs.
Proof.
  destruct xs as [|x xs]; [done|]. intros [= <-].
  destruct (foldl_min_bounds x xs). by constructor.
Qed.

(** The extremes are among the data. *)
Lemma foldl_max_elem (a : Q) (l : list Q) :
  foldl (λ a b, if Qlt_bool a b then b else a) a l ∈ a :: l.
Proof.
  revert a. induction l as [|b l IH]; intros a; cbn [foldl]; [by left|].
  pose proof (IH (if Qlt_bool a b then b else a)) as Hin.
  destruct (Qlt_bool a b); [by right|].
  apply elem_of_cons in Hin as [->|Hin]; [by left|by do 2 right].
Qed.

Lemma foldl_min_elem (a : Q) (l : list Q) :
  foldl (λ a b, if Qlt_bool b a then b else a) a l ∈ a :: l.
Proof.
  revert a. induction l as [|b l IH]; intros a; cbn [foldl]; [by left|].
  pose proof (IH (if Qlt_bool b a then b else a)) as Hin.
  destruct (Qlt_bool b a); [by right|].
  apply elem_of_cons in Hin as [->|Hin]; [by left|by do 2 right].
Qed.

Lemma np_max_elem (xs : list Q) (hi : Q) : np_max xs = Ok hi → hi ∈ xs.
Proof. destruct xs as [|x xs]; [done|]. intros [= <-]. apply foldl_max_elem. Qed.

Lemma np_min_elem (xs : list Q) (lo : Q) : np_min xs = Ok lo → lo ∈ xs.
Proof. destruct xs as [|x xs]; [done|]. intros [= <-]. apply foldl_min_elem. Qed.

(** ** Bin edges *)

Lemma increasing_adjacent (edges : list Q) :
  (∀ i x y, edges !! i = Some x → edges !! S i = Some y → (x <= y)%Q) →
  increasing edges = true.
Proof.
  induction edges as [|e1 [|e2 es] IH]; intros Hadj; [done..|].
  cbn [increasing]. apply andb_true_intro. split.
  - apply Qle_bool_iff. by apply (Hadj 0%nat).
  - apply IH. intros i x y. apply (Hadj (S i)).
Qed.

Lemma ascending_increasing (edges : list Q) : ascending edges → increasing edges = true.
Proof.
  intros Hasc. apply increasing_adjacent. intros i x y Hx Hy.
  apply Qlt_le_weak. apply (Hasc i (S i)); [lia|done..].
Qed.

Lemma monotone_increasing (edges : list Q) : monotone edges → increasing edges = true.
Proof.
  intros Hmono. apply increasing_adjacent. intros i x y Hx Hy.
  apply (Hmono i (S i)); [lia|done..].
Qed.

Lemma ascending_monotone (edges : list Q) : ascending edges → monotone edges.
Proof.
  intros Hasc i j x y Hij Hx Hy. destruct (decide (i = j)) as [->|Hne].
  - assert (x = y) as -> by congruence. apply Qle_refl.
  - apply Qlt_le_weak. apply (Hasc i j); [lia|done..].
Qed.

(** Edges that pass numpy's check never decrease. *)
Lemma increasing_monotone (edges : list Q) : increasing edges = true → monotone edges.
Proof.
  induction edges as [|e1 es IH]; intros Hinc i j x y Hij Hx Hy; [done|].
  assert (increasing es = true
          ∧ ∀ e2, es !! 0%nat = Some e2 → (e1 <= e2)%Q) as [Hes Hhead].
  { destruct es as [|e2 es']; [done|]. cbn [increasing] in Hinc.
    apply andb_true_iff in Hinc as [Hle Hes]. split; [done|].
    intros ? [= <-]. by apply Qle_bool_iff. }
  destruct i as [|i], j as [|j]; simplify_eq/=.
  - apply Qle_refl.
  - destruct (lookup_lt_is_Some_2 es 0%nat) as [e2 He2];
      [apply lookup_lt_Some in Hy; lia|].
    apply Qle_trans with e2; [by apply Hhead|].
    apply (IH Hes 0%nat j); [lia|done..].
  - lia.
  - apply (IH Hes i j); [lia|done..].
Qed.

Section Rounded.
Context `{Float64}.

Lemma fl_eq (x y : Q) : (x == y)%Q → (fl x == fl y)%Q.
Proof. intros Hxy. apply Qle_antisym; apply fl_le; rewrite Hxy; apply Qle_refl. Qed.

Lemma fl_of_0 (x : Q) : (x == 0)%Q → (fl x == 0)%Q.
Proof. intros Hx. rewrite (fl_eq _ _ Hx). apply fl_0. Qed.

(** A double less one, rounded, is not above it, and a double plus one
    is not below it. *)
Lemma fl_minus_le (x : Q) : (fl x == x)%Q → (fl (x - 1) <= x)%Q.
Proof. intros Hx. rewrite <-Hx at 2. apply fl_le. lra. Qed.

Lemma fl_plus_ge (x : Q) : (fl x == x)%Q → (x <= fl (x + 1))%Q.
Proof. intros Hx. rewrite <-Hx at 1. apply fl_le. lra. Qed.

Lemma linspace_length (a b : Q) (n : nat) : length (linspace a b n) = n.
Proof.
  unfold linspace. case_decide; rewrite ?length_insert; by rewrite length_fmap, length_seq.
Qed.

Lemma linspace_last (a b : Q) (n : nat) :
  (2 ≤ n)%nat → linspace a b n !! (n - 1)%nat = Some b.
Proof.
  intros Hn. unfold linspace. rewrite decide_True by lia.
  apply list_lookup_insert_eq. rewrite length_fmap, length_seq. lia.
Qed.

(** The first sample is the start, when the start is a double. *)
Lemma linspace_first (a b : Q) (n : nat) :
  (2 ≤ n)%nat → (fl a == a)%Q →
  ∃ e, linspace a b n !! 0%nat = Some e ∧ (e == a)%Q.
Proof.
  intros Hn Ha. unfold linspace. rewrite decide_True by lia.
  rewrite list_lookup_insert_ne by lia.
  rewrite list_lookup_fmap, lookup_seq_lt by lia.
  eexists. split; [reflexivity|]. cbn beta zeta.
  change (inject_Z (Z.of_nat (0 + 0))) with 0%Q.
  apply Qeq_trans with (fl a); [|exact Ha]. apply fl_eq.
  destruct (Qeq_bool _ 0).
  - assert (fl (0 / inject_Z (Z.of_nat (n - 1))) == 0)%Q as Hk
      by (apply fl_of_0; unfold Qdiv; lra).
    assert (fl (fl (0 / inject_Z (Z.of_nat (n - 1))) * fl (b - a)) == 0)%Q as Hy
      by (apply fl_of_0; rewrite Hk; lra).
    lra.
  - assert (fl (0 * fl (fl (b - a) / inject_Z (Z.of_nat (n - 1)))) == 0)%Q as Hy
      by (apply fl_of_0; lra).
    lra.
Qed.
End Rounded.

(** Without rounding the samples are equally spaced and grow. *)
Section Linspace.
Variables (a b : Q) (n : nat).
Hypothesis Hn : (2 ≤ n)%nat.
Hypothesis Hab : (a < b)%Q.

Local Abbreviation step := (linspace_step a b n).

Lemma step_pos : (0 < step)%Q.
Proof.
  unfold step. apply Qlt_shift_div_l.
  - replace 0%Q with (inject_Z 0) by done. rewrite <-Zlt_Qlt. lia.
  - lra.
Qed.

Lemma step_total : (inject_Z (Z.of_nat (n - 1)) * step == b - a)%Q.
Proof.
  unfold step. apply Qmult_div_r.
  intros Hz. assert (inject_Z 0 < inject_Z (Z.of_nat (n - 1)))%Q as Hlt
    by (rewrite <-Zlt_Qlt; lia).
  rewrite Hz in Hlt. by apply Qlt_irrefl in Hlt.
Qed.

Lemma linspace_before_last (i : nat) :
  (i < n - 1)%nat →
  @linspace exact_arithmetic a b n !! i = Some (inject_Z (Z.of_nat i) * step + a)%Q.
Proof.
  intros Hi. unfold linspace. rewrite decide_True by lia.
  rewrite list_lookup_insert_ne by lia.
  rewrite list_lookup_fmap, lookup_seq_lt by lia.
  cbn [fl exact_arithmetic fmap option_fmap option_map Nat.add].
  change ((b - a) / inject_Z (Z.of_nat (n - 1)))%Q with step.
  destruct (Qeq_bool step 0) eqn:Hzero; [|done].
  apply Qeq_bool_iff in Hzero. pose proof step_pos as Hpos. lra.
Qed.

Lemma inject_nat_lt (i j : nat) :
  (i < j)%nat → (inject_Z (Z.of_nat i) * step < inject_Z (Z.of_nat j) * step)%Q.
Proof.
  intros Hij. apply Qmult_lt_compat_r; [apply step_pos|].
  rewrite <-Zlt_Qlt. lia.
Qed.

Lemma linspace_ascending : ascending (@linspace exact_arithmetic a b n).
Proof.
  intros i j x y Hij Hx Hy.
  assert (j < n)%nat as Hj by (rewrite <-(linspace_length a b n); by eapply lookup_lt_Some).
  rewrite linspace_before_last in Hx by lia. injection Hx as <-.
  destruct (decide (j = n - 1)%nat) as [->|Hne].
  - rewrite linspace_last in Hy by done. injection Hy as <-.
    pose proof (inject_nat_lt i (n - 1) Hij) as Hlt.
    pose proof step_total as Htot. lra.
  - rewrite linspace_before_last in Hy by lia. injection Hy as <-.
    pose proof (inject_nat_lt i j Hij). lra.
Qed.
End Linspace.

(** ** Which bin a sample falls in *)

Lemma searchsorted_right_le (edges : list Q) (x : Q) :
  (searchsorted_right edges x ≤ length edges)%nat.
Proof.
  induction edges as [|e es IH]; cbn; [lia|]. destruct (Qle_bool e x); cbn; lia.
Qed.

Lemma searchsorted_right_below (edges : list Q) (x : Q) (i : nat) (e : Q) :
  (i < searchsorted_right edges x)%nat → edges !! i = Some e → (e <= x)%Q.
Proof.
  revert i. induction edges as [|e0 es IH]; intros i; cbn; [lia|].
  destruct (Qle_bool e0 x) eqn:He0; [|lia].
  destruct i as [|i]; cbn.
  - intros _ [= <-]. by apply Qle_bool_iff.
  - intros Hi. apply IH. lia.
Qed.

Lemma searchsorted_right_above (edges : list Q) (x : Q) (e : Q) :
  edges !! searchsorted_right edges x = Some e → (x < e)%Q.
Proof.
  induction edges as [|e0 es IH]; cbn; [done|].
  destruct (Qle_bool e0 x) eqn:He0; cbn; [done|].
  intros [= <-]. apply Qlt_bool_iff. unfold Qlt_bool. by rewrite He0.
Qed.

(** The index is fixed by the edges around [x]. *)
Lemma searchsorted_right_eq (edges : list Q) (x : Q) (k : nat) :
  monotone edges →
  (k ≤ length edges)%nat →
  (∀ i e, (i < k)%nat → edges !! i = Some e → (e <= x)%Q) →
  (∀ e, edges !! k = Some e → (x < e)%Q) →
  searchsorted_right edges x = k.
Proof.
  intros Hasc Hk Hbelow Habove.
  pose proof (searchsorted_right_le edges x) as Hle.
  destruct (Nat.lt_trichotomy (searchsorted_right edges x) k) as [Hlt|[Heq|Hgt]]; [|done|].
  - destruct (lookup_lt_is_Some_2 edges (searchsorted_right edges x)) as [e He]; [lia|].
    pose proof (searchsorted_right_above _ _ _ He).
    pose proof (Hbelow _ _ Hlt He). lra.
  - destruct (lookup_lt_is_Some_2 edges k) as [e He]; [lia|].
    pose proof (searchsorted_right_below _ _ _ _ Hgt He).
    pose proof (Habove _ He). lra.
Qed.

Section Bins.
Variable edges : list Q.
Hypothesis Hasc : monotone edges.

Lemma ascending_le (i j : nat) (x y : Q) :
  (i ≤ j)%nat → edges !! i = Some x → edges !! j = Some y → (x <= y)%Q.
Proof. apply Hasc. Qed.

Lemma last_lookup_edges (e : Q) :
  last edges = Some e → edges !! (length edges - 1)%nat = Some e.
Proof. rewrite last_lookup. by replace (pred (length edges)) with (length edges - 1)%nat by lia. Qed.

(** A sample on the last edge goes to the last cell. *)
Lemma bin_index_on_last (x e : Q) :
  last edges = Some e → (x == e)%Q → bin_index edges x = (length edges - 1)%nat.
Proof.
  intros Hlast Hx. unfold bin_index. rewrite Hlast.
  apply Qeq_bool_iff in Hx as Hxb. rewrite Hxb.
  rewrite (searchsorted_right_eq edges x (length edges)); [done|done|lia| |].
  - intros i e' Hi He'. rewrite Hx.
    apply (ascending_le i (length edges - 1)); [lia|done|by apply last_lookup_edges].
  - intros e' He'. apply lookup_lt_Some in He'. lia.
Qed.

Lemma bin_index_off_last (x e : Q) :
  last edges = Some e → ¬ (x == e)%Q → bin_index edges x = searchsorted_right edges x.
Proof.
  intros Hlast Hx. unfold bin_index. rewrite Hlast.
  destruct (Qeq_bool x e) eqn:Hxb; [|done]. by apply Qeq_bool_iff in Hxb.
Qed.

(** The bin number, counted with the outlier bin 0, against the cell. *)
Lemma bin_index_in_bin (k : nat) (x : Q) :
  (S k < length edges)%nat →
  bin_index edges x = S k ↔ in_bin edges k x = true.
Proof.
  intros Hk.
  destruct (lookup_lt_is_Some_2 edges k) as [lo Hlo]; [lia|].
  destruct (lookup_lt_is_Some_2 edges (S k)) as [hi Hhi]; [lia|].
  destruct (lookup_lt_is_Some_2 edges (length edges - 1)) as [e He]; [lia|].
  assert (last edges = Some e) as Hlast.
  { rewrite last_lookup. by replace (pred (length edges)) with (length edges - 1)%nat by lia. }
  unfold in_bin. rewrite Hlo, Hhi.
  rewrite andb_true_iff, orb_true_iff, andb_true_iff, bool_decide_eq_true.
  rewrite Qle_bool_iff, Qlt_bool_iff, Qeq_bool_iff.
  destruct (Qeq_dec x e) as [Hxe|Hxe].
  - (* on the last edge *)
    rewrite (bin_index_on_last x e Hlast Hxe). split.
    + intros Heq. assert (S k = length edges - 1)%nat as Hk' by lia.
      rewrite <-Hk' in He. assert (hi = e) as -> by congruence. split.
      * rewrite Hxe. apply (ascending_le k (S k)); [lia|done..].
      * right. split; [lia|done].
    + intros [Hlox [Hxhi|[Hk' _]]]; [|lia].
      pose proof (ascending_le (S k) (length edges - 1) hi e ltac:(lia) Hhi He). lra.
  - (* elsewhere *)
    rewrite (bin_index_off_last x e Hlast Hxe). split.
    + intros Heq. split.
      * apply (searchsorted_right_below edges x k); [lia|done].
      * left. apply (searchsorted_right_above edges). by rewrite Heq.
    + intros [Hlox [Hxhi|[Hk' Hxhi]]].
      * apply searchsorted_right_eq; [done|lia| |].
        -- intros i e' Hi He'.
           pose proof (ascending_le i k e' lo ltac:(lia) He' Hlo). lra.
        -- intros e' He'. by assert (e' = hi) as -> by congruence.
      * assert (S k = length edges - 1)%nat as Hk'' by lia.
        rewrite <-Hk'' in He. assert (hi = e) as -> by congruence. done.
Qed.

(** A sample between the first and the last edge gets a bin of the
    core, none of the two outlier bins. *)
Lemma bin_index_core (x first e : Q) :
  (2 ≤ length edges)%nat →
  edges !! 0%nat = Some first → last edges = Some e →
  (first <= x)%Q → (x <= e)%Q →
  (1 ≤ bin_index edges x)%nat ∧ (bin_index edges x + 1 < length edges + 1)%nat.
Proof.
  intros Hlen Hfirst Hlast Hlo Hhi.
  destruct (Qeq_dec x e) as [Hxe|Hxe].
  { rewrite (bin_index_on_last x e Hlast Hxe). lia. }
  rewrite (bin_index_off_last x e Hlast Hxe).
  pose proof (searchsorted_right_le edges x) as Hle. split.
  - destruct (searchsorted_right edges x) as [|s] eqn:Hs; [|lia].
    pose proof (searchsorted_right_above edges x first) as Habove.
    rewrite Hs in Habove. specialize (Habove Hfirst). lra.
  - destruct (decide (searchsorted_right edges x = length edges)) as [Hs|Hs]; [|lia].
    pose proof (searchsorted_right_below edges x (length edges - 1) e) as Hbelow.
    rewrite Hs in Hbelow.
    specialize (Hbelow ltac:(lia) (last_lookup_edges e Hlast)).
    assert (x == e)%Q by lra. done.
Qed.
End Bins.

(** ** Counting in a matrix *)

Lemma bump_rect (nx ny i j : nat) (h : list (list nat)) :
  rect nx ny h → rect nx ny (bump i j h).
Proof.
  intros [Hlen Hrows]. split; unfold bump; [by rewrite length_alter|].
  apply Forall_alter; [done|]. intros row _. cbn. by rewrite length_alter.
Qed.

Lemma inner_alter {A} (f : A → A) (i : nat) (l : list A) :
  (1 ≤ i)%nat → (i + 1 < length l)%nat →
  inner (alter f i l) = alter f (i - 1)%nat (inner l).
Proof.
  intros Hi Hlen. unfold inner. rewrite length_alter.
  rewrite drop_alter_ge by lia. by rewrite take_alter_lt by lia.
Qed.

Lemma inner_length {A} (l : list A) : length (inner l) = (length l - 2)%nat.
Proof. unfold inner. rewrite length_take, length_drop. lia. Qed.

Lemma inner_replicate {A} (n : nat) (x : A) : inner (replicate n x) = replicate (n - 2) x.
Proof.
  unfold inner. rewrite length_replicate, drop_replicate, take_replicate.
  f_equal. lia.
Qed.

(** Cutting the outlier bins off commutes with counting a sample that is
    not in them. *)
Lemma core_bump (nx ny i j : nat) (h : list (list nat)) :
  rect nx ny h →
  (1 ≤ i)%nat → (i + 1 < nx)%nat → (1 ≤ j)%nat → (j + 1 < ny)%nat →
  inner <$> inner (bump i j h) = bump (i - 1) (j - 1) (inner <$> inner h).
Proof.
  intros [Hlen Hrows] ????. unfold bump.
  rewrite inner_alter by lia.
  apply list_fmap_alter. apply Forall_forall. intros row Hrow.
  assert (row ∈ h) as Hin.
  { unfold inner in Hrow. by apply subseteq_take, subseteq_drop in Hrow. }
  rewrite Forall_forall in Hrows. rewrite inner_alter; [done|lia|].
  rewrite (Hrows row Hin). lia.
Qed.

Lemma core_foldl {S} (nx ny : nat) (where_ : S → nat * nat) (samples : list S)
    (h : list (list nat)) :
  rect nx ny h →
  Forall (λ s, (1 ≤ (where_ s).1 ∧ (where_ s).1 + 1 < nx
                ∧ 1 ≤ (where_ s).2 ∧ (where_ s).2 + 1 < ny)%nat) samples →
  inner <$> inner (foldl (λ h s, bump (where_ s).1 (where_ s).2 h) h samples)
  = foldl (λ h s, bump ((where_ s).1 - 1) ((where_ s).2 - 1) h) (inner <$> inner h) samples.
Proof.
  intros Hrect Hcore. revert h Hrect.
  induction Hcore as [|s samples (? & ? & ? & ?) _ IH]; intros h Hrect; [done|].
  cbn [foldl]. rewrite IH by (by apply bump_rect).
  by rewrite (core_bump nx ny).
Qed.

Lemma sum_list_alter_S (j : nat) (row : list nat) :
  (j < length row)%nat → sum_list (alter S j row) = S (sum_list row).
Proof.
  revert j. induction row as [|c row IH]; intros [|j] Hj; cbn in *; [lia..| |].
  - done.
  - rewrite IH by lia. lia.
Qed.

Lemma total_bump (nx ny i j : nat) (h : list (list nat)) :
  rect nx ny h → (i < nx)%nat → (j < ny)%nat → total (bump i j h) = S (total h).
Proof.
  intros [<- Hrows] Hi Hj. unfold total, bump.
  revert i Hi. induction Hrows as [|row h Hrow _ IH]; intros [|i] Hi; cbn in *; [lia..| |].
  - rewrite sum_list_alter_S by lia. done.
  - rewrite IH by lia. lia.
Qed.

Lemma total_foldl {S} (nx ny : nat) (where_ : S → nat * nat) (samples : list S)
    (h : list (list nat)) :
  rect nx ny h →
  Forall (λ s, ((where_ s).1 < nx ∧ (where_ s).2 < ny)%nat) samples →
  total (foldl (λ h s, bump (where_ s).1 (where_ s).2 h) h samples)
  = (total h + length samples)%nat.
Proof.
  intros Hrect Hin. revert h Hrect.
  induction Hin as [|s samples [? ?] _ IH]; intros h Hrect; cbn [foldl length]; [lia|].
  rewrite IH by (by apply bump_rect). rewrite (total_bump nx ny) by done. lia.
Qed.

Lemma cell_at_bump (i j i' j' : nat) (h : list (list nat)) :
  cell_at (bump i' j' h) i j
  = (if decide (i' = i ∧ j' = j) then S else id) <$> cell_at h i j.
Proof.
  unfold cell_at, bump. rewrite list_lookup_alter.
  destruct (decide (i' = i)) as [->|Hi].
  - destruct (h !! i) as [row|]; cbn; [|done].
    rewrite list_lookup_alter.
    destruct (decide (j' = j)) as [->|Hj].
    + by rewrite decide_True.
    + rewrite decide_False by (by intros [_ ?]). by destruct (row !! j).
  - rewrite decide_False by (by intros [? _]).
    destruct (h !! i) as [row|]; cbn; [|done]. by destruct (row !! j).
Qed.

Lemma cell_at_foldl {S} (where_ : S → nat * nat) (samples : list S)
    (h : list (list nat)) (i j : nat) :
  cell_at (foldl (λ h s, bump (where_ s).1 (where_ s).2 h) h samples) i j
  = (λ c, c + length (filter (λ s, (where_ s).1 = i ∧ (where_ s).2 = j) samples))%nat
      <$> cell_at h i j.
Proof.
  revert h. induction samples as [|s samples IH]; intros h; cbn [foldl].
  { rewrite filter_nil. destruct (cell_at h i j); cbn; [f_equal; lia|done]. }
  rewrite IH, cell_at_bump, filter_cons.
  destruct (cell_at h i j) as [c|]; [|by case_decide].
  case_decide; cbn; f_equal; lia.
Qed.

Lemma cell_at_zeros (nx ny i j : nat) :
  (i < nx)%nat → (j < ny)%nat → cell_at (replicate nx (replicate ny 0%nat)) i j = Some 0%nat.
Proof.
  intros Hi Hj. unfold cell_at. rewrite lookup_replicate_2 by done. cbn.
  by rewrite lookup_replicate_2.
Qed.

Lemma total_zeros (nx ny : nat) : total (replicate nx (replicate ny 0%nat)) = 0%nat.
Proof.
  unfold total. rewrite fmap_replicate.
  assert (sum_list (replicate ny 0%nat) = 0%nat) as ->.
  { induction ny as [|ny IH]; [done|]. cbn. by rewrite IH. }
  induction nx as [|nx IH]; [done|]. cbn. by rewrite IH.
Qed.

Lemma rect_zeros (nx ny : nat) : rect nx ny (replicate nx (replicate ny 0%nat)).
Proof.
  split; [apply length_replicate|]. apply Forall_replicate, length_replicate.
Qed.

Lemma rect_foldl {S} (nx ny : nat) (where_ : S → nat * nat) (samples : list S)
    (h : list (list nat)) :
  rect nx ny h → rect nx ny (foldl (λ h s, bump (where_ s).1 (where_ s).2 h) h samples).
Proof.
  revert h. induction samples as [|s samples IH]; intros h Hrect; [done|].
  cbn [foldl]. by apply IH, bump_rect.
Qed.

(** ** The histogram of a table *)

Lemma zip_columns {A B C} (f : A → B) (g : A → C) (l : list A) :
  zip (f <$> l) (g <$> l) = (λ x, (f x, g x)) <$> l.
Proof. induction l as [|x l IH]; [done|]. cbn. by f_equal. Qed.

Lemma filter_length_ext {A} (P Q : A → Prop) `{∀ x, Decision (P x)} `{∀ x, Decision (Q x)}
    (l : list A) :
  Forall (λ x, P x ↔ Q x) l → length (filter P l) = length (filter Q l).
Proof.
  induction 1 as [|x l Hx _ IH]; [done|].
  rewrite !filter_cons. destruct (decide (P x)), (decide (Q x)); cbn; tauto || lia.
Qed.

Section Histogram.
Variables (ex ey : list Q) (fx fy : Crime → Q) (df : DataFrame).
Variables (x0 x1 y0 y1 : Q).
Hypothesis Hex : monotone ex.
Hypothesis Hey : monotone ey.
Hypothesis Hnx : (2 ≤ length ex)%nat.
Hypothesis Hny : (2 ≤ length ey)%nat.
Hypothesis Hx0 : ex !! 0%nat = Some x0.
Hypothesis Hx1 : last ex = Some x1.
Hypothesis Hy0 : ey !! 0%nat = Some y0.
Hypothesis Hy1 : last ey = Some y1.
Hypothesis Hinside :
  Forall (λ row : nat * Crime,
            (x0 <= fx row.2)%Q ∧ (fx row.2 <= x1)%Q
            ∧ (y0 <= fy row.2)%Q ∧ (fy row.2 <= y1)%Q) df.

Let where_ (row : nat * Crime) : nat * nat :=
  (bin_index ex (fx row.2), bin_index ey (fy row.2)).

Lemma samples_in_core :
  Forall (λ s, (1 ≤ (where_ s).1 ∧ (where_ s).1 + 1 < length ex + 1
                ∧ 1 ≤ (where_ s).2 ∧ (where_ s).2 + 1 < length ey + 1)%nat) df.
Proof.
  eapply Forall_impl; [exact Hinside|]. intros row (? & ? & ? & ?). cbn.
  destruct (bin_index_core ex Hex (fx row.2) x0 x1) as [? ?]; [done..|].
  destruct (bin_index_core ey Hey (fy row.2) y0 y1) as [? ?]; [done..|].
  lia.
Qed.

(** In-range samples on edges that never decrease: nothing is raised, the outlier
    bins stay empty, and each cell counts the records that fall in it. *)
Lemma histogram2d_counts :
  ∃ d, histogram2d (column fx df) (column fy df) ex ey = Ok (d, ex, ey)
       ∧ rect (length ex - 1) (length ey - 1) d
       ∧ total d = length df
       ∧ ∀ i j, (i < length ex - 1)%nat → (j < length ey - 1)%nat →
           cell_at d i j
           = Some (length (filter (λ row : nat * Crime,
                                     in_bin ex i (fx row.2) = true
                                     ∧ in_bin ey j (fy row.2) = true) df)).
Proof.
  pose proof samples_in_core as Hcore.
  unfold histogram2d, histogramdd.
  rewrite decide_True by (by rewrite !column_length).
  rewrite (monotone_increasing ex Hex), (monotone_increasing ey Hey).
  cbn [andb result_bind].
  unfold column. rewrite zip_columns, foldl_fmap. cbn [fst snd].
  change (foldl _ ?z df) with (foldl (λ acc s, bump (where_ s).1 (where_ s).2 acc) z df).
  rewrite (core_foldl (length ex + 1) (length ey + 1) where_ df)
    by (apply rect_zeros || exact Hcore).
  rewrite inner_replicate, fmap_replicate, inner_replicate.
  replace (length ex + 1 - 2)%nat with (length ex - 1)%nat by lia.
  replace (length ey + 1 - 2)%nat with (length ey - 1)%nat by lia.
  eexists. split; [reflexivity|]. split; [|split].
  - apply (rect_foldl _ _ (λ s, ((where_ s).1 - 1, (where_ s).2 - 1)%nat)), rect_zeros.
  - rewrite (total_foldl (length ex - 1) (length ey - 1)
               (λ s, ((where_ s).1 - 1, (where_ s).2 - 1)%nat)).
    + by rewrite total_zeros.
    + apply rect_zeros.
    + eapply Forall_impl; [exact Hcore|]. intros row. cbn. lia.
  - intros i j Hi Hj.
    rewrite (cell_at_foldl (λ s, ((where_ s).1 - 1, (where_ s).2 - 1)%nat)).
    rewrite cell_at_zeros by done. cbn [fmap option_fmap option_map Nat.add]. f_equal.
    apply filter_length_ext.
    eapply Forall_impl; [exact Hcore|]. intros row (? & ? & ? & ?). cbn in *.
    rewrite <-(bin_index_in_bin ex Hex i) by lia.
    rewrite <-(bin_index_in_bin ey Hey j) by lia. lia.
Qed.
End Histogram.

(** ** The grid of the heat map *)

Lemma map_fmap {A B} (f : A → B) (l : list A) : List.map f l = f <$> l.
Proof. induction l as [|a l IH]; [done|]. cbn. by rewrite IH. Qed.

Lemma zip_with_constant_r {A B C} (f : A → B → C) (xs : list A) (y : B) :
  zip_with f xs ((λ _, y) <$> xs) = (λ x, f x y) <$> xs.
Proof. induction xs as [|x xs IH]; [done|]. cbn. by rewrite IH. Qed.

(** [np.meshgrid] followed by the projection, point by point: row [i]
    holds the points of [ys !! i], column [j] those of [xs !! j]. *)
Lemma meshgrid_projected (f : Q → Q → Q * Q) (xs ys : list Q) :
  zip_with (zip_with f) (meshgrid xs ys).1 (meshgrid xs ys).2
  = (λ y, (λ x, f x y) <$> xs) <$> ys.
Proof.
  unfold meshgrid. cbn [fst snd].
  induction ys as [|y ys IH]; [done|].
  cbn [fmap list_fmap zip_with]. rewrite zip_with_constant_r. f_equal. exact IH.
Qed.

Lemma grid_component {A B} (g : A → B) (f : Q → Q → A) (xs ys : list Q) :
  List.map (List.map g) ((λ y, (λ x, f x y) <$> xs) <$> ys)
  = (λ y, (λ x, g (f x y)) <$> xs) <$> ys.
Proof.
  rewrite map_fmap, <-list_fmap_compose. apply list_fmap_ext. intros _ y _. cbn.
  by rewrite map_fmap, <-list_fmap_compose.
Qed.

Lemma grid_lookup {A} (f : Q → Q → A) (xs ys : list Q) (i j : nat) (x y : Q) :
  ys !! i = Some y → xs !! j = Some x →
  (row ← ((λ y, (λ x, f x y) <$> xs) <$> ys) !! i; row !! j) = Some (f x y).
Proof.
  intros Hy Hx. rewrite list_lookup_fmap, Hy. cbn.
  by rewrite list_lookup_fmap, Hx.
Qed.

Lemma grid_shape {A} (f : Q → Q → A) (xs ys : list Q) :
  length ((λ y, (λ x, f x y) <$> xs) <$> ys) = length ys
  ∧ Forall (λ row, length row = length xs) ((λ y, (λ x, f x y) <$> xs) <$> ys).
Proof.
  split; [by rewrite length_fmap|].
  apply Forall_fmap, Forall_forall. intros y _. cbn. by rewrite length_fmap.
Qed.

(** ** The heat map *)

Lemma column_doubles (f : Crime → Q) (df : DataFrame) `{Float64} :
  Forall (λ row, (fl (f row.2) == f row.2)%Q) df →
  Forall (λ x, (fl x == x)%Q) (column f df).
Proof. intros Hdf. unfold column. by apply Forall_fmap. Qed.

Section Edges.
Context `{Float64}.

Lemma padded_bins_inv (xs bins : list Q) :
  padded_bins xs = Ok bins →
  ∃ lo hi, np_min xs = Ok lo ∧ np_max xs = Ok hi
           ∧ bins = linspace (fl (lo - 1)) (fl (hi + 1)) 500.
Proof.
  unfold padded_bins. destruct (np_min xs) as [lo|]; [|done].
  destruct (np_max xs) as [hi|]; [|done]. cbn. intros [= <-]. by exists lo, hi.
Qed.

(** The edges of an axis: 500 of them, and when the data are doubles
    the first is not above and the last not below any of the data. *)
Lemma padded_bins_spec (xs : list Q) :
  xs ≠ [] →
  ∃ bins, padded_bins xs = Ok bins
    ∧ length bins = 500%nat
    ∧ (Forall (λ x, (fl x == x)%Q) xs →
       ∃ e0 e1, bins !! 0%nat = Some e0 ∧ last bins = Some e1
                ∧ Forall (λ x, e0 <= x ∧ x <= e1)%Q xs).
Proof.
  intros Hxs.
  destruct (np_min_is_Some xs Hxs) as [lo Hlo].
  destruct (np_max_is_Some xs Hxs) as [hi Hhi].
  assert (2 ≤ 500)%nat as Hnum by lia.
  exists (linspace (fl (lo - 1)) (fl (hi + 1)) 500).
  unfold padded_bins. rewrite Hlo, Hhi. cbn [result_bind].
  split; [reflexivity|]. split; [apply linspace_length|].
  intros Hdoubles.
  pose proof (np_min_le xs lo Hlo) as Hmin.
  pose proof (np_max_ge xs hi Hhi) as Hmax.
  rewrite Forall_forall in Hdoubles.
  pose proof (fl_minus_le lo (Hdoubles lo (np_min_elem xs lo Hlo))) as Hbelow.
  pose proof (fl_plus_ge hi (Hdoubles hi (np_max_elem xs hi Hhi))) as Habove.
  destruct (linspace_first (fl (lo - 1)) (fl (hi + 1)) 500 Hnum (fl_fl _))
    as (e0 & He0 & Heq).
  exists e0, (fl (hi + 1)). split; [exact He0|]. split.
  - rewrite last_lookup, linspace_length. exact (linspace_last _ _ 500 Hnum).
  - apply Forall_forall. intros x Hx. rewrite Forall_forall in Hmin, Hmax.
    specialize (Hmin x Hx). specialize (Hmax x Hx). cbn beta in *. rewrite Heq. lra.
Qed.

(** The histogram of a table of doubles on edges that pass the check. *)
Lemma heat_histogram (df : DataFrame) (lon_bins lat_bins : list Q) :
  df ≠ [] → doubles df →
  padded_bins (column long df) = Ok lon_bins →
  padded_bins (column lat df) = Ok lat_bins →
  increasing lat_bins = true → increasing lon_bins = true →
  ∃ d,
    histogram2d (column lat df) (column long df) lat_bins lon_bins
      = Ok (d, lat_bins, lon_bins)
    ∧ rect 499 499 d
    ∧ total d = length df
    ∧ ∀ i j, (i < 499)%nat → (j < 499)%nat →
        cell_at d i j
        = Some (length (filter (λ row : nat * Crime,
                                  in_bin lat_bins i (lat row.2) = true
                                  ∧ in_bin lon_bins j (long row.2) = true) df)).
Proof.
  intros Hdf Hdoubles Hlon Hlat Hincy Hincx.
  destruct (padded_bins_spec (column long df))
    as (lon_bins' & Hlon' & Hnx & Hinx); [by apply column_nil_inv|].
  destruct (padded_bins_spec (column lat df))
    as (lat_bins' & Hlat' & Hny & Hiny); [by apply column_nil_inv|].
  assert (lon_bins' = lon_bins) as -> by congruence.
  assert (lat_bins' = lat_bins) as -> by congruence.
  destruct Hinx as (x0 & x1 & Hx0 & Hx1 & Hinx).
  { apply column_doubles. eapply Forall_impl; [exact Hdoubles|]. by intros row [? _]. }
  destruct Hiny as (y0 & y1 & Hy0 & Hy1 & Hiny).
  { apply column_doubles. eapply Forall_impl; [exact Hdoubles|]. by intros row [_ ?]. }
  destruct (histogram2d_counts lat_bins lon_bins lat long df y0 y1 x0 x1
              (increasing_monotone _ Hincy) (increasing_monotone _ Hincx))
    as (d & Hd & Hrect & Htotal & Hcells).
  { rewrite Hny. lia. }
  { rewrite Hnx. lia. }
  { exact Hy0. }
  { exact Hy1. }
  { exact Hx0. }
  { exact Hx1. }
  { unfold column in Hinx, Hiny. rewrite Forall_fmap in Hinx, Hiny.
    rewrite Forall_forall in Hinx, Hiny. apply Forall_forall. intros row Hrow.
    specialize (Hinx row Hrow). specialize (Hiny row Hrow). cbn in *. tauto. }
  rewrite Hnx, Hny in Hrect, Hcells.
  exists d. split; [exact Hd|]. split; [exact Hrect|]. split; [exact Htotal|]. exact Hcells.
Qed.

(** Edges that pass the check are enough for the histogram to be
    computed, and edges that do not make it raise. *)
Lemma histogram2d_checked (df : DataFrame) (lon_bins lat_bins : list Q) :
  histogram2d (column lat df) (column long df) lat_bins lon_bins
  = if increasing lat_bins && increasing lon_bins
    then match histogram2d (column lat df) (column long df) lat_bins lon_bins with
         | Ok h => Ok h
         | Raise _ => Raise ValueError
         end
    else Raise ValueError.
Proof.
  unfold histogram2d, histogramdd.
  rewrite decide_True by (by rewrite !column_length).
  by destruct (increasing lat_bins && increasing lon_bins).
Qed.

Lemma histogram2d_passes (df : DataFrame) (lon_bins lat_bins : list Q) :
  increasing lat_bins = true → increasing lon_bins = true →
  ∃ d, histogram2d (column lat df) (column long df) lat_bins lon_bins
       = Ok (d, lat_bins, lon_bins).
Proof.
  intros Hy Hx. unfold histogram2d, histogramdd.
  rewrite decide_True by (by rewrite !column_length).
  rewrite Hy, Hx. cbn. by eexists.
Qed.

Lemma histogram2d_fails (df : DataFrame) (lon_bins lat_bins : list Q) :
  increasing lat_bins && increasing lon_bins = false →
  histogram2d (column lat df) (column long df) lat_bins lon_bins = Raise ValueError.
Proof. intros Hinc. by rewrite histogram2d_checked, Hinc. Qed.
End Edges.

(** Without rounding the edges of an axis always pass the check. *)
Lemma exact_edges_pass (xs bins : list Q) :
  @padded_bins exact_arithmetic xs = Ok bins → increasing bins = true.
Proof.
  intros (lo & hi & Hlo & Hhi & ->)%padded_bins_inv.
  apply ascending_increasing, linspace_ascending; [lia|].
  cbn [fl exact_arithmetic].
  pose proof (np_min_le xs lo Hlo) as Hmin.
  pose proof (np_max_ge xs hi Hhi) as Hmax.
  destruct xs as [|x xs]; [done|].
  apply Forall_cons in Hmin as [? _]. apply Forall_cons in Hmax as [? _]. lra.
Qed.

Lemma exact_doubles (df : DataFrame) : @doubles exact_arithmetic df.
Proof. apply Forall_true. intros row. split; apply Qeq_refl. Qed.

Section Heatmap.
Context `{Float64} `{BasemapLib}.

(** When the map can be built the renderer gets as far as the histogram.
    If that is computed, the figure holds the map image and, over the
    grid of projected edges, the density. *)
Lemma heatmap_rows (df : DataFrame) (w : World) (m : Basemap) (lon_bins lat_bins : list Q)
    (d : list (list nat)) :
  map_of df = Ok m →
  padded_bins (column long df) = Ok lon_bins →
  padded_bins (column lat df) = Ok lat_bins →
  histogram2d (column lat df) (column long df) lat_bins lon_bins
    = Ok (d, lat_bins, lon_bins) →
  heatmap df w
  = (ensure_out_dir;; savefig (OUT_DIR +:+ "heatmap.png"))
      {| fs := fs w;
         figures :=
           {| background := Some m; markers := [];
              mesh := Some {| mesh_xs := (λ y, (λ x, (to_map m x y).1) <$> lon_bins) <$> lat_bins;
                              mesh_ys := (λ y, (λ x, (to_map m x y).2) <$> lon_bins) <$> lat_bins;
                              mesh_c := d |};
              title := "Heatmap of crimes in DC"; legend := [] |} :: figures w |}.
Proof.
  intros Hm Hlon Hlat Hd.
  apply padded_bins_inv in Hlon as (lo_x & hi_x & Hlo_x & Hhi_x & Hx).
  apply padded_bins_inv in Hlat as (lo_y & hi_y & Hlo_y & Hhi_y & Hy).
  unfold heatmap. run. unfold plt_figure at 1.
  rewrite (backgroundLayer_data _ _ m _ Hm).
  rewrite Hlo_x, Hhi_x, Hlo_y, Hhi_y. rewrite <-Hx, <-Hy, Hd.
  rewrite meshgrid_projected, !grid_component.
  reflexivity.
Qed.

(** If the histogram raises, the figure has the map image and nothing
    else, and nothing is written. *)
Lemma heatmap_histogram_raises (df : DataFrame) (w : World) (m : Basemap)
    (lon_bins lat_bins : list Q) (e : exn) :
  map_of df = Ok m →
  padded_bins (column long df) = Ok lon_bins →
  padded_bins (column lat df) = Ok lat_bins →
  histogram2d (column lat df) (column long df) lat_bins lon_bins = Raise e →
  heatmap df w
  = ({| fs := fs w;
        figures := {| background := Some m; markers := []; mesh := None;
                      title := ""; legend := [] |} :: figures w |}, Raise e).
Proof.
  intros Hm Hlon Hlat Hd.
  apply padded_bins_inv in Hlon as (lo_x & hi_x & Hlo_x & Hhi_x & Hx).
  apply padded_bins_inv in Hlat as (lo_y & hi_y & Hlo_y & Hhi_y & Hy).
  unfold heatmap. run. unfold plt_figure at 1.
  rewrite (backgroundLayer_data _ _ m _ Hm).
  rewrite Hlo_x, Hhi_x, Hlo_y, Hhi_y. rewrite <-Hx, <-Hy, Hd.
  reflexivity.
Qed.

(** When the map library refuses the bounding box, the figure that was
    opened stays empty. *)
Lemma heatmap_refused (df : DataFrame) (w : World) (e : exn) :
  map_of df = Raise e →
  heatmap df w = ({| fs := fs w; figures := new_figure :: figures w |}, Raise e).
Proof.
  intros Hm. unfold heatmap. run. unfold plt_figure at 1.
  by rewrite (backgroundLayer_refused _ _ e _ Hm).
Qed.

(** C4, as amended.  For every record table of doubles for which the
    background map can be built, the heat map has 500 longitude edges
    and 500 latitude edges, computed by [np.linspace] from the data's
    minimum less the margin to its maximum plus the margin.  If the
    edges of both axes pass numpy's check, the histogram over the
    499 x 499 cells between them has counts that sum to the number of
    records, and each cell holds the plain number of records that fall
    in it: zero for a cell with no record.  If they do not, the
    histogram raises [ValueError] and no density is drawn. *)
Theorem heatmap_counts_every_record (df : DataFrame) (w : World) :
  builds_map df → doubles df →
  ∃ lon_bins lat_bins,
    padded_bins (column long df) = Ok lon_bins
    ∧ padded_bins (column lat df) = Ok lat_bins
    ∧ length lon_bins = 500%nat ∧ length lat_bins = 500%nat
    ∧ if increasing lat_bins && increasing lon_bins then
        ∃ density,
          drawn_density (heatmap df w).1 = Some density
          ∧ rect 499 499 density
          ∧ total density = length df
          ∧ (∀ i j, (i < 499)%nat → (j < 499)%nat →
               cell_at density i j
               = Some (length (filter (λ row : nat * Crime,
                                         in_bin lat_bins i (lat row.2) = true
                                         ∧ in_bin lon_bins j (long row.2) = true) df)))
          ∧ (can_save w "output/heatmap.png" →
             (heatmap df w).2 = Ok tt
             ∧ fs (heatmap df w).1 !! "output/heatmap.png"
               = Some (File (Png (gcf (heatmap df w).1))))
      else
        (heatmap df w).2 = Raise ValueError
        ∧ drawn_density (heatmap df w).1 = None.
Proof.
  intros Hmap Hdoubles. pose proof (builds_map_rows df Hmap) as Hdf.
  destruct Hmap as [m Hm].
  destruct (padded_bins_spec (column long df))
    as (lon_bins & Hlon & Hnx & _); [by apply column_nil_inv|].
  destruct (padded_bins_spec (column lat df))
    as (lat_bins & Hlat & Hny & _); [by apply column_nil_inv|].
  exists lon_bins, lat_bins.
  split; [exact Hlon|]. split; [exact Hlat|]. split; [exact Hnx|]. split; [exact Hny|].
  destruct (increasing lat_bins && increasing lon_bins) eqn:Hinc.
  - apply andb_true_iff in Hinc as [Hincy Hincx].
    destruct (heat_histogram df lon_bins lat_bins Hdf Hdoubles Hlon Hlat Hincy Hincx)
      as (d & Hd & Hrect & Htotal & Hcells).
    pose proof (heatmap_rows df w m lon_bins lat_bins d Hm Hlon Hlat Hd) as Hrun.
    exists d.
    split; [|split; [exact Hrect|split; [exact Htotal|split; [exact Hcells|]]]].
    + unfold drawn_density, gcf. rewrite Hrun, save_figures. reflexivity.
    + intros Hsave. rewrite Hrun, save_ok; [|done|done|done]. cbn [fst snd fs].
      split; [done|]. apply lookup_insert_eq.
  - rewrite (heatmap_histogram_raises df w m lon_bins lat_bins ValueError Hm Hlon Hlat
               (histogram2d_fails df lon_bins lat_bins Hinc)).
    by split.
Qed.
End Heatmap.

Lemma heatmap_counts_every_record_witness :
  ∃ lon_bins lat_bins density,
    padded_bins (column long two_crimes) = Ok lon_bins
    ∧ padded_bins (column lat two_crimes) = Ok lat_bins
    ∧ length lon_bins = 500%nat ∧ length lat_bins = 500%nat
    ∧ drawn_density (heatmap two_crimes empty_world).1 = Some density
    ∧ rect 499 499 density
    ∧ total density = length two_crimes
    ∧ (∀ i j, (i < 499)%nat → (j < 499)%nat →
         cell_at density i j
         = Some (length (filter (λ row : nat * Crime,
                                   in_bin lat_bins i (lat row.2) = true
                                   ∧ in_bin lon_bins j (long row.2) = true) two_crimes)))
    ∧ (can_save empty_world "output/heatmap.png" →
       (heatmap two_crimes empty_world).2 = Ok tt
       ∧ fs (heatmap two_crimes empty_world).1 !! "output/heatmap.png"
         = Some (File (Png (gcf (heatmap two_crimes empty_world).1)))).
Proof.
  destruct (heatmap_counts_every_record two_crimes empty_world two_crimes_map
              (exact_doubles two_crimes))
    as (lon_bins & lat_bins & Hlon & Hlat & Hnx & Hny & Hcounts).
  rewrite (exact_edges_pass _ _ Hlon), (exact_edges_pass _ _ Hlat) in Hcounts.
  destruct Hcounts as (density & Hcounts).
  exists lon_bins, lat_bins, density.
  exact (conj Hlon (conj Hlat (conj Hnx (conj Hny Hcounts)))).
Defined.

(** C4 as stated fails on the table with no record: the bounds of no
    data do not exist, the renderer raises [ValueError] in the background
    layer and no histogram is computed or drawn. *)
Lemma heatmap_no_record_raises :
  heatmap [] empty_world = ({| fs := ∅; figures := [new_figure] |}, Raise ValueError)
  ∧ drawn_density (heatmap [] empty_world).1 = None
  ∧ padded_bins (column long []) = Raise ValueError.
Proof. done. Qed.

(** ** The whole run and the output directory *)

(** The interactive renderer does not make the directory: on its own it
    fails when the directory is absent. *)
Lemma bokeh_scatter_needs_out_dir (df : DataFrame) (w : World) :
  fs w !! OUT_DIR = None → bokeh_scatter df w = (w, Raise IOError).
Proof.
  intros Hdir. unfold bokeh_scatter, write_file.
  change (dirname (OUT_DIR +:+ "bokeh_scatter.html")) with OUT_DIR. by rewrite Hdir.
Qed.

Lemma bokeh_scatter_in_out_dir (df : DataFrame) (w : World) :
  fs w !! OUT_DIR = Some Dir →
  fs w !! "output/bokeh_scatter.html" ≠ Some Dir →
  ∃ doc, bokeh_scatter df w
         = ({| fs := <["output/bokeh_scatter.html" := File (Html doc)]> (fs w);
               figures := figures w |}, Ok tt)
         ∧ doc_source doc = bokeh_source df.
Proof.
  intros Hdir Hfile. eexists. unfold bokeh_scatter, write_file.
  change (dirname (OUT_DIR +:+ "bokeh_scatter.html")) with OUT_DIR. rewrite Hdir.
  change (OUT_DIR +:+ "bokeh_scatter.html") with "output/bokeh_scatter.html".
  destruct (fs w !! "output/bokeh_scatter.html") as [[|a]|]; [done|..];
    split; reflexivity.
Qed.

Lemma colors_total py (df : DataFrame) (f : string) (field : Crime → string) :
  getitem df f = Ok (Str <$> column field df) →
  Forall (λ row, is_Some (featToCol !! field row.2)) df →
  ∃ cs, colors py df (Some f) = Ok (Ok <$> cs).
Proof.
  intros Hcol Hall.
  exists ((λ row : nat * Crime, default "" (featToCol !! field row.2)) <$> df).
  apply (colors_found py df f field); [done|].
  apply Forall2_fmap_r, Forall_Forall2_diag.
  eapply Forall_impl; [exact Hall|]. intros row [c Hc]. cbn. by rewrite Hc.
Qed.

(** Once a file has been saved, nothing is in the way of another. *)
Lemma can_save_next (F : gmap string node) (gs gs' : list Figure) (p q : string)
    (a : artifact) :
  p ≠ OUT_DIR → q ≠ OUT_DIR → q ≠ p →
  can_save {| fs := F; figures := gs |} q →
  can_save {| fs := <[p := File a]> (<[OUT_DIR := Dir]> F); figures := gs' |} q.
Proof.
  intros Hp Hq Hqp [_ Hfile]. split.
  - intros a'. cbn. by rewrite lookup_insert_ne, lookup_insert_eq.
  - cbn in *. by rewrite !lookup_insert_ne.
Qed.

Section Main.
Context `{Float64} `{BasemapLib}.

Lemma scatterPlot_writes py df feature cs w :
  colors py df feature = Ok (Ok <$> cs) → builds_map df →
  can_save w (scatter_png feature) →
  ∃ g, scatterPlot py df feature w
       = ({| fs := <[scatter_png feature := File (Png g)]> (<[OUT_DIR := Dir]> (fs w));
             figures := g :: figures w |}, Ok tt).
Proof.
  intros Hc Hmap Hsave.
  destruct (scatterPlot_markers py df feature cs w Hc Hmap) as (_ & Hrun).
  destruct (Hrun Hsave) as (g & Hg & _). by exists g.
Qed.

Lemma heatmap_writes df w :
  builds_map df → edges_pass df → can_save w "output/heatmap.png" →
  ∃ g, heatmap df w
       = ({| fs := <["output/heatmap.png" := File (Png g)]> (<[OUT_DIR := Dir]> (fs w));
             figures := g :: figures w |}, Ok tt).
Proof.
  intros Hmap Hpass Hsave. pose proof (builds_map_rows df Hmap) as Hdf.
  destruct Hmap as [m Hm].
  destruct (padded_bins_spec (column long df))
    as (lon_bins & Hlon & _); [by apply column_nil_inv|].
  destruct (padded_bins_spec (column lat df))
    as (lat_bins & Hlat & _); [by apply column_nil_inv|].
  destruct (histogram2d_passes df lon_bins lat_bins) as [d Hd].
  { apply Hpass. by right. }
  { apply Hpass. by left. }
  rewrite (heatmap_rows df w m lon_bins lat_bins d Hm Hlon Hlat Hd).
  rewrite save_ok; [|done|done|done]. by eexists.
Qed.

Lemma render_all_writes py df w :
  builds_map df → edges_pass df →
  Forall (λ row, is_Some (featToCol !! OFFENSE row.2)
                 ∧ is_Some (featToCol !! METHOD row.2)) df →
  out_dir_free w →
  Forall (λ p, fs w !! p ≠ Some Dir)
    ["output/scatter.png"; "output/scatter_offense.png"; "output/scatter_method.png";
     "output/heatmap.png"; "output/bokeh_scatter.html"] →
  (render_all py df w).2 = Ok tt
  ∧ fs (render_all py df w).1 !! OUT_DIR = Some Dir
  ∧ Forall (written (render_all py df w).1)
      ["output/scatter.png"; "output/scatter_offense.png"; "output/scatter_method.png";
       "output/heatmap.png"; "output/bokeh_scatter.html"]
  ∧ ∀ p, p ∉ [OUT_DIR; "output/scatter.png"; "output/scatter_offense.png";
              "output/scatter_method.png"; "output/heatmap.png";
              "output/bokeh_scatter.html"] →
         fs (render_all py df w).1 !! p = fs w !! p.
Proof.
  intros Hmap Hpass Hall Hfree Hfiles.
  destruct (colors_total py df "OFFENSE" OFFENSE) as [cs1 Hcs1]; [done| |].
  { eapply Forall_impl; [exact Hall|]. by intros row [? _]. }
  destruct (colors_total py df "METHOD" METHOD) as [cs2 Hcs2]; [done| |].
  { eapply Forall_impl; [exact Hall|]. by intros row [_ ?]. }
  apply Forall_cons in Hfiles as [Hf0 Hfiles].
  apply Forall_cons in Hfiles as [Hf1 Hfiles].
  apply Forall_cons in Hfiles as [Hf2 Hfiles].
  apply Forall_cons in Hfiles as [Hf3 Hfiles].
  apply Forall_cons in Hfiles as [Hf4 _].
  assert (∀ q, fs w !! q ≠ Some Dir → can_save w q) as Hsave by (by split).
  destruct w as [F gs]. cbn [fs] in *.
  unfold render_all. run.
  destruct (scatterPlot_writes py df None (replicate (length df) "r")
              {| fs := F; figures := gs |}) as (g0 & ->); [done|done|by apply Hsave|].
  edestruct (scatterPlot_writes py df (Some "OFFENSE") cs1) as (g1 & ->); [done|done| |].
  { apply can_save_next with (gs := gs); [done..|by apply Hsave]. }
  cbn [fs figures].
  edestruct (scatterPlot_writes py df (Some "METHOD") cs2) as (g2 & ->); [done|done| |].
  { do 2 (apply can_save_next with (gs := gs); [done..|]). by apply Hsave. }
  cbn [fs figures].
  edestruct (heatmap_writes df) as (g3 & ->); [done|done| |].
  { do 3 (apply can_save_next with (gs := gs); [done..|]). by apply Hsave. }
  cbn [fs figures].
  edestruct bokeh_scatter_in_out_dir as (doc & -> & _).
  { cbn [fs]. by rewrite lookup_insert_ne, lookup_insert_eq. }
  { cbn [fs]. by rewrite !lookup_insert_ne. }
  cbn [fst snd fs].
  change (scatter_png None) with "output/scatter.png".
  change (scatter_png (Some "OFFENSE")) with "output/scatter_offense.png".
  change (scatter_png (Some "METHOD")) with "output/scatter_method.png".
  split; [done|]. split; [by simplify_map_eq|]. split.
  - repeat constructor; eexists; by simplify_map_eq.
  - intros p Hp. rewrite !not_elem_of_cons in Hp.
    destruct Hp as (? & ? & ? & ? & ? & ? & _).
    by rewrite !lookup_insert_ne.
Qed.
End Main.

Section Program.
Context `{Float64} `{BasemapLib}.

Lemma main_unfold (py : python) : main py = (df ← loadData; render_all py df).
Proof. reflexivity. Qed.

(** The table the loader returns from a long enough file, and its rows. *)
Lemma loaded_rows (rows : list Crime) (P : Crime → Prop) :
  (∀ i c, rows !! i = Some c → i ≠ 222%nat → i ≠ 758%nat → P c) →
  Forall (λ row : nat * Crime, P row.2)
    (filter (λ row : nat * Crime, row.1 ∉ [222; 758]%nat) (imap pair rows)).
Proof.
  intros HP. apply Forall_forall. intros [i c] Hin.
  apply list_elem_of_filter in Hin as [Hi Hin].
  apply elem_of_lookup_imap in Hin as (j & c' & [= -> ->] & Hj).
  cbn [fst] in Hi. rewrite !not_elem_of_cons in Hi. destruct Hi as (? & ? & _).
  by apply (HP j).
Qed.

(** C7.  Run on a data file it can load, colour and map, with the output
    path absent (or already a directory) and no directory where a file
    goes, the program completes: the output directory exists at the end
    and the three scatter PNGs, the heat map PNG and the interactive
    HTML document have all been written into it.  A file can be opened
    only in a directory that exists, so the directory was made before
    the first write.  The static renderers each see to the directory
    themselves: called on the loaded table in the world the program
    starts from, each scatter plot and the heat map completes and
    leaves the directory and its file; the interactive renderer has no
    such guard and relies on the ones before it. *)
Theorem main_writes_every_artifact (py : python) (rows : list Crime) (w : World) :
  fs w !! DATA_FILE = Some (File (Csv rows)) →
  (759 ≤ length rows)%nat →
  (∀ i c, rows !! i = Some c → i ≠ 222%nat → i ≠ 758%nat →
          is_Some (featToCol !! OFFENSE c) ∧ is_Some (featToCol !! METHOD c)) →
  (∀ df, loadData w = (w, Ok df) → builds_map df ∧ edges_pass df) →
  out_dir_free w →
  Forall (λ p, fs w !! p ≠ Some Dir)
    ["output/scatter.png"; "output/scatter_offense.png"; "output/scatter_method.png";
     "output/heatmap.png"; "output/bokeh_scatter.html"] →
  (main py w).2 = Ok tt
  ∧ fs (main py w).1 !! OUT_DIR = Some Dir
  ∧ Forall (written (main py w).1)
      ["output/scatter.png"; "output/scatter_offense.png"; "output/scatter_method.png";
       "output/heatmap.png"; "output/bokeh_scatter.html"]
  ∧ ∃ df, loadData w = (w, Ok df)
      ∧ Forall (λ feature,
                  (scatterPlot py df feature w).2 = Ok tt
                  ∧ fs (scatterPlot py df feature w).1 !! OUT_DIR = Some Dir
                  ∧ written (scatterPlot py df feature w).1 (scatter_png feature))
               [None; Some "OFFENSE"; Some "METHOD"]
      ∧ (heatmap df w).2 = Ok tt
      ∧ fs (heatmap df w).1 !! OUT_DIR = Some Dir
      ∧ written (heatmap df w).1 "output/heatmap.png"
      ∧ (fs w !! OUT_DIR = None → bokeh_scatter df w = (w, Raise IOError)).
Proof.
  intros Hfile Hlen Hcat Hdf Hfree Hfiles.
  pose proof (loadData_long_file w rows Hfile Hlen) as Hload.
  destruct (Hdf _ Hload) as [Hmap Hpass].
  pose proof (loaded_rows rows _ Hcat) as Hall.
  rewrite main_unfold. run. rewrite Hload.
  set (df := filter _ _) in *.
  destruct (render_all_writes py df w) as (Hok & Hdir & Hwritten & _); [done..|].
  split; [exact Hok|]. split; [exact Hdir|]. split; [exact Hwritten|].
  exists df. split; [reflexivity|].
  destruct (colors_total py df "OFFENSE" OFFENSE) as [cs1 Hcs1]; [done| |].
  { eapply Forall_impl; [exact Hall|]. by intros row [? _]. }
  destruct (colors_total py df "METHOD" METHOD) as [cs2 Hcs2]; [done| |].
  { eapply Forall_impl; [exact Hall|]. by intros row [_ ?]. }
  apply Forall_cons in Hfiles as [Hf0 Hfiles].
  apply Forall_cons in Hfiles as [Hf1 Hfiles].
  apply Forall_cons in Hfiles as [Hf2 Hfiles].
  apply Forall_cons in Hfiles as [Hf3 _].
  assert (∀ feature cs,
            colors py df feature = Ok (Ok <$> cs) →
            fs w !! scatter_png feature ≠ Some Dir →
            (scatterPlot py df feature w).2 = Ok tt
            ∧ fs (scatterPlot py df feature w).1 !! OUT_DIR = Some Dir
            ∧ written (scatterPlot py df feature w).1 (scatter_png feature)) as Hscatter.
  { intros feature cs Hcs Hf.
    destruct (scatterPlot_writes py df feature cs w Hcs Hmap) as (g & ->); [by split|].
    cbn [fst snd fs]. split; [done|]. split.
    - rewrite lookup_insert_ne by apply scatter_png_not_dir.
      apply lookup_insert_eq.
    - eexists. apply lookup_insert_eq. }
  split; [|split; [|split; [|split]]].
  - apply Forall_cons. split; [by apply (Hscatter None (replicate (length df) "r"))|].
    apply Forall_cons. split; [by apply (Hscatter (Some "OFFENSE") cs1)|].
    apply Forall_cons. split; [by apply (Hscatter (Some "METHOD") cs2)|]. constructor.
  - destruct (heatmap_writes df w Hmap Hpass) as (g & ->); [by split|]. done.
  - destruct (heatmap_writes df w Hmap Hpass) as (g & ->); [by split|].
    cbn [fst fs]. by rewrite lookup_insert_ne, lookup_insert_eq.
  - destruct (heatmap_writes df w Hmap Hpass) as (g & ->); [by split|].
    eexists. cbn [fst fs]. apply lookup_insert_eq.
  - apply bokeh_scatter_needs_out_dir.
Qed.
End Program.

(** A data file of 759 records at 759 places, and what is loaded from
    it. *)
Lemma spread_rows_length (offense method : string) (n : nat) :
  length (spread_rows offense method n) = n.
Proof. unfold spread_rows. by rewrite length_fmap, length_seq. Qed.

Lemma spread_rows_lookup (offense method : string) (n i : nat) (c : Crime) :
  spread_rows offense method n !! i = Some c →
  OFFENSE c = offense ∧ METHOD c = method.
Proof.
  unfold spread_rows. rewrite list_lookup_fmap.
  destruct (seq 0 n !! i) as [k|]; [|done]. by intros [= <-].
Qed.

Lemma spread_rows_loaded (offense method : string) (df : DataFrame) :
  loadData (world_with (spread_rows offense method 759))
    = (world_with (spread_rows offense method 759), Ok df) →
  @builds_map identity_lib df ∧ @edges_pass exact_arithmetic df.
Proof.
  rewrite (loadData_long_file _ (spread_rows offense method 759));
    [|apply lookup_singleton_eq|by rewrite spread_rows_length].
  intros [= <-]. split.
  - eexists. vm_compute. reflexivity.
  - intros bins [Hbins|Hbins]; by apply exact_edges_pass in Hbins.
Qed.

Lemma main_writes_every_artifact_witness :
  (main Py3 (world_with (spread_rows "HOMICIDE" "GUN" 759))).2 = Ok tt
  ∧ fs (main Py3 (world_with (spread_rows "HOMICIDE" "GUN" 759))).1 !! OUT_DIR = Some Dir
  ∧ Forall (written (main Py3 (world_with (spread_rows "HOMICIDE" "GUN" 759))).1)
      ["output/scatter.png"; "output/scatter_offense.png"; "output/scatter_method.png";
       "output/heatmap.png"; "output/bokeh_scatter.html"]
  ∧ ∃ df, loadData (world_with (spread_rows "HOMICIDE" "GUN" 759))
          = (world_with (spread_rows "HOMICIDE" "GUN" 759), Ok df)
      ∧ Forall (λ feature,
                  (scatterPlot Py3 df feature
                     (world_with (spread_rows "HOMICIDE" "GUN" 759))).2 = Ok tt
                  ∧ fs (scatterPlot Py3 df feature
                          (world_with (spread_rows "HOMICIDE" "GUN" 759))).1 !! OUT_DIR
                    = Some Dir
                  ∧ written (scatterPlot Py3 df feature
                               (world_with (spread_rows "HOMICIDE" "GUN" 759))).1
                            (scatter_png feature))
               [None; Some "OFFENSE"; Some "METHOD"]
      ∧ (heatmap df (world_with (spread_rows "HOMICIDE" "GUN" 759))).2 = Ok tt
      ∧ fs (heatmap df (world_with (spread_rows "HOMICIDE" "GUN" 759))).1 !! OUT_DIR
        = Some Dir
      ∧ written (heatmap df (world_with (spread_rows "HOMICIDE" "GUN" 759))).1
                "output/heatmap.png"
      ∧ (fs (world_with (spread_rows "HOMICIDE" "GUN" 759)) !! OUT_DIR = None →
         bokeh_scatter df (world_with (spread_rows "HOMICIDE" "GUN" 759))
         = (world_with (spread_rows "HOMICIDE" "GUN" 759), Raise IOError)).
Proof.
  apply (main_writes_every_artifact Py3 (spread_rows "HOMICIDE" "GUN" 759)).
  - apply lookup_singleton_eq.
  - by rewrite spread_rows_length.
  - intros i c [-> ->]%spread_rows_lookup _ _. rewrite !featToCol_lookup. by split.
  - apply spread_rows_loaded.
  - intros a. unfold world_with. cbn [fs]. by rewrite lookup_singleton_ne.
  - repeat constructor; unfold world_with; cbn [fs]; by rewrite lookup_singleton_ne.
Defined.

(** * Further properties of the script *)

(** ** The loader: labels, failures *)

(** X1.  The loader returns a table only from a data file that exists
    and has at least 759 rows, and it never changes the world: a missing
    file or a shorter one ends in an exception. *)
Theorem loadData_returns_only_from_long_file (w w' : World) (df : DataFrame) :
  loadData w = (w', Ok df) →
  w' = w ∧ ∃ rows, fs w !! DATA_FILE = Some (File (Csv rows)) ∧ (759 ≤ length rows)%nat.
Proof.
  unfold loadData, read_csv. run.
  destruct (fs w !! DATA_FILE) as [[|[rows|g|doc]]|] eqn:Hfile; try done.
  destruct (decide (759 ≤ length rows)%nat) as [Hlen|Hlen].
  - destruct (index_getitem _ _) as [labels|]; [|done].
    destruct (drop_labels labels _) as [df'|]; [|done].
    intros [= <- _]. split; [done|]. by exists rows.
  - rewrite index_getitem_out_of_range; [done|].
    apply Exists_cons_tl, Exists_cons_hd. lia.
Qed.

Lemma loadData_returns_only_from_long_file_witness :
  world_with (replicate 759 sample_crime) = world_with (replicate 759 sample_crime)
  ∧ ∃ rows, fs (world_with (replicate 759 sample_crime)) !! DATA_FILE = Some (File (Csv rows))
            ∧ (759 ≤ length rows)%nat.
Proof.
  apply (loadData_returns_only_from_long_file _ _
           (filter (λ row : nat * Crime, row.1 ∉ [222; 758]%nat)
                   (imap pair (replicate 759 sample_crime)))).
  apply loadData_long_file; [apply lookup_singleton_eq|].
  rewrite length_replicate. lia.
Defined.

Lemma fst_imap_seq {A} (f : nat → nat) (l : list A) :
  (imap (λ i x, (f i, x)) l).*1 = f <$> seq 0 (length l).
Proof.
  revert f. induction l as [|x l IH]; intros f; [done|].
  cbn. f_equal. rewrite <-fmap_S_seq, <-list_fmap_compose. apply (IH (f ∘ S)).
Qed.

(** X2.  The loader does not renumber the rows it keeps: the index of
    the returned table is 0..221, 223..757, 759..n-1, so from position
    222 on a row's label is no longer its position. *)
Theorem loadData_keeps_labels (w : World) (rows : list Crime) :
  fs w !! DATA_FILE = Some (File (Csv rows)) →
  (759 ≤ length rows)%nat →
  ∃ df : DataFrame,
    loadData w = (w, Ok df)
    ∧ df.*1 = seq 0 222 ++ seq 223 535 ++ seq 759 (length rows - 759)
    ∧ (∃ c, df !! 222%nat = Some (223%nat, c)).
Proof.
  intros Hfile Hlen. eexists. split; [by apply loadData_long_file|].
  rewrite drop_two by lia.
  assert (length (take 222 rows) = 222%nat) as Hl1 by (rewrite length_take; lia).
  split.
  - rewrite !fmap_app.
    rewrite (fst_imap_seq id), (fst_imap_seq (λ i, S 222 + i)%nat),
      (fst_imap_seq (λ i, S 758 + i)%nat).
    rewrite Hl1, !length_take, !length_drop.
    replace ((758 - 223) `min` (length rows - 223))%nat with 535%nat by lia.
    rewrite list_fmap_id.
    change (λ i : nat, (S 222 + i)%nat) with (Nat.add 223).
    change (λ i : nat, (S 758 + i)%nat) with (Nat.add 759).
    rewrite !fmap_add_seq. by rewrite !Nat.add_0_r.
  - destruct (lookup_lt_is_Some_2 rows 223) as [c Hc]; [lia|].
    exists c. rewrite lookup_app_r; rewrite length_imap, Hl1; [|lia].
    replace (222 - 222)%nat with 0%nat by lia.
    rewrite lookup_app_l by (rewrite length_imap, length_take, length_drop; lia).
    rewrite list_lookup_imap, lookup_take_lt, lookup_drop by lia.
    replace (223 + 0)%nat with 223%nat by lia. rewrite Hc. reflexivity.
Qed.

Lemma loadData_keeps_labels_witness :
  ∃ df : DataFrame,
    loadData (world_with (replicate 759 sample_crime))
      = (world_with (replicate 759 sample_crime), Ok df)
    ∧ df.*1 = seq 0 222 ++ seq 223 535 ++ seq 759 (length (replicate 759 sample_crime) - 759)
    ∧ (∃ c, df !! 222%nat = Some (223%nat, c)).
Proof.
  apply (loadData_keeps_labels (world_with (replicate 759 sample_crime))
           (replicate 759 sample_crime)).
  - apply lookup_singleton_eq.
  - rewrite length_replicate. lia.
Defined.

(** ** The background layer: the bounding box *)

Section BoundingBox.
Context `{BasemapLib}.

(** X3.  A map that the background layer returns has the bounding box of
    the data as its corners: there are longitudes and latitudes, every
    point lies within the corners, each corner coordinate is one of the
    data's, the map is drawn on the current figure and no file is
    touched. *)
Theorem backgroundLayer_bounding_box (lons lats : list Q) (w : World) (m : Basemap) :
  (backgroundLayer lons lats w).2 = Ok m →
  lons ≠ [] ∧ lats ≠ []
  ∧ Forall (λ x, llcrnrlon m <= x ∧ x <= urcrnrlon m)%Q lons
  ∧ Forall (λ y, llcrnrlat m <= y ∧ y <= urcrnrlat m)%Q lats
  ∧ llcrnrlon m ∈ lons ∧ urcrnrlon m ∈ lons
  ∧ llcrnrlat m ∈ lats ∧ urcrnrlat m ∈ lats
  ∧ background (gcf (backgroundLayer lons lats w).1) = Some m
  ∧ fs (backgroundLayer lons lats w).1 = fs w.
Proof.
  rewrite backgroundLayer_run.
  destruct ((backgroundLayer lons lats empty_world).2) as [m'|e] eqn:Hm; [|done].
  cbn [fst snd gcf hd figures background fs]. intros [= ->].
  destruct (backgroundLayer_corners lons lats m Hm) as (Hminx & Hminy & Hmaxx & Hmaxy & _).
  split; [by intros ->|]. split; [intros ->; by destruct lons|].
  split; [|split].
  - apply Forall_forall. intros x Hx.
    pose proof (np_min_le lons _ Hminx) as Hlo. pose proof (np_max_ge lons _ Hmaxx) as Hhi.
    rewrite Forall_forall in Hlo, Hhi. split; [by apply Hlo|by apply Hhi].
  - apply Forall_forall. intros y Hy.
    pose proof (np_min_le lats _ Hminy) as Hlo. pose proof (np_max_ge lats _ Hmaxy) as Hhi.
    rewrite Forall_forall in Hlo, Hhi. split; [by apply Hlo|by apply Hhi].
  - split; [by apply np_min_elem|]. split; [by apply np_max_elem|].
    split; [by apply np_min_elem|]. split; [by apply np_max_elem|]. done.
Qed.

(** X4.  One empty array is enough for the background layer to raise
    [ValueError], also when the other array has elements and whatever
    the map library: the bounds are computed before the library is
    reached.  The world is left as it was. *)
Theorem backgroundLayer_raises_without_data (lons lats : list Q) (w : World) :
  lons = [] ∨ lats = [] →
  backgroundLayer lons lats w = (w, Raise ValueError)
  ∧ (backgroundLayer lats lons w).2 = Raise ValueError.
Proof.
  intros Hempty. split; [by apply backgroundLayer_no_data|].
  rewrite backgroundLayer_no_data; [done|]. tauto.
Qed.
End BoundingBox.

Lemma backgroundLayer_bounding_box_witness :
  (backgroundLayer [-77 # 1; -76 # 1] [38 # 1; 39 # 1] empty_world).2
  = Ok {| llcrnrlon := -77 # 1; llcrnrlat := 38 # 1; urcrnrlon := -76 # 1; urcrnrlat := 39 # 1 |}
  ∧ [-77 # 1; -76 # 1] ≠ [] ∧ [38 # 1; 39 # 1] ≠ []
  ∧ Forall (λ x, -77 # 1 <= x ∧ x <= -76 # 1)%Q [-77 # 1; -76 # 1]
  ∧ Forall (λ y, 38 # 1 <= y ∧ y <= 39 # 1)%Q [38 # 1; 39 # 1]
  ∧ -77 # 1 ∈ [-77 # 1; -76 # 1] ∧ -76 # 1 ∈ [-77 # 1; -76 # 1]
  ∧ 38 # 1 ∈ [38 # 1; 39 # 1] ∧ 39 # 1 ∈ [38 # 1; 39 # 1]
  ∧ background (gcf (backgroundLayer [-77 # 1; -76 # 1] [38 # 1; 39 # 1] empty_world).1)
    = Some {| llcrnrlon := -77 # 1; llcrnrlat := 38 # 1;
              urcrnrlon := -76 # 1; urcrnrlat := 39 # 1 |}
  ∧ fs (backgroundLayer [-77 # 1; -76 # 1] [38 # 1; 39 # 1] empty_world).1
    = fs empty_world.
Proof.
  split; [reflexivity|].
  apply (backgroundLayer_bounding_box [-77 # 1; -76 # 1] [38 # 1; 39 # 1] empty_world
           {| llcrnrlon := -77 # 1; llcrnrlat := 38 # 1;
              urcrnrlon := -76 # 1; urcrnrlat := 39 # 1 |}).
  reflexivity.
Defined.

Lemma backgroundLayer_raises_without_data_witness :
  ([38 # 1] = [] ∨ @nil Q = [])
  ∧ backgroundLayer [38 # 1] [] empty_world = (empty_world, Raise ValueError)
  ∧ (backgroundLayer [] [38 # 1] empty_world).2 = Raise ValueError.
Proof.
  split; [by right|].
  apply (backgroundLayer_raises_without_data [38 # 1] [] empty_world). by right.
Defined.

(** ** What the renderers may write *)

Lemma touches_only_ret {A} (ps : list string) (a : A) : touches_only ps (mret a).
Proof. by intros w p _. Qed.

Lemma touches_only_lift {A} (ps : list string) (r : result A) : touches_only ps (lift r).
Proof. by intros w p _. Qed.

Lemma touches_only_bind {A B} (ps : list string) (m : M A) (k : A → M B) :
  touches_only ps m → (∀ a, touches_only ps (k a)) → touches_only ps (m ≫= k).
Proof.
  intros Hm Hk w p Hp. unfold mbind, M_bind.
  specialize (Hm w p Hp). destruct (m w) as [w' [a|e]]; cbn in *; [|done].
  by rewrite (Hk a w' p Hp).
Qed.

Lemma touches_only_on_gcf (ps : list string) (f : Figure → Figure) :
  touches_only ps (on_gcf f).
Proof. by intros w p _. Qed.

Lemma touches_only_plt_figure (ps : list string) : touches_only ps plt_figure.
Proof. by intros w p _. Qed.

Lemma touches_only_write_file (ps : list string) (q : string) (a : artifact) :
  q ∈ ps → touches_only ps (write_file q a).
Proof.
  intros Hq w p Hp. unfold write_file.
  destruct (fs w !! dirname q) as [[|?]|]; cbn; [|done..].
  destruct (fs w !! q) as [[|?]|]; cbn; [done|..];
    apply lookup_insert_ne; by intros ->.
Qed.

Lemma touches_only_savefig (ps : list string) (q : string) :
  q ∈ ps → touches_only ps (savefig q).
Proof. intros Hq w. by apply touches_only_write_file. Qed.

Lemma touches_only_ensure_out_dir (ps : list string) :
  OUT_DIR ∈ ps → touches_only ps ensure_out_dir.
Proof.
  intros Hq w p Hp. unfold ensure_out_dir, path_exists, makedirs. run.
  destruct (bool_decide _); [reflexivity|]. cbn beta.
  destruct (fs w !! OUT_DIR); [reflexivity|]. cbn [fst fs].
  apply lookup_insert_ne. by intros <-.
Qed.

Lemma touches_only_backgroundLayer `{BasemapLib} (ps : list string) (lons lats : list Q) :
  touches_only ps (backgroundLayer lons lats).
Proof.
  unfold backgroundLayer.
  repeat (apply touches_only_bind; [apply touches_only_lift|intros ?]).
  apply touches_only_bind; [apply touches_only_on_gcf|intros ?].
  apply touches_only_ret.
Qed.

Lemma touches_only_for_zip3 {A B C} (ps : list string) (xs : list A) (ys : list B)
    (it : iterable C) (body : A → B → C → M unit) :
  (∀ x y c, touches_only ps (body x y c)) → touches_only ps (for_zip3 xs ys it body).
Proof.
  intros Hbody. revert ys it.
  induction xs as [|x xs IH]; intros [|y ys] [|r it]; try apply touches_only_ret.
  cbn [for_zip3].
  apply touches_only_bind; [apply touches_only_lift|intros c].
  apply touches_only_bind; [apply Hbody|intros _]. apply IH.
Qed.

Section Frames.
Context `{Float64} `{BasemapLib}.

Lemma touches_only_scatterPlot py df feature :
  touches_only [OUT_DIR; scatter_png feature] (scatterPlot py df feature).
Proof.
  unfold scatterPlot.
  apply touches_only_bind; [apply touches_only_lift|intros it].
  apply touches_only_bind; [apply touches_only_plt_figure|intros _].
  apply touches_only_bind; [apply touches_only_backgroundLayer|intros m].
  apply touches_only_bind.
  { apply touches_only_for_zip3. intros x y c. apply touches_only_on_gcf. }
  intros _.
  apply touches_only_bind.
  { case_decide; [|apply touches_only_ret].
    apply touches_only_bind; [apply touches_only_on_gcf|intros _; apply touches_only_ret]. }
  intros t.
  apply touches_only_bind.
  { case_decide; [|apply touches_only_ret].
    apply touches_only_bind; [apply touches_only_on_gcf|intros _; apply touches_only_ret]. }
  intros t'.
  apply touches_only_bind; [apply touches_only_on_gcf|intros _].
  apply touches_only_bind; [apply touches_only_ensure_out_dir; by left|intros _].
  apply touches_only_savefig. right. by left.
Qed.

Lemma touches_only_heatmap df :
  touches_only [OUT_DIR; "output/heatmap.png"] (heatmap df).
Proof.
  unfold heatmap.
  apply touches_only_bind; [apply touches_only_plt_figure|intros _].
  apply touches_only_bind; [apply touches_only_backgroundLayer|intros m].
  repeat (apply touches_only_bind; [apply touches_only_lift|intros ?]).
  apply touches_only_bind; [apply touches_only_on_gcf|intros _].
  apply touches_only_bind; [apply touches_only_on_gcf|intros _].
  apply touches_only_bind; [apply touches_only_ensure_out_dir; by left|intros _].
  apply touches_only_savefig. right. by left.
Qed.

Lemma touches_only_mono {A} (ps qs : list string) (m : M A) :
  ps ⊆ qs → touches_only ps m → touches_only qs m.
Proof. intros Hsub Hm w p Hp. apply Hm. intros Hin. by apply Hp, Hsub. Qed.

(** X5.  Whatever its outcome, a call of the scatter renderer changes no
    path of the file system other than the output directory and its own
    PNG file. *)
Theorem scatterPlot_writes_nothing_else
    (py : python) (df : DataFrame) (feature : option string) (w : World) (p : string) :
  p ≠ OUT_DIR → p ≠ scatter_png feature →
  fs (scatterPlot py df feature w).1 !! p = fs w !! p.
Proof.
  intros Hdir Hpng. apply touches_only_scatterPlot.
  rewrite !not_elem_of_cons. by split_and!; [..|apply not_elem_of_nil].
Qed.

(** X6.  Whatever its outcome, a run of the program changes no path
    other than the output directory and its five output files; in
    particular the data file is never modified. *)
Theorem main_writes_nothing_else (py : python) (w : World) (p : string) :
  p ∉ [OUT_DIR; "output/scatter.png"; "output/scatter_offense.png";
       "output/scatter_method.png"; "output/heatmap.png"; "output/bokeh_scatter.html"] →
  fs (main py w).1 !! p = fs w !! p.
Proof.
  revert w p.
  change (touches_only [OUT_DIR; "output/scatter.png"; "output/scatter_offense.png";
            "output/scatter_method.png"; "output/heatmap.png"; "output/bokeh_scatter.html"]
            (main py)).
  unfold main.
  apply touches_only_bind.
  { unfold loadData, read_csv. intros w p _. run.
    destruct (fs w !! DATA_FILE) as [[|[rows|?|?]]|]; try done.
    destruct (index_getitem _ _); [|done]. by destruct (drop_labels _ _). }
  intros df.
  apply touches_only_bind.
  { eapply touches_only_mono; [|apply touches_only_scatterPlot].
    change (scatter_png None) with "output/scatter.png". intros q; rewrite !elem_of_cons; tauto. }
  intros _. apply touches_only_bind.
  { eapply touches_only_mono; [|apply touches_only_scatterPlot].
    change (scatter_png (Some "OFFENSE")) with "output/scatter_offense.png". intros q; rewrite !elem_of_cons; tauto. }
  intros _. apply touches_only_bind.
  { eapply touches_only_mono; [|apply touches_only_scatterPlot].
    change (scatter_png (Some "METHOD")) with "output/scatter_method.png". intros q; rewrite !elem_of_cons; tauto. }
  intros _. apply touches_only_bind.
  { eapply touches_only_mono; [|apply touches_only_heatmap]. intros q; rewrite !elem_of_cons; tauto. }
  intros _. unfold bokeh_scatter.
  apply touches_only_write_file.
  change (OUT_DIR +:+ "bokeh_scatter.html") with "output/bokeh_scatter.html".
  rewrite !elem_of_cons. tauto.
Qed.
End Frames.

Lemma scatterPlot_writes_nothing_else_witness :
  fs (scatterPlot Py3 two_crimes (Some "OFFENSE")
        (world_with (replicate 759 sample_crime))).1 !! DATA_FILE
  = fs (world_with (replicate 759 sample_crime)) !! DATA_FILE.
Proof.
  apply (scatterPlot_writes_nothing_else Py3 two_crimes (Some "OFFENSE")
           (world_with (replicate 759 sample_crime)) DATA_FILE); discriminate.
Defined.

Lemma main_writes_nothing_else_witness :
  fs (main Py3 (world_with (replicate 759 sample_crime))).1 !! DATA_FILE
  = fs (world_with (replicate 759 sample_crime)) !! DATA_FILE.
Proof.
  apply (main_writes_nothing_else Py3 (world_with (replicate 759 sample_crime)) DATA_FILE).
  rewrite !not_elem_of_cons. by split_and!; [..|apply not_elem_of_nil].
Defined.

(** ** The scatter renderer and a category it cannot colour *)

Lemma plotted_until_raise (alpha : Q) (xs ys : list Q) (cs : list string) (e : exn)
    (it : iterable string) :
  (length cs < length xs)%nat → (length cs < length ys)%nat →
  m_color <$> plotted alpha xs ys ((Ok <$> cs) ++ Raise e :: it) = cs
  ∧ loop_result xs ys ((Ok <$> cs) ++ Raise e :: it) = Raise e.
Proof.
  revert xs ys. induction cs as [|c cs IH]; intros [|x xs] [|y ys] Hx Hy;
    cbn in Hx, Hy; try lia; [done|].
  destruct (IH xs ys) as [Hcol Hres]; [lia..|]. cbn. by rewrite Hcol, Hres.
Qed.

(** The first record that cannot be coloured, with those before it. *)
Lemma first_unknown (field : Crime → string) (df : DataFrame) :
  Exists (λ row, featToCol !! field row.2 = None) df →
  ∃ good bad rest,
    df = good ++ bad :: rest
    ∧ Forall (λ row, is_Some (featToCol !! field row.2)) good
    ∧ featToCol !! field bad.2 = None.
Proof.
  induction df as [|row df IH]; intros Hex; [by apply Exists_nil in Hex|].
  destruct (featToCol !! field row.2) as [c|] eqn:Hrow.
  - apply Exists_cons in Hex as [Hex|Hex]; [congruence|].
    destruct (IH Hex) as (good & bad & rest & -> & Hgood & Hbad).
    exists (row :: good), bad, rest. split; [done|]. split; [|done].
    constructor; [by rewrite Hrow|done].
  - by exists [], row, df.
Qed.

Section Unknown.
Context `{BasemapLib}.

(** Python 2 looks every colour up before it draws; Python 3 draws the
    markers of the records before the first one it cannot colour. *)
Lemma scatterPlot_first_unknown py (f : string) (field : Crime → string)
    (good : DataFrame) (bad : nat * Crime) (rest : DataFrame) (w : World) :
  (∀ df, getitem df f = Ok (Str <$> column field df)) →
  Forall (λ row, is_Some (featToCol !! field row.2)) good →
  featToCol !! field bad.2 = None →
  match py with
  | Py2 => scatterPlot py (good ++ bad :: rest) (Some f) w = (w, Raise KeyError)
  | Py3 =>
      builds_map (good ++ bad :: rest) →
      ∃ g, scatterPlot py (good ++ bad :: rest) (Some f) w
           = ({| fs := fs w; figures := g :: figures w |}, Raise KeyError)
           ∧ Forall2 (λ row mk, featToCol !! field row.2 = Some (m_color mk))
                     good (markers g)
  end.
Proof.
  intros Hcol Hgood Hbad.
  set (df := good ++ bad :: rest).
  set (cs := (λ row : nat * Crime, default "" (featToCol !! field row.2)) <$> good).
  assert (Forall2 (λ row c, featToCol !! field row.2 = Some c) good cs) as Hcs.
  { subst cs. apply Forall2_fmap_r, Forall_Forall2_diag.
    eapply Forall_impl; [exact Hgood|]. intros row [c Hc]. cbn. by rewrite Hc. }
  assert (featToCol_getitem <$> (Str <$> column field df)
          = (Ok <$> cs) ++ Raise KeyError
              :: (featToCol_getitem <$> (Str <$> column field rest))) as Hit.
  { subst df. unfold column. rewrite !fmap_app, !fmap_cons. cbn [featToCol_getitem].
    rewrite Hbad. f_equal. clear -Hcs.
    induction Hcs as [|row c good cs Hc _ IH]; [done|]. cbn. rewrite Hc. by f_equal. }
  destruct py.
  - apply scatterPlot_colors_raise. unfold colors. rewrite Hcol. cbn [result_bind py_map].
    rewrite Hit. clear. induction cs as [|c cs IH]; [done|]. cbn.
    destruct (all_ok _) as [l|e] eqn:Hall; [done|]. cbn. by injection IH as ->.
  - intros [m Hm].
    destruct (scatterPlot_rows Py3 df (Some f)
                (featToCol_getitem <$> (Str <$> column field df)) m w Hm)
      as (t & lg & Hrun).
    { unfold colors. by rewrite Hcol. }
    cbv zeta in Hrun.
    destruct (shiftdata_shape m (column long df) (column lat df)) as [Hx Hy].
    rewrite column_length in Hx, Hy.
    assert (length cs < length df)%nat as Hlen.
    { subst cs df. rewrite length_fmap, length_app. cbn. lia. }
    rewrite Hit in Hrun.
    destruct (plotted_until_raise (4 # 10)
                (shiftdata m (column long df) (column lat df)).1
                (shiftdata m (column long df) (column lat df)).2 cs KeyError
                (featToCol_getitem <$> (Str <$> column field rest)))
      as [Hplot Hres]; [lia..|].
    rewrite Hres in Hrun. eexists. split; [exact Hrun|]. cbn [markers].
    apply Forall2_fmap_r with (f := m_color)
                              (P := λ row c, featToCol !! field row.2 = Some c).
    by rewrite Hplot.
Qed.

(** X7.  When a record's category is not in the colour table, Python 2
    raises [KeyError] before anything is drawn, while Python 3, when
    the background map can be built for the table, raises it inside the
    loop: a figure is left open with the markers of exactly the records
    that come before the first unknown one.  No file is written either
    way. *)
Theorem scatterPlot_draws_until_first_unknown
    (feature : string) (good : DataFrame) (bad : nat * Crime) (rest : DataFrame) (w : World) :
  feature = "OFFENSE" ∨ feature = "METHOD" →
  Forall (λ row, is_Some (featToCol !! category feature row.2)) good →
  featToCol !! category feature bad.2 = None →
  scatterPlot Py2 (good ++ bad :: rest) (Some feature) w = (w, Raise KeyError)
  ∧ (builds_map (good ++ bad :: rest) →
     ∃ g, scatterPlot Py3 (good ++ bad :: rest) (Some feature) w
          = ({| fs := fs w; figures := g :: figures w |}, Raise KeyError)
          ∧ Forall2 (λ row mk, featToCol !! category feature row.2 = Some (m_color mk))
                    good (markers g)).
Proof.
  intros [-> | ->] Hgood Hbad.
  - split.
    + by apply (scatterPlot_first_unknown Py2 "OFFENSE" OFFENSE).
    + by apply (scatterPlot_first_unknown Py3 "OFFENSE" OFFENSE).
  - split.
    + by apply (scatterPlot_first_unknown Py2 "METHOD" METHOD).
    + by apply (scatterPlot_first_unknown Py3 "METHOD" METHOD).
Qed.
End Unknown.

Lemma scatterPlot_draws_until_first_unknown_witness :
  scatterPlot Py2 ([(0%nat, crime_at (-7703 # 100) (3889 # 100) "HOMICIDE" "GUN")]
                   ++ (1%nat, crime_at (-7695 # 100) (3892 # 100) "ARSON" "GUN") :: [])
    (Some "OFFENSE") empty_world = (empty_world, Raise KeyError)
  ∧ ∃ g, scatterPlot Py3 ([(0%nat, crime_at (-7703 # 100) (3889 # 100) "HOMICIDE" "GUN")]
                          ++ (1%nat, crime_at (-7695 # 100) (3892 # 100) "ARSON" "GUN") :: [])
           (Some "OFFENSE") empty_world
         = ({| fs := fs empty_world; figures := g :: figures empty_world |}, Raise KeyError)
         ∧ Forall2 (λ row mk, featToCol !! category "OFFENSE" row.2 = Some (m_color mk))
                   [(0%nat, crime_at (-7703 # 100) (3889 # 100) "HOMICIDE" "GUN")] (markers g).
Proof.
  destruct (scatterPlot_draws_until_first_unknown "OFFENSE"
              [(0%nat, crime_at (-7703 # 100) (3889 # 100) "HOMICIDE" "GUN")]
              (1%nat, crime_at (-7695 # 100) (3892 # 100) "ARSON" "GUN") [] empty_world)
    as [Hpy2 Hpy3].
  - by left.
  - repeat constructor. cbn. by rewrite featToCol_lookup.
  - cbn. by rewrite featToCol_lookup.
  - split; [exact Hpy2|]. apply Hpy3. eexists. vm_compute. reflexivity.
Defined.

(** ** The run when a step fails *)

Lemma loadData_world (w : World) : (loadData w).1 = w.
Proof.
  unfold loadData, read_csv. run.
  destruct (fs w !! DATA_FILE) as [[|[rows|?|?]]|]; try done.
  destruct (index_getitem _ _); [|done]. by destruct (drop_labels _ _).
Qed.

Section Failures.
Context `{Float64} `{BasemapLib}.

(** X8.  When the data cannot be loaded (no data file, or one too short
    for the two positions), the program ends in the loader's exception
    and the world is as before: no figure, no directory, no file. *)
Theorem main_without_data (py : python) (w : World) (e : exn) :
  (loadData w).2 = Raise e → main py w = (w, Raise e).
Proof.
  intros Hload. pose proof (loadData_world w) as Hw.
  rewrite main_unfold. run.
  destruct (loadData w) as [w' r]. cbn in *. by subst.
Qed.

(** X9.  The renderers are not isolated from each other: when a kept
    record has an offense that is not in the colour table, and the
    background map can be built for the loaded table, the program ends
    in [KeyError] in its second renderer; the plain scatter PNG has been
    written by then, and the other four output files are left as they
    were. *)
Theorem main_stops_at_unknown_offense (py : python) (rows : list Crime) (w : World) :
  fs w !! DATA_FILE = Some (File (Csv rows)) →
  (759 ≤ length rows)%nat →
  (∃ i c, rows !! i = Some c ∧ i ≠ 222%nat ∧ i ≠ 758%nat ∧ featToCol !! OFFENSE c = None) →
  (∀ df, loadData w = (w, Ok df) → builds_map df) →
  can_save w "output/scatter.png" →
  (main py w).2 = Raise KeyError
  ∧ written (main py w).1 "output/scatter.png"
  ∧ ∀ p, p ∈ ["output/scatter_offense.png"; "output/scatter_method.png";
              "output/heatmap.png"; "output/bokeh_scatter.html"] →
         fs (main py w).1 !! p = fs w !! p.
Proof.
  intros Hfile Hlen (i & c & Hi & Hne1 & Hne2 & Hc) Hmap Hsave.
  pose proof (loadData_long_file w rows Hfile Hlen) as Hload.
  specialize (Hmap _ Hload).
  rewrite main_unfold. run. rewrite Hload.
  set (df := filter _ _) in *.
  assert ((i, c) ∈ df) as Hin.
  { subst df. apply list_elem_of_filter. split.
    - cbn. rewrite !not_elem_of_cons. split_and!; [done..|apply not_elem_of_nil].
    - by apply (elem_of_lookup_imap_2 pair). }
  destruct (first_unknown OFFENSE df) as (good & bad & rest & Hsplit & Hgood & Hbad).
  { apply Exists_exists. by exists (i, c). }
  unfold render_all. run.
  destruct (scatterPlot_writes py df None (replicate (length df) "r") w) as (g0 & ->);
    [done..|].
  change (scatter_png None) with "output/scatter.png".
  pose proof (scatterPlot_first_unknown py "OFFENSE" OFFENSE good bad rest
                {| fs := <["output/scatter.png" := File (Png g0)]> (<[OUT_DIR := Dir]> (fs w));
                   figures := g0 :: figures w |} ltac:(done) Hgood Hbad) as Hsecond.
  rewrite <-Hsplit in Hsecond.
  assert (∃ w2, scatterPlot py df (Some "OFFENSE")
                  {| fs := <["output/scatter.png" := File (Png g0)]>
                             (<[OUT_DIR := Dir]> (fs w));
                     figures := g0 :: figures w |} = (w2, Raise KeyError)
                ∧ fs w2 = <["output/scatter.png" := File (Png g0)]>
                            (<[OUT_DIR := Dir]> (fs w))) as (w2 & -> & Hfs).
  { destruct py.
    - eexists. split; [exact Hsecond|done].
    - destruct (Hsecond Hmap) as (g & Hg & _). eexists. split; [exact Hg|done]. }
  cbn [fst snd]. split; [done|]. split.
  - eexists. rewrite Hfs. apply lookup_insert_eq.
  - intros p Hp. rewrite Hfs. rewrite !lookup_insert_ne; [done|..].
    + intros <-. rewrite !elem_of_cons, elem_of_nil in Hp. by destruct Hp as [|[|[|[|]]]].
    + intros <-. rewrite !elem_of_cons, elem_of_nil in Hp. by destruct Hp as [|[|[|[|]]]].
Qed.
End Failures.

Lemma main_without_data_witness : main Py3 empty_world = (empty_world, Raise IOError).
Proof. apply (main_without_data Py3 empty_world IOError). reflexivity. Defined.

Lemma main_stops_at_unknown_offense_witness :
  (main Py3 (world_with (spread_rows "ARSON" "GUN" 759))).2 = Raise KeyError
  ∧ written (main Py3 (world_with (spread_rows "ARSON" "GUN" 759))).1 "output/scatter.png"
  ∧ ∀ p, p ∈ ["output/scatter_offense.png"; "output/scatter_method.png";
              "output/heatmap.png"; "output/bokeh_scatter.html"] →
         fs (main Py3 (world_with (spread_rows "ARSON" "GUN" 759))).1 !! p
         = fs (world_with (spread_rows "ARSON" "GUN" 759)) !! p.
Proof.
  apply (main_stops_at_unknown_offense Py3 (spread_rows "ARSON" "GUN" 759)).
  - apply lookup_singleton_eq.
  - by rewrite spread_rows_length.
  - eexists 0%nat, _. split; [reflexivity|].
    split; [lia|]. split; [lia|]. cbn. by rewrite featToCol_lookup.
  - intros df Hdf. by destruct (spread_rows_loaded "ARSON" "GUN" df Hdf).
  - split.
    + intros a. unfold world_with. cbn [fs]. by rewrite lookup_singleton_ne.
    + unfold world_with. cbn [fs]. by rewrite lookup_singleton_ne.
Defined.

(** ** The selector over time *)

(** A loop whose choice of colour does not read the colour array writes
    a colour array that its other columns determine. *)
Lemma recolor_record (pick : source.data → nat → string) (d : source.data) :
  (∀ j c d' k, pick (set_color j c d') k = pick d' k) →
  recolor pick 0 d
  = {| source.color := pick d <$> seq 0 (length (source.color d));
       source.lat := source.lat d;
       source.lon := source.lon d;
       source.offense := source.offense d;
       source.weapon := source.weapon d;
       source.start_date := source.start_date d |}.
Proof.
  intros Hpick.
  pose proof (recolor_colors pick 0 d Hpick) as Hc.
  destruct (recolor_frame pick 0 d) as (Hlat & Hlon & Hoff & Hweap & Hdate & _).
  destruct (recolor pick 0 d) as [c la lo o wp sd]. cbn in *.
  rewrite Nat.sub_0_r in Hc. by subst.
Qed.

(** The three options of the selector overwrite every colour, so what
    they leave depends on the other columns and on the number of
    colours only. *)
Lemma callback_forgets_colours (b : Z) (d d' : source.data) :
  (0 ≤ b ≤ 2)%Z →
  length (source.color d') = length (source.color d) →
  source.lat d' = source.lat d → source.lon d' = source.lon d →
  source.offense d' = source.offense d → source.weapon d' = source.weapon d →
  source.start_date d' = source.start_date d →
  callback b d' = callback b d.
Proof.
  intros Hb Hn Hlat Hlon Hoff Hweap Hdate.
  assert (b = 0 ∨ b = 1 ∨ b = 2)%Z as [->|[->| ->]] by lia; unfold callback.
  - rewrite !recolor_record by done. by rewrite Hn, Hlat, Hlon, Hoff, Hweap, Hdate.
  - rewrite !recolor_record by apply set_color_offense.
    rewrite Hn, Hlat, Hlon, Hoff, Hweap, Hdate. f_equal.
    apply list_fmap_ext. intros _ k _. unfold by_offense. by rewrite Hoff.
  - rewrite !recolor_record by apply set_color_weapon.
    rewrite Hn, Hlat, Hlon, Hoff, Hweap, Hdate. f_equal.
    apply list_fmap_ext. intros _ k _. unfold by_weapon. by rewrite Hweap.
Qed.

Lemma activations_frame (options : list Z) (d : source.data) :
  source.lat (activations options d) = source.lat d
  ∧ source.lon (activations options d) = source.lon d
  ∧ source.offense (activations options d) = source.offense d
  ∧ source.weapon (activations options d) = source.weapon d
  ∧ source.start_date (activations options d) = source.start_date d
  ∧ length (source.color (activations options d)) = length (source.color d).
Proof.
  unfold activations. revert d.
  induction options as [|o options IH]; intros d; [done|]. cbn [foldl].
  destruct (IH (callback o d)) as (-> & -> & -> & -> & -> & ->).
  unfold callback. destruct o as [|[[]| []|]|]; try done; apply recolor_frame.
Qed.

(** X10.  The selector has no memory: after any sequence of activations,
    with any integers as options, activating option 0, 1 or 2 leaves the
    marker data exactly as that option leaves the data it started from.
    What the map shows is decided by the last activation alone. *)
Theorem callback_last_activation_wins (options : list Z) (b : Z) (d : source.data) :
  (0 ≤ b ≤ 2)%Z →
  activations (options ++ [b]) d = callback b d.
Proof.
  intros Hb. unfold activations. rewrite foldl_app. cbn [foldl].
  destruct (activations_frame options d) as (Hlat & Hlon & Hoff & Hweap & Hdate & Hn).
  by apply callback_forgets_colours.
Qed.

Lemma callback_last_activation_wins_witness :
  (0 ≤ 1 ≤ 2)%Z
  ∧ activations ([2; 7; 0] ++ [1])%Z (bokeh_source two_crimes)
    = callback 1 (bokeh_source two_crimes).
Proof.
  split; [lia|]. apply (callback_last_activation_wins [2; 7; 0]%Z 1). lia.
Defined.

(** X11.  The six columns of the interactive map's data source have one
    entry per record of the table, when the page is written and after
    any sequence of activations of the selector: the loops of the
    callback never read or write past the end of a column. *)
Theorem activations_keep_columns (options : list Z) (df : DataFrame) :
  columns_of_length (length df) (activations options (bokeh_source df)).
Proof.
  destruct (activations_frame options (bokeh_source df))
    as (Hlat & Hlon & Hoff & Hweap & Hdate & Hn).
  unfold columns_of_length. rewrite Hlat, Hlon, Hoff, Hweap, Hdate, Hn.
  cbn [bokeh_source source.color source.lat source.lon source.offense
       source.weapon source.start_date].
  rewrite length_replicate, !column_length. done.
Qed.

(** X12.  The callback has a colour for every category: where the static
    renderer has no entry for a record's offense or weapon (and raises
    KeyError), option 1 paints the record blue and option 2 paints it
    green. *)
Theorem callback_colours_unknown_categories (df : DataFrame) (i : nat) (row : nat * Crime) :
  df !! i = Some row →
  (featToCol !! OFFENSE row.2 = None →
   css_colour <$> source.color (callback 1 (bokeh_source df)) !! i = Some (Some Blue))
  ∧ (featToCol !! METHOD row.2 = None →
     css_colour <$> source.color (callback 2 (bokeh_source df)) !! i = Some (Some Green)).
Proof.
  intros Hrow.
  pose proof (callback_1_colours df) as H1. pose proof (callback_2_colours df) as H2.
  apply (f_equal (λ l, l !! i)) in H1, H2.
  rewrite !list_lookup_fmap, Hrow in H1, H2. cbn [fmap option_fmap option_map] in H1, H2.
  split; intros Hnone.
  - destruct (source.color (callback 1 (bokeh_source df)) !! i) as [c|]; [|done].
    cbn in *. injection H1 as ->. do 2 f_equal. unfold offense_rule.
    case_decide as Heq; [|done]. by rewrite Heq in Hnone.
  - destruct (source.color (callback 2 (bokeh_source df)) !! i) as [c|]; [|done].
    cbn in *. injection H2 as ->. do 2 f_equal. unfold method_rule.
    repeat case_decide; try done; match goal with Heq : METHOD _ = _ |- _ => by rewrite Heq in Hnone end.
Qed.

Lemma callback_colours_unknown_categories_witness :
  [(0%nat, crime "ARSON" "POISON")] !! 0%nat = Some (0%nat, crime "ARSON" "POISON")
  ∧ (featToCol !! "ARSON" = None →
     css_colour <$> source.color (callback 1 (bokeh_source [(0%nat, crime "ARSON" "POISON")])) !! 0%nat
     = Some (Some Blue))
  ∧ (featToCol !! "POISON" = None →
     css_colour <$> source.color (callback 2 (bokeh_source [(0%nat, crime "ARSON" "POISON")])) !! 0%nat
     = Some (Some Green)).
Proof.
  split; [reflexivity|].
  apply (callback_colours_unknown_categories
           [(0%nat, crime "ARSON" "POISON")] 0 (0%nat, crime "ARSON" "POISON")).
  reflexivity.
Defined.

(** ** The grid and the density of the heat map *)

Section Grid.
Context `{Float64} `{BasemapLib}.

(** X13.  On a table of doubles for which the map can be built and
    whose edges pass numpy's check, the heat map hands [pcolormesh] a
    grid of 500 x 500 corner points and a density of 499 x 499 cells,
    one cell between each four neighbouring corners, in one
    orientation: row [i] of the grid holds the projected points of
    latitude edge [i], column [j] those of longitude edge [j], as row
    [i] of the density counts latitude cell [i] and column [j]
    longitude cell [j]. *)
Theorem heatmap_grid_matches_density (df : DataFrame) (w : World)
    (lon_bins lat_bins : list Q) :
  builds_map df → doubles df →
  padded_bins (column long df) = Ok lon_bins →
  padded_bins (column lat df) = Ok lat_bins →
  increasing lat_bins = true → increasing lon_bins = true →
  ∃ m xs ys density,
    background (gcf (heatmap df w).1) = Some m
    ∧ mesh (gcf (heatmap df w).1)
      = Some {| mesh_xs := xs; mesh_ys := ys; mesh_c := density |}
    ∧ title (gcf (heatmap df w).1) = "Heatmap of crimes in DC"
    ∧ markers (gcf (heatmap df w).1) = []
    ∧ (length xs = 500 ∧ Forall (λ row, length row = 500) xs)%nat
    ∧ (length ys = 500 ∧ Forall (λ row, length row = 500) ys)%nat
    ∧ rect 499 499 density
    ∧ (∀ i j x y, lat_bins !! i = Some y → lon_bins !! j = Some x →
         (row ← xs !! i; row !! j) = Some (to_map m x y).1
         ∧ (row ← ys !! i; row !! j) = Some (to_map m x y).2)
    ∧ (∀ i j, (i < 499)%nat → (j < 499)%nat →
         cell_at density i j
         = Some (length (filter (λ row : nat * Crime,
                                   in_bin lat_bins i (lat row.2) = true
                                   ∧ in_bin lon_bins j (long row.2) = true) df))).
Proof.
  intros Hmap Hdoubles Hlon Hlat Hincy Hincx.
  pose proof (builds_map_rows df Hmap) as Hdf. destruct Hmap as [m Hm].
  destruct (heat_histogram df lon_bins lat_bins Hdf Hdoubles Hlon Hlat Hincy Hincx)
    as (d & Hd & Hrect & _ & Hcells).
  pose proof (heatmap_rows df w m lon_bins lat_bins d Hm Hlon Hlat Hd) as Hrun.
  assert (length lon_bins = 500%nat) as Hnx.
  { apply padded_bins_inv in Hlon as (? & ? & _ & _ & ->). apply linspace_length. }
  assert (length lat_bins = 500%nat) as Hny.
  { apply padded_bins_inv in Hlat as (? & ? & _ & _ & ->). apply linspace_length. }
  exists m. eexists _, _, d.
  unfold gcf. rewrite Hrun, save_figures. cbn [figures hd background mesh title markers].
  split; [reflexivity|]. split; [reflexivity|]. split; [reflexivity|]. split; [reflexivity|].
  split; [|split; [|split; [exact Hrect|split; [|exact Hcells]]]].
  - destruct (grid_shape (λ x y, (to_map m x y).1) lon_bins lat_bins) as [Hl Hrows].
    rewrite Hny in Hl. rewrite Hnx in Hrows. exact (conj Hl Hrows).
  - destruct (grid_shape (λ x y, (to_map m x y).2) lon_bins lat_bins) as [Hl Hrows].
    rewrite Hny in Hl. rewrite Hnx in Hrows. exact (conj Hl Hrows).
  - intros i j x y Hy Hx. split.
    + exact (grid_lookup (λ x y, (to_map m x y).1) lon_bins lat_bins i j x y Hy Hx).
    + exact (grid_lookup (λ x y, (to_map m x y).2) lon_bins lat_bins i j x y Hy Hx).
Qed.
End Grid.

Lemma heatmap_grid_matches_density_witness :
  ∃ lon_bins lat_bins,
    padded_bins (column long two_crimes) = Ok lon_bins
    ∧ padded_bins (column lat two_crimes) = Ok lat_bins
    ∧ ∃ m xs ys density,
        background (gcf (heatmap two_crimes empty_world).1) = Some m
        ∧ mesh (gcf (heatmap two_crimes empty_world).1)
          = Some {| mesh_xs := xs; mesh_ys := ys; mesh_c := density |}
        ∧ title (gcf (heatmap two_crimes empty_world).1) = "Heatmap of crimes in DC"
        ∧ markers (gcf (heatmap two_crimes empty_world).1) = []
        ∧ (length xs = 500 ∧ Forall (λ row, length row = 500) xs)%nat
        ∧ (length ys = 500 ∧ Forall (λ row, length row = 500) ys)%nat
        ∧ rect 499 499 density
        ∧ (∀ i j x y, lat_bins !! i = Some y → lon_bins !! j = Some x →
             (row ← xs !! i; row !! j) = Some (to_map m x y).1
             ∧ (row ← ys !! i; row !! j) = Some (to_map m x y).2)
        ∧ (∀ i j, (i < 499)%nat → (j < 499)%nat →
             cell_at density i j
             = Some (length (filter (λ row : nat * Crime,
                                       in_bin lat_bins i (lat row.2) = true
                                       ∧ in_bin lon_bins j (long row.2) = true) two_crimes))).
Proof.
  destruct (padded_bins_spec (column long two_crimes)) as (lon_bins & Hlon & _); [done|].
  destruct (padded_bins_spec (column lat two_crimes)) as (lat_bins & Hlat & _); [done|].
  exists lon_bins, lat_bins. split; [exact Hlon|]. split; [exact Hlat|].
  apply (heatmap_grid_matches_density two_crimes empty_world lon_bins lat_bins).
  - exact two_crimes_map.
  - apply exact_doubles.
  - exact Hlon.
  - exact Hlat.
  - exact (exact_edges_pass _ _ Hlat).
  - exact (exact_edges_pass _ _ Hlon).
Defined.

(** ** The figure of the scatter plot *)

Lemma plotted_positions (alpha : Q) (xs ys : list Q) (it : iterable string) :
  loop_result xs ys it = Ok tt →
  length xs = length it → length ys = length it →
  m_lon <$> plotted alpha xs ys it = xs
  ∧ m_lat <$> plotted alpha xs ys it = ys
  ∧ Forall (λ mk, m_alpha mk = alpha) (plotted alpha xs ys it).
Proof.
  revert ys it. induction xs as [|x xs IH]; intros [|y ys] [|[c|e] it] Hloop Hxs Hys;
    simplify_eq/=; [done|].
  destruct (IH ys it Hloop) as (-> & -> & Hall); [done..|].
  split_and!; [done|done|]. by constructor.
Qed.

(** Once the directory has been seen to and the figure saved without an
    error, the file holds the figure that was current. *)
Lemma save_result (p : string) (w : World) :
  ((ensure_out_dir;; savefig p) w).2 = Ok tt →
  fs ((ensure_out_dir;; savefig p) w).1 !! p = Some (File (Png (gcf w))).
Proof.
  unfold ensure_out_dir, path_exists, makedirs, savefig, write_file. run.
  destruct (fs w !! OUT_DIR) as [n|] eqn:Hdir.
  - rewrite bool_decide_true by done.
    destruct (fs w !! dirname p) as [[|a]|], (fs w !! p) as [[|a']|];
      cbn [fst snd fs]; intros; try done; apply lookup_insert_eq.
  - rewrite bool_decide_false by (by intros [? ?]). rewrite Hdir. cbn [fs].
    destruct (<[OUT_DIR:=Dir]> (fs w) !! dirname p) as [[|a]|],
             (<[OUT_DIR:=Dir]> (fs w) !! p) as [[|a']|];
      cbn [fst snd fs]; intros; try done; apply lookup_insert_eq.
Qed.

Section Figure.
Context `{BasemapLib}.

(** The run of the static renderer when the map can be built, with the
    title and the legend the figure gets. *)
Lemma scatterPlot_figure py df feature it m w :
  map_of df = Ok m → colors py df feature = Ok it →
    let shifted := shiftdata m (column long df) (column lat df) in
    scatterPlot py df feature w
    = match loop_result shifted.1 shifted.2 it with
      | Raise e =>
          ({| fs := fs w;
              figures := {| background := Some m;
                            markers := plotted (4 # 10) shifted.1 shifted.2 it;
                            mesh := None; title := ""; legend := [] |} :: figures w |},
           Raise e)
      | Ok _ =>
          (ensure_out_dir;; savefig (scatter_png feature))
            {| fs := fs w;
               figures :=
                 {| background := Some m;
                    markers := plotted (4 # 10) shifted.1 shifted.2 it;
                    mesh := None;
                    title :=
                      "Scatter plot of crimes in DC"
                      +:+ (if decide (feature = Some "OFFENSE")
                           then " according to the type of offence" else "")
                      +:+ (if decide (feature = Some "METHOD")
                           then " according to the weapon" else "");
                    legend :=
                      if decide (feature = Some "OFFENSE")
                      then [("red", "sex abuse"); ("blue", "homicide")]
                      else if decide (feature = Some "METHOD")
                      then [("red", "gun"); ("blue", "knife"); ("green", "other")]
                      else [] |} :: figures w |}
      end.
Proof.
  intros Hm Hc. cbv zeta.
  unfold scatterPlot. run. rewrite Hc. unfold plt_figure at 1.
  rewrite (backgroundLayer_data _ _ m _ Hm).
  cbn [gcf hd figures tail new_figure markers mesh title legend fs].
  rewrite for_zip3_scatter. unfold add_markers; cbn [markers background mesh title legend app].
  destruct (loop_result _ _ it) as [[]|e]; [|done].
  change (OUT_DIR +:+ "scatter" +:+ _) with (scatter_png feature).
  destruct (decide (feature = Some "OFFENSE")) as [->|Hoff].
  - destruct (decide (Some "OFFENSE" = Some "METHOD")) as [?|_]; [done|]. reflexivity.
  - destruct (decide (feature = Some "METHOD")) as [->|Hmet]; reflexivity.
Qed.

(** X15.  Whenever the static renderer completes, the file it has written
    holds the current figure: the map image, one marker per record at
    the record's shifted coordinates, in the order of the table and all
    of opacity 0.4, no mesh, and the title and legend of the feature (no
    legend when no feature is given). *)
Theorem scatterPlot_saved_figure py (df : DataFrame) (feature : option string) (w : World) :
  (scatterPlot py df feature w).2 = Ok tt →
  ∃ m g,
    fs (scatterPlot py df feature w).1 !! scatter_png feature = Some (File (Png g))
    ∧ gcf (scatterPlot py df feature w).1 = g
    ∧ background g = Some m ∧ mesh g = None
    ∧ m_lon <$> markers g = (shiftdata m (column long df) (column lat df)).1
    ∧ m_lat <$> markers g = (shiftdata m (column long df) (column lat df)).2
    ∧ length (markers g) = length df
    ∧ Forall (λ mk, m_alpha mk = 4 # 10) (markers g)
    ∧ (feature = None →
       title g = "Scatter plot of crimes in DC" ∧ legend g = [])
    ∧ (feature = Some "OFFENSE" →
       title g = "Scatter plot of crimes in DC according to the type of offence"
       ∧ legend g = [("red", "sex abuse"); ("blue", "homicide")])
    ∧ (feature = Some "METHOD" →
       title g = "Scatter plot of crimes in DC according to the weapon"
       ∧ legend g = [("red", "gun"); ("blue", "knife"); ("green", "other")]).
Proof.
  intros Hok.
  destruct (colors py df feature) as [it|e] eqn:Hc;
    [|by rewrite (scatterPlot_colors_raise _ _ _ _ _ Hc) in Hok].
  destruct (map_of df) as [m|e] eqn:Hm;
    [|by rewrite (scatterPlot_refused _ _ _ _ _ _ Hm Hc) in Hok].
  pose proof (scatterPlot_figure py df feature it m w Hm Hc) as Hrun.
  cbn zeta in Hrun.
  destruct (shiftdata_shape m (column long df) (column lat df)) as [Hxs Hys].
  rewrite column_length in Hxs, Hys.
  pose proof (colors_length _ _ _ _ Hc) as Hit.
  destruct (loop_result _ _ it) as [[]|e] eqn:Hloop;
    [|by rewrite Hrun in Hok].
  destruct (plotted_positions (4 # 10) _ _ it Hloop) as (Hlon & Hlat & Halpha);
    [congruence..|].
  rewrite Hrun in Hok |- *. exists m. eexists.
  split; [exact (save_result _ _ Hok)|].
  unfold gcf at 1. rewrite save_figures. cbn [gcf hd figures background mesh markers title legend].
  split; [reflexivity|]. split; [reflexivity|]. split; [reflexivity|].
  split; [exact Hlon|]. split; [exact Hlat|].
  split; [by rewrite <-(length_fmap m_lon), Hlon|]. split; [exact Halpha|].
  split; [|split]; intros ->; split; reflexivity.
Qed.
End Figure.

Lemma scatterPlot_saved_figure_witness :
  (scatterPlot Py3 two_crimes (Some "METHOD") empty_world).2 = Ok tt
  ∧ ∃ m g,
    fs (scatterPlot Py3 two_crimes (Some "METHOD") empty_world).1
      !! scatter_png (Some "METHOD") = Some (File (Png g))
    ∧ gcf (scatterPlot Py3 two_crimes (Some "METHOD") empty_world).1 = g
    ∧ background g = Some m ∧ mesh g = None
    ∧ m_lon <$> markers g = (shiftdata m (column long two_crimes) (column lat two_crimes)).1
    ∧ m_lat <$> markers g = (shiftdata m (column long two_crimes) (column lat two_crimes)).2
    ∧ length (markers g) = length two_crimes
    ∧ Forall (λ mk, m_alpha mk = 4 # 10) (markers g)
    ∧ (Some "METHOD" = None →
       title g = "Scatter plot of crimes in DC" ∧ legend g = [])
    ∧ (Some "METHOD" = Some "OFFENSE" →
       title g = "Scatter plot of crimes in DC according to the type of offence"
       ∧ legend g = [("red", "sex abuse"); ("blue", "homicide")])
    ∧ (Some "METHOD" = Some "METHOD" →
       title g = "Scatter plot of crimes in DC according to the weapon"
       ∧ legend g = [("red", "gun"); ("blue", "knife"); ("green", "other")]).
Proof.
  split; [vm_compute; reflexivity|].
  apply (scatterPlot_saved_figure Py3 two_crimes (Some "METHOD") empty_world).
  vm_compute; reflexivity.
Defined.

(** ** The interactive page and the output directory *)

(** X16.  The interactive renderer writes its page exactly when the
    output directory is there and the page's path is not a directory:
    it does not make the output directory itself.  Otherwise it raises
    IOError and leaves everything as it was.  Unlike the two static
    renderers it needs no record and no map: the page is written for
    the empty table as well.  The page holds one entry per record in
    each column, every colour red, with the first option of the
    selector active, and no figure is opened or changed. *)
Theorem bokeh_scatter_writes_iff_out_dir (df : DataFrame) (w : World) :
  ((bokeh_scatter df w).2 = Ok tt
   ↔ fs w !! OUT_DIR = Some Dir ∧ fs w !! "output/bokeh_scatter.html" ≠ Some Dir)
  ∧ ((bokeh_scatter df w).2 ≠ Ok tt → bokeh_scatter df w = (w, Raise IOError))
  ∧ ((bokeh_scatter df w).2 = Ok tt →
     ∃ doc,
       fs (bokeh_scatter df w).1 = <["output/bokeh_scatter.html" := File (Html doc)]> (fs w)
       ∧ figures (bokeh_scatter df w).1 = figures w
       ∧ doc_active doc = 0%Z
       ∧ columns_of_length (length df) (doc_source doc)
       ∧ Forall (λ c, css_colour c = Some Red) (source.color (doc_source doc))).
Proof.
  assert (columns_of_length (length df) (bokeh_source df)
          ∧ Forall (λ c, css_colour c = Some Red) (source.color (bokeh_source df)))
    as Hsource.
  { unfold bokeh_source, columns_of_length.
    cbn [source.color source.lat source.lon source.offense source.weapon source.start_date].
    split.
    - by rewrite length_replicate, !column_length.
    - by apply Forall_replicate. }
  unfold bokeh_scatter, write_file.
  change (dirname (OUT_DIR +:+ "bokeh_scatter.html")) with OUT_DIR.
  change (OUT_DIR +:+ "bokeh_scatter.html") with "output/bokeh_scatter.html".
  destruct (fs w !! OUT_DIR) as [[|a]|] eqn:Hdir;
    destruct (fs w !! "output/bokeh_scatter.html") as [[|a']|] eqn:Hfile;
    cbn [fst snd fs figures];
    (split; [split; [try done; by intros _|by intros [? ?]]|]);
    (split; [done|]); try done;
    intros _; eexists;
    (split; [reflexivity|]); (split; [reflexivity|]); (split; [reflexivity|]);
    exact Hsource.
Qed.
